(** * Garmin Connect synchronisation worker

    A shallow embedding of [src/main.py] (class [GarminSyncWorker]) and the
    properties of its sync pipeline: webhook authorisation, session
    establishment, paginated fetch, per-activity processing, exercise-set
    unit conversion and the two-table store.

    Python values are embedded as the inductive [pyval] (JSON data: None,
    bool, int, float, str, list, dict); a [dict] is a finite map from
    strings; Python floats are IEEE binary64 numbers (primitive floats);
    exceptions are values of [exn] carried by [result].  Code that talks to
    the outside world (the key-value store, the relational database, the
    garth client, the clock) runs in the monad [M] over the record [world],
    which also keeps a chronological log of every external call.

    What is outside the source is a parameter (record [outside]): the
    clock, [datetime.fromisoformat], the garth client and the failures of
    the database may behave in any way, and differently at each call.  The
    key-value store follows its contract ([get] returns a string or
    nothing, [put] stores one; neither fails).  The search endpoint
    answers nothing or a list of dicts, as the signatures of
    [fetch_activities] and [process_and_store_activities] declare
    ([List[Dict]]); the fields of a record and the answer of the
    exercise-set endpoint are arbitrary JSON.  [print] and [asyncio.sleep]
    have no effect the properties look at and are left out. *)

From Stdlib Require Import ZArith Floats Uint63 Lia Ascii String.
From stdpp Require Import gmap strings list fin_maps.

Local Open Scope Z_scope.

(** ** Python values *)

#[warnings="-register-all"]
Inductive pyval : Type :=
| PNone
| PBool (b : bool)
| PInt (n : Z)
| PFloat (x : float)
| PStr (s : string)
| PList (l : list pyval)
| PDict (d : gmap string pyval).

Abbreviation dict := (gmap string pyval).

(** The exception classes the code can meet.  All of them are subclasses of
    Python's [Exception]; [GarthException] is the one class the code names
    in an [except] clause of its own. *)
Inductive exn : Type :=
| KeyError (key : string)
| TypeError
| AttributeError
| ValueError
| OverflowError
| ZeroDivisionError
| GarthException
| DatabaseError
| Exception (msg : string).

Inductive result (A : Type) : Type :=
| Ok (a : A)
| Raise (e : exn).
Arguments Ok {A} a.
Arguments Raise {A} e.

#[export] Instance result_ret : MRet result := fun A a => Ok a.
#[export] Instance result_bind : MBind result := fun A B f r =>
  match r with
  | Ok a => f a
  | Raise e => Raise e
  end.

Definition is_garth_exception (e : exn) : bool :=
  match e with GarthException => true | _ => false end.

(** Truth value testing ([if x], [not x], [x or y], [x and y]). *)
Definition truthy (v : pyval) : bool :=
  match v with
  | PNone => false
  | PBool b => b
  | PInt n => negb (n =? 0)
  | PFloat x => negb (PrimFloat.eqb x 0)
  | PStr s => negb (String.eqb s "")
  | PList l => match l with [] => false | _ :: _ => true end
  | PDict d => match size d with O => false | S _ => true end
  end.

(** [a or b] returns one of its operands. *)
Definition py_or (a b : pyval) : pyval := if truthy a then a else b.

(** Truth value of an [Optional[str]] (KV values, environment bindings). *)
Definition truthy_str (o : option string) : bool :=
  match o with
  | Some s => negb (String.eqb s "")
  | None => false
  end.

(** [v == 'literal'] for a string literal: true exactly for the equal str. *)
Definition py_eq_str (v : pyval) (s : string) : bool :=
  match v with
  | PStr t => String.eqb t s
  | _ => false
  end.

(** [v in [s1, s2, ...]] for a list of string literals. *)
Definition py_in_strs (v : pyval) (l : list string) : bool :=
  existsb (py_eq_str v) l.

(** [d.get(key, default)] and [d.get(key)] on a dict. *)
Definition dict_get (d : dict) (key : string) (dflt : pyval) : pyval :=
  default dflt (d !! key).

(** [d[key]] on a dict: [KeyError] when the key is missing. *)
Definition dict_item (d : dict) (key : string) : result pyval :=
  match d !! key with
  | Some v => Ok v
  | None => Raise (KeyError key)
  end.

(** [v.get(key, default)] on an arbitrary value: only dicts have [get]. *)
Definition py_get (v : pyval) (key : string) (dflt : pyval) : result pyval :=
  match v with
  | PDict d => Ok (dict_get d key dflt)
  | _ => Raise AttributeError
  end.

(** [v[key]] with a string key on an arbitrary value. *)
Definition py_item (v : pyval) (key : string) : result pyval :=
  match v with
  | PDict d => dict_item d key
  | _ => Raise TypeError
  end.

(** A dict display [{k1: v1, ...}]; later keys win. *)
Definition dict_of (l : list (string * pyval)) : dict :=
  fold_left (fun d kv => <[kv.1 := kv.2]> d) l ∅.

(** [d.update({k1: v1, ...})]. *)
Definition dict_update (d : dict) (l : list (string * pyval)) : dict :=
  fold_left (fun d kv => <[kv.1 := kv.2]> d) l d.

Fixpoint chars (s : string) : list pyval :=
  match s with
  | EmptyString => []
  | String c s' => PStr (String c EmptyString) :: chars s'
  end.

(** The items a [for] loop sees: list elements, dict keys, characters. *)
Definition py_iter (v : pyval) : result (list pyval) :=
  match v with
  | PList l => Ok l
  | PDict d => Ok ((λ kv, PStr kv.1) <$> map_to_list d)
  | PStr s => Ok (chars s)
  | _ => Raise TypeError
  end.

(** [isinstance(v, list)]. *)
Definition is_list (v : pyval) : bool :=
  match v with PList _ => true | _ => false end.

(** ** Strings *)

(** [s.replace('Z', '+00:00')]. *)
Fixpoint replace_Z (s : string) : string :=
  match s with
  | EmptyString => EmptyString
  | String c s' =>
      if Ascii.eqb c "Z"%char then ("+00:00" +:+ replace_Z s')%string
      else String c (replace_Z s')
  end.

(** [s.endswith(suffix)]. *)
Definition endswith (s suffix : string) : bool :=
  let n := String.length s in
  let m := String.length suffix in
  (m <=? n)%nat && String.eqb (substring (n - m) m s) suffix.

(** ** Floating point

    Python's [float] is IEEE binary64.  [nearest_float p q] is the double
    nearest to the rational [p/q] (ties to even), the rounding CPython
    applies when it converts an int to a float, divides two ints with [/],
    or reads back the decimal string of [round]. *)

Definition round_half_even (p q : Z) : Z :=
  let d := p / q in
  let r := p mod q in
  if 2 * r <? q then d
  else if q <? 2 * r then d + 1
  else if Z.even d then d else d + 1.

(** For [0 <= p] and [0 < q]. *)
Definition nearest_float_pos (p q : Z) : float :=
  if p =? 0 then 0%float else
  let e0 := Z.log2 p - Z.log2 q in
  let e1 := if p * 2 ^ Z.max 0 (- e0) <? q * 2 ^ Z.max 0 e0 then e0 - 1 else e0 in
  let sh := Z.max (e1 - 52) (-1074) in
  let m := round_half_even (p * 2 ^ Z.max 0 (- sh)) (q * 2 ^ Z.max 0 sh) in
  Z.ldexp (PrimFloat.of_uint63 (Uint63.of_Z m)) sh.

(** For [0 < q]. *)
Definition nearest_float (p q : Z) : float :=
  if p <? 0 then (- nearest_float_pos (- p) q)%float else nearest_float_pos p q.

(** [float(n)]: [OverflowError] when [n] is too large for a double. *)
Definition float_of_int (n : Z) : result float :=
  let x := nearest_float n 1 in
  if PrimFloat.is_infinity x then Raise OverflowError else Ok x.

(** [a / b] on two ints: the correctly rounded quotient. *)
Definition int_truediv (a b : Z) : result float :=
  if b =? 0 then Raise ZeroDivisionError else
  let x := if b <? 0 then nearest_float (- a) (- b) else nearest_float a b in
  if PrimFloat.is_infinity x then Raise OverflowError else Ok x.

(** [round(x, 2)] on a float: the exact binary value of [x] is rounded to
    two decimals (ties to even) and the decimal result is read back as the
    nearest double; NaN and the infinities round to themselves. *)
Definition float_round2 (x : float) : float :=
  match Prim2SF x with
  | S754_zero _ => x
  | S754_finite s m e =>
      let n := round_half_even (Zpos m * 100 * 2 ^ Z.max 0 e) (2 ^ Z.max 0 (- e)) in
      let r := nearest_float_pos n 100 in
      if s then (- r)%float else r
  | _ => x
  end.

(** ** Arithmetic on Python values *)

Inductive number : Type :=
| NInt (n : Z)
| NFloat (x : float).

(** [bool] is a subclass of [int]. *)
Definition as_number (v : pyval) : option number :=
  match v with
  | PBool b => Some (NInt (Z.b2z b))
  | PInt n => Some (NInt n)
  | PFloat x => Some (NFloat x)
  | _ => None
  end.

Definition to_float (a : number) : result float :=
  match a with
  | NInt n => float_of_int n
  | NFloat x => Ok x
  end.

Definition repeat_str (s : string) (n : Z) : string :=
  Nat.iter (Z.to_nat n) (λ acc, s +:+ acc)%string EmptyString.

Definition repeat_list (l : list pyval) (n : Z) : list pyval :=
  Nat.iter (Z.to_nat n) (λ acc, l ++ acc) [].

(** [a + b]. *)
Definition py_add (a b : pyval) : result pyval :=
  match as_number a, as_number b with
  | Some (NInt m), Some (NInt n) => Ok (PInt (m + n))
  | Some x, Some y =>
      fx ← to_float x; fy ← to_float y; Ok (PFloat (fx + fy)%float)
  | _, _ =>
      match a, b with
      | PStr s, PStr t => Ok (PStr (s +:+ t)%string)
      | PList l, PList k => Ok (PList (l ++ k))
      | _, _ => Raise TypeError
      end
  end.

(** [a * b]; a str or list times an int is repetition. *)
Definition py_mul (a b : pyval) : result pyval :=
  match as_number a, as_number b with
  | Some (NInt m), Some (NInt n) => Ok (PInt (m * n))
  | Some x, Some y =>
      fx ← to_float x; fy ← to_float y; Ok (PFloat (fx * fy)%float)
  | Some (NInt n), None | None, Some (NInt n) =>
      match a, b with
      | PStr s, _ | _, PStr s => Ok (PStr (repeat_str s n))
      | PList l, _ | _, PList l => Ok (PList (repeat_list l n))
      | _, _ => Raise TypeError
      end
  | _, _ => Raise TypeError
  end.

(** [a / b]. *)
Definition py_truediv (a b : pyval) : result pyval :=
  match as_number a, as_number b with
  | Some (NInt m), Some (NInt n) => x ← int_truediv m n; Ok (PFloat x)
  | Some x, Some y =>
      fx ← to_float x; fy ← to_float y;
      if PrimFloat.eqb fy 0 then Raise ZeroDivisionError
      else Ok (PFloat (fx / fy)%float)
  | _, _ => Raise TypeError
  end.

(** [round(v, 2)]. *)
Definition py_round2 (v : pyval) : result pyval :=
  match as_number v with
  | Some (NInt n) => Ok (PInt n)
  | Some (NFloat x) => Ok (PFloat (float_round2 x))
  | None => Raise TypeError
  end.

(** ** The outside world

    [datetime] keeps what the comparison of two Python datetimes looks at:
    the instant the fields denote (in microseconds) and, for an aware
    value, its UTC offset.  Ordering a naive against an aware value raises
    [TypeError]. *)

Record datetime : Type := { dt_instant : Z; dt_offset : option Z }.

(** [a > b]. *)
Definition datetime_gt (a b : datetime) : result bool :=
  match dt_offset a, dt_offset b with
  | None, None => Ok (dt_instant b <? dt_instant a)
  | Some oa, Some ob => Ok (dt_instant b - ob <? dt_instant a - oa)
  | _, _ => Raise TypeError
  end.

(** Every call that leaves the worker, in the order the calls are made. *)
Inductive event : Type :=
| KvGet (key : string)
| KvPut (key value : string)
| Clock
| GarthResume (blob : string)
| GarthProbe
| GarthLogin (username password : string)
| GarthDump
| GarthSearch (limit start : Z)
| GarthExerciseSets (activity_id : pyval)
| DbFirst (activity_id : pyval)
| DbInsertActivity (row : list pyval)
| DbDeleteSets (activity_id : pyval)
| DbInsertSet (row : list pyval).

(** The state a run reads and writes: the key-value namespace
    [env.GARMIN_SYNC_KV], the two tables of [env.DATABASE] (table
    [activities] by primary key [id], table [exercise_sets] as its rows in
    insertion order), and the log of external calls. *)
Record world : Type := {
  kv : gmap string string;
  activities : gmap Z (list pyval);
  exercise_sets : list (list pyval);
  log : list event
}.

(** The number of external calls made so far. *)
Definition tick (w : world) : nat := length (log w).

Definition emit (e : event) (w : world) : world :=
  {| kv := kv w; activities := activities w;
     exercise_sets := exercise_sets w; log := log w ++ [e] |}.

(** What the worker does not control.  Each answer may depend on the
    moment of the call (the number of external calls made before it), so an
    endpoint may answer the same request differently at different times and
    any call may fail at any time.
    - [clock]: [datetime.now().isoformat()];
    - [fromisoformat]: [datetime.fromisoformat], a function of its argument;
    - [garth_resume]: [garth.resume_data(json.loads(blob))];
    - [garth_probe]: reading [garth.client.username];
    - [garth_login]: [garth.login(username, password)];
    - [garth_dump]: [json.dumps(garth.dump())];
    - [garth_search]: [garth.connectapi] on the activity search endpoint
      with [limit] and [start]; the answer is [None] or a list of records
      (the [List[Dict]] of the signatures);
    - [garth_exercise_sets]: [garth.connectapi] on the exercise-set
      endpoint of an activity;
    - [db_error]: whether the database statement run at that moment fails. *)
Record outside : Type := {
  clock : nat → string;
  fromisoformat : string → result datetime;
  garth_resume : nat → string → result unit;
  garth_probe : nat → result unit;
  garth_login : nat → string → string → result unit;
  garth_dump : nat → result string;
  garth_search : nat → Z → Z → result (option (list dict));
  garth_exercise_sets : nat → pyval → result pyval;
  db_error : nat → bool
}.

(** The bindings of [env] that are plain values; an unset binding is
    [None]. *)
Record Environment : Type := {
  GARMIN_USERNAME : option string;
  GARMIN_PASSWORD : option string;
  GARMIN_WEBHOOK_SECRET : option string;
  RIDEWITHGPS_API_SECRET : option string
}.

(** ** The monad of the worker: state and exceptions

    A raised exception keeps the state reached when it was raised. *)

Definition M (A : Type) : Type := world → result A * world.

#[export] Instance M_ret : MRet M := λ A a w, (Ok a, w).
#[export] Instance M_bind : MBind M := λ A B f m w,
  match m w with
  | (Ok a, w') => f a w'
  | (Raise e, w') => (Raise e, w')
  end.

Definition raise {A} (e : exn) : M A := λ w, (Raise e, w).

(** A computation without effects. *)
Definition lift {A} (r : result A) : M A := λ w, (r, w).

(** [try: m except Exception as e: h e]. *)
Definition try_except {A} (m : M A) (h : exn → M A) : M A := λ w,
  match m w with
  | (Ok a, w') => (Ok a, w')
  | (Raise e, w') => h e w'
  end.

(** [try: m except C as e: h e] for a class [C] of exceptions. *)
Definition try_except_on {A} (C : exn → bool) (m : M A) (h : exn → M A) : M A :=
  try_except m (λ e, if C e then h e else raise e).

(** An external call: logged, and answered by the outside. *)
Definition call {A} (e : event) (answer : nat → result A) : M A := λ w,
  (answer (tick w), emit e w).

(** [for x in l: body x]. *)
Fixpoint for_each {A} (l : list A) (body : A → M unit) : M unit :=
  match l with
  | [] => mret ()
  | x :: l' => body x;; for_each l' body
  end.

(** [for i, x in enumerate(l): body i x], counting from [i]. *)
Fixpoint for_enumerate {A} (i : Z) (l : list A) (body : Z → A → M unit) : M unit :=
  match l with
  | [] => mret ()
  | x :: l' => body i x;; for_enumerate (i + 1) l' body
  end.

(** ** Key-value store: [get(key)] and [put(key, value)] *)

Definition kv_get (key : string) : M (option string) := λ w,
  (Ok (kv w !! key), emit (KvGet key) w).

Definition kv_put (key value : string) : M unit := λ w,
  (Ok (),
   emit (KvPut key value)
     {| kv := <[key := value]> (kv w); activities := activities w;
        exercise_sets := exercise_sets w; log := log w |}).

(** ** Relational store

    Table [activities] has primary key [id]; the model keys it by integer
    ids, a value of another type is refused by the statement that binds it
    as an id ([DatabaseError]) and matches no row in a [WHERE] clause. *)

Definition same_id (a b : pyval) : bool :=
  match a, b with
  | PInt x, PInt y => x =? y
  | _, _ => false
  end.

Definition row_has_id (activity_id : pyval) (row : list pyval) : bool :=
  match row with
  | c :: _ => same_id c activity_id
  | [] => false
  end.

Section Worker.

Context (out : outside).

Definition now : M string := call Clock (λ t, Ok (clock out t)).

(** [SELECT id FROM activities WHERE id = ?] with [.first()]: the row as a
    dict, or [None]. *)
Definition db_first (activity_id : pyval) : M pyval := λ w,
  (if db_error out (tick w) then Raise DatabaseError
   else Ok (match activity_id with
            | PInt z =>
                match activities w !! z with
                | Some _ => PDict {[ "id" := PInt z ]}
                | None => PNone
                end
            | _ => PNone
            end),
   emit (DbFirst activity_id) w).

(** [INSERT OR REPLACE INTO activities ... VALUES (?, ...)] with [.run()];
    the first bound value is the id. *)
Definition db_insert_activity (row : list pyval) : M unit := λ w,
  if db_error out (tick w) then (Raise DatabaseError, emit (DbInsertActivity row) w)
  else match row with
       | PInt z :: _ =>
           (Ok (),
            emit (DbInsertActivity row)
              {| kv := kv w; activities := <[z := row]> (activities w);
                 exercise_sets := exercise_sets w; log := log w |})
       | _ => (Raise DatabaseError, emit (DbInsertActivity row) w)
       end.

(** [DELETE FROM exercise_sets WHERE activity_id = ?] with [.run()]. *)
Definition db_delete_sets (activity_id : pyval) : M unit := λ w,
  if db_error out (tick w) then (Raise DatabaseError, emit (DbDeleteSets activity_id) w)
  else (Ok (),
        emit (DbDeleteSets activity_id)
          {| kv := kv w; activities := activities w;
             exercise_sets :=
               List.filter (λ row, negb (row_has_id activity_id row)) (exercise_sets w);
             log := log w |}).

(** [INSERT INTO exercise_sets ... VALUES (?, ...)] with [.run()]. *)
Definition db_insert_set (row : list pyval) : M unit := λ w,
  if db_error out (tick w) then (Raise DatabaseError, emit (DbInsertSet row) w)
  else (Ok (),
        emit (DbInsertSet row)
          {| kv := kv w; activities := activities w;
             exercise_sets := exercise_sets w ++ [row]; log := log w |}).

(** ** The worker ([class GarminSyncWorker]) *)

Definition PAGE_SIZE : Z := 20.

(** [verify_webhook_signature]: [signature == webhook_secret or not
    webhook_secret]; the header is [None] when the request does not carry
    it. *)
Definition verify_webhook_signature (signature : option string) (env : Environment) : bool :=
  let webhook_secret := GARMIN_WEBHOOK_SECRET env in
  bool_decide (signature = webhook_secret) || negb (truthy_str webhook_secret).

(** [verify_ridewithgps_signature]: [bool(signature and api_secret)]. *)
Definition verify_ridewithgps_signature (signature : option string) (env : Environment) : bool :=
  let api_secret := RIDEWITHGPS_API_SECRET env in
  truthy_str signature && truthy_str api_secret.

(** [authenticate_garmin].  The two outer [except] clauses
    ([GarthException], then [Exception]) both return [False]. *)
Definition authenticate_garmin (env : Environment) : M bool :=
  try_except
    (let username := GARMIN_USERNAME env in
     let password := GARMIN_PASSWORD env in
     if negb (truthy_str username) || negb (truthy_str password)
     then raise (Exception "Garmin credentials not provided")
     else
       resumed ←
         try_except
           (saved_session ← kv_get "garth_session";
            if truthy_str saved_session then
              call (GarthResume (default "" saved_session))
                   (λ t, garth_resume out t (default "" saved_session));;
              try_except_on is_garth_exception
                (call GarthProbe (garth_probe out);; mret true)
                (λ _, mret false)
            else mret false)
           (λ _, mret false);
       if resumed : bool then mret true
       else
         call (GarthLogin (default "" username) (default "" password))
              (λ t, garth_login out t (default "" username) (default "" password));;
         session_data ← call GarthDump (garth_dump out);
         kv_put "garth_session" session_data;;
         mret true)
    (λ _, mret false).

(** [datetime.fromisoformat(activity['startTimeLocal'].replace('Z',
    '+00:00'))]; only a str has [replace]. *)
Definition start_time (activity : dict) : result datetime :=
  v ← dict_item activity "startTimeLocal";
  match v with
  | PStr s => fromisoformat out (replace_Z s)
  | _ => Raise AttributeError
  end.

(** The list comprehension of [fetch_activities]: the activities that
    started after [last_sync_date], in order; the first exception ends it. *)
Fixpoint filter_newer (last_sync_date : datetime) (l : list dict) : result (list dict) :=
  match l with
  | [] => Ok []
  | activity :: rest =>
      t ← start_time activity;
      newer ← datetime_gt t last_sync_date;
      kept ← filter_newer last_sync_date rest;
      Ok (if newer : bool then activity :: kept else kept)
  end.

(** How one round of the [while] loop of [fetch_activities] ends. *)
Inductive page_outcome : Type :=
| PageBreak (all_activities : list dict)
| PageContinue (all_activities : list dict) (start : Z).

(** The body of the [while] loop of [fetch_activities]: one page. *)
Definition fetch_page (last_sync_time : option string) (is_initial_sync : bool)
    (all_activities : list dict) (start : Z) : M page_outcome :=
  try_except
    (activities_response ← call (GarthSearch PAGE_SIZE start)
                                (λ t, garth_search out t PAGE_SIZE start);
     match activities_response with
     | None | Some [] => mret (PageBreak all_activities)
     | Some activities_response =>
         filtered_activities ←
           (if truthy_str last_sync_time && negb is_initial_sync then
              lift (last_sync_date ← fromisoformat out (replace_Z (default "" last_sync_time));
                    filter_newer last_sync_date activities_response)
            else mret activities_response);
         let all_activities := all_activities ++ filtered_activities in
         if (length filtered_activities <? length activities_response)%nat
         then mret (PageBreak all_activities)
         else
           let start := start + PAGE_SIZE in
           if Z.of_nat (length activities_response) <? PAGE_SIZE
           then mret (PageBreak all_activities)
           else mret (PageContinue all_activities start)
     end)
    (λ _, mret (PageBreak all_activities)).

(** The [while] loop of [fetch_activities], with [fuel] rounds at most;
    [None] when the rounds run out before the loop ends. *)
Fixpoint fetch_loop (fuel : nat) (last_sync_time : option string) (is_initial_sync : bool)
    (max_activities : Z) (all_activities : list dict) (start : Z)
    : M (option (list dict)) :=
  if Z.of_nat (length all_activities) <? max_activities then
    match fuel with
    | 0%nat => mret None
    | S fuel' =>
        outcome ← fetch_page last_sync_time is_initial_sync all_activities start;
        match outcome with
        | PageBreak all_activities => mret (Some all_activities)
        | PageContinue all_activities start =>
            fetch_loop fuel' last_sync_time is_initial_sync max_activities
              all_activities start
        end
    end
  else mret (Some all_activities).

Definition max_activities_of (is_initial_sync : bool) : Z :=
  if is_initial_sync then 1500 else 100.

(** [fetch_activities], as the loop run with [max_activities] rounds. *)
Definition fetch_activities_fuel (last_sync_time : option string) (is_initial_sync : bool)
    : M (option (list dict)) :=
  let max_activities := max_activities_of is_initial_sync in
  fetch_loop (Z.to_nat max_activities) last_sync_time is_initial_sync
    max_activities [] 0.

(** [fetch_activities]: the rounds never run out ([fetch_activities_fuel]
    always returns a list, lemma [fetch_activities_fuel_enough]). *)
Definition fetch_activities (last_sync_time : option string) (is_initial_sync : bool)
    : M (list dict) :=
  all_activities ← fetch_activities_fuel last_sync_time is_initial_sync;
  mret (default [] all_activities).

(** [fetch_activity_exercise_sets]. *)
Definition fetch_activity_exercise_sets (activity_id : pyval) : M pyval :=
  try_except
    (exercise_sets ← call (GarthExerciseSets activity_id)
                          (λ t, garth_exercise_sets out t activity_id);
     if truthy exercise_sets
     then lift (py_get exercise_sets "exerciseSets" (PList []))
     else mret (PList []))
    (λ _, mret (PList [])).

(** One element of [sets] in [process_exercise_sets]: grams become
    kilograms, [round(set_data['weight'] / 1000, 2)], when the raw weight
    is truthy. *)
Definition process_set (set_data : pyval) : result dict :=
  reps ← py_get set_data "repetitionCount" (PInt 0);
  has_weight ← py_get set_data "weight" PNone;
  weight ←
    (if truthy has_weight then
       raw ← py_item set_data "weight";
       kg ← py_truediv raw (PInt 1000);
       py_round2 kg
     else Ok PNone);
  duration ← py_get set_data "duration" PNone;
  restTime ← py_get set_data "restTime" PNone;
  Ok (dict_of [("reps", reps); ("weight", weight);
               ("duration", duration); ("restTime", restTime)]).

(** [s.get('reps', 0) * (s.get('weight', 0) or 0)]. *)
Definition set_volume (s : dict) : result pyval :=
  py_mul (dict_get s "reps" (PInt 0)) (py_or (dict_get s "weight" (PInt 0)) (PInt 0)).

(** [sum(f(s) for s in sets)]. *)
Definition sum_over (f : dict → result pyval) (sets : list dict) : result pyval :=
  foldl (λ acc s, a ← acc; v ← f s; py_add a v) (Ok (PInt 0)) sets.

(** One round of the loop of [process_exercise_sets]. *)
Definition process_exercise_set (exercise_set : pyval) : result pyval :=
  has_sets ← py_get exercise_set "sets" PNone;
  sets ←
    (if truthy has_sets then
       raw ← py_item exercise_set "sets";
       if is_list raw then items ← py_iter raw; mapM process_set items
       else Ok []
     else Ok []);
  exerciseName ← py_get exercise_set "exerciseName" (PStr "");
  category ← py_get exercise_set "category" (PStr "");
  totalReps ← sum_over (λ s, Ok (dict_get s "reps" (PInt 0))) sets;
  totalVolume ← sum_over set_volume sets;
  Ok (PDict (dict_of [("exerciseName", exerciseName); ("category", category);
                      ("sets", PList (PDict <$> sets));
                      ("totalReps", totalReps); ("totalVolume", totalVolume)])).

(** [process_exercise_sets]. *)
Definition process_exercise_sets (exercise_sets : pyval) : result pyval :=
  items ← py_iter exercise_sets;
  processed_sets ← mapM process_exercise_set items;
  Ok (PList processed_sets).

(** [activity.get('activityType', {}).get('typeKey', default)]. *)
Definition type_key (activity : dict) (dflt : pyval) : result pyval :=
  py_get (dict_get activity "activityType" (PDict ∅)) "typeKey" dflt.

(** [process_activity_data]. *)
Definition process_activity_data (activity : dict) : M dict :=
  id ← lift (dict_item activity "activityId");
  type ← lift (type_key activity (PStr "unknown"));
  createdAt ← now;
  updatedAt ← now;
  let base_activity := dict_of [
    ("id", id);
    ("name", dict_get activity "activityName" (PStr ""));
    ("type", type);
    ("startTime", dict_get activity "startTimeLocal" PNone);
    ("duration", dict_get activity "duration" PNone);
    ("movingTime", dict_get activity "movingDuration" PNone);
    ("calories", dict_get activity "calories" PNone);
    ("averageHR", dict_get activity "averageHR" PNone);
    ("maxHR", dict_get activity "maxHR" PNone);
    ("distance", dict_get activity "distance" PNone);
    ("averageSpeed", dict_get activity "averageSpeed" PNone);
    ("maxSpeed", dict_get activity "maxSpeed" PNone);
    ("elevationGain", dict_get activity "elevationGain" PNone);
    ("elevationLoss", dict_get activity "elevationLoss" PNone);
    ("createdAt", PStr createdAt);
    ("updatedAt", PStr updatedAt)] in
  strength_type ← lift (type_key activity PNone);
  base_activity ←
    (if py_eq_str strength_type "strength_training"
        && truthy (dict_get activity "fullExerciseSets" PNone)
     then
       full ← lift (dict_item activity "fullExerciseSets");
       exerciseSets ← lift (process_exercise_sets full);
       mret (dict_update base_activity [
         ("exerciseSets", exerciseSets);
         ("totalReps", dict_get activity "totalReps" PNone);
         ("totalSets", dict_get activity "totalSets" PNone)])
     else mret base_activity);
  activity_type ← lift (type_key activity (PStr ""));
  if py_in_strs activity_type ["cycling"; "running"; "walking"] then
    mret (dict_update base_activity [
      ("averagePower", dict_get activity "avgPower" PNone);
      ("maxPower", dict_get activity "maxPower" PNone);
      ("normalizedPower", dict_get activity "normalizedPower" PNone);
      ("trainingStressScore", dict_get activity "trainingStressScore" PNone);
      ("averageCadence",
        py_or (dict_get activity "avgRunCadence" PNone)
              (dict_get activity "avgBikeCadence" PNone));
      ("maxCadence",
        py_or (dict_get activity "maxRunCadence" PNone)
              (dict_get activity "maxBikeCadence" PNone))])
  else mret base_activity.

(** [get_activity_by_id]. *)
Definition get_activity_by_id (activity_id : pyval) : M pyval :=
  try_except (db_first activity_id) (λ _, mret PNone).

(** [should_update_activity]. *)
Definition should_update_activity (existing : pyval) (new_activity : dict) : bool :=
  false.

(** The keys [store_activity] reads with [activity[...]], in the order of
    the bound values of the [INSERT]. *)
Definition activity_columns : list string :=
  ["id"; "name"; "type"; "startTime"; "duration"; "movingTime"; "calories";
   "averageHR"; "maxHR"; "distance"; "averageSpeed"; "maxSpeed";
   "elevationGain"; "elevationLoss"; "averagePower"; "maxPower";
   "normalizedPower"; "trainingStressScore"; "averageCadence"; "maxCadence";
   "totalReps"; "totalSets"; "createdAt"; "updatedAt"].

(** The bound values of one [INSERT INTO exercise_sets]. *)
Definition set_row (activity : dict) (exercise : pyval) (i : Z) (set_data : pyval)
    : result (list pyval) :=
  id ← dict_item activity "id";
  exerciseName ← py_item exercise "exerciseName";
  category ← py_item exercise "category";
  reps ← py_item set_data "reps";
  weight ← py_item set_data "weight";
  duration ← py_item set_data "duration";
  restTime ← py_item set_data "restTime";
  reps' ← py_item set_data "reps";
  weight' ← py_item set_data "weight";
  total_volume ← py_mul reps' (py_or weight' (PInt 0));
  Ok [id; exerciseName; category; PInt (i + 1); reps; weight; duration; restTime;
      total_volume].

(** [store_activity].  The handler prints [activity['id']] and raises the
    exception again. *)
Definition store_activity (activity : dict) : M unit :=
  try_except
    (row ← lift (mapM (dict_item activity) activity_columns);
     db_insert_activity row;;
     if truthy (dict_get activity "exerciseSets" PNone) then
       id ← lift (dict_item activity "id");
       db_delete_sets id;;
       exercises ← lift (dict_item activity "exerciseSets" ≫= py_iter);
       for_each exercises (λ exercise,
         sets ← lift (py_item exercise "sets" ≫= py_iter);
         for_enumerate 0 sets (λ i set_data,
           row ← lift (set_row activity exercise i set_data);
           db_insert_set row))
     else mret ())
    (λ error, lift (dict_item activity "id");; raise error).

(** The body of the loop of [process_and_store_activities]: one activity;
    the result is the new [processed_count]. *)
Definition process_one (activity : dict) (processed_count : Z) : M Z :=
  try_except
    (activity_id ← lift (dict_item activity "activityId");
     existing ← get_activity_by_id activity_id;
     if truthy existing && negb (should_update_activity existing activity)
     then mret processed_count
     else
       strength_type ← lift (type_key activity PNone);
       activity ←
         (if py_eq_str strength_type "strength_training" then
            full ← fetch_activity_exercise_sets activity_id;
            mret (<["fullExerciseSets" := full]> activity)
          else mret activity);
       processed_activity ← process_activity_data activity;
       store_activity processed_activity;;
       mret (processed_count + 1))
    (λ _, mret processed_count).

Fixpoint process_loop (activities : list dict) (processed_count : Z) : M Z :=
  match activities with
  | [] => mret processed_count
  | activity :: rest =>
      processed_count ← process_one activity processed_count;
      process_loop rest processed_count
  end.

(** [process_and_store_activities]. *)
Definition process_and_store_activities (activities : list dict) : M Z :=
  process_loop activities 0.

(** The dict [sync_garmin_data] returns. *)
Record sync_result : Type := {
  success : bool;
  activitiesProcessed : option Z;
  isInitialSync : option bool;
  error : option exn;
  timestamp : string
}.

(** [sync_garmin_data]. *)
Definition sync_garmin_data (env : Environment) : M sync_result :=
  try_except
    (authenticated ← authenticate_garmin env;
     if negb authenticated then raise (Exception "Failed to authenticate with Garmin")
     else
       last_sync_time ← kv_get "lastSyncTime";
       let is_initial_sync := negb (truthy_str last_sync_time) in
       activities ← fetch_activities last_sync_time is_initial_sync;
       processed_count ← process_and_store_activities activities;
       synced_at ← now;
       kv_put "lastSyncTime" synced_at;;
       timestamp ← now;
       mret {| success := true; activitiesProcessed := Some processed_count;
               isInitialSync := Some is_initial_sync; error := None;
               timestamp := timestamp |})
    (λ error,
       timestamp ← now;
       mret {| success := false; activitiesProcessed := None;
               isInitialSync := None; error := Some error;
               timestamp := timestamp |}).

(** ** Entry points *)

Record Request : Type := {
  url : string;
  method : string;
  headers : gmap string string;
  json : result pyval
}.

(** [Response(body, status=..)]; the status is 200 when not given. *)
Record Response : Type := { body : pyval; status : Z }.

(** What [asyncio.create_task] detaches: the coroutine runs after the
    handler has answered. *)
Inductive task : Type :=
| SyncTask (env : Environment)
| RideWithGpsTask (request : Request) (env : Environment).

(** [process_ridewithgps_webhook]. *)
Definition process_ridewithgps_webhook (request : Request) (env : Environment) : M bool :=
  try_except
    (webhook_data ← lift (json request);
     type ← lift (py_get webhook_data "type" PNone);
     if py_in_strs type ["activity_created"; "activity_updated"]
     then sync_garmin_data env;; mret true
     else mret true)
    (λ error, raise error).

(** [on_scheduled]. *)
Definition on_scheduled (env : Environment) : M sync_result :=
  sync_garmin_data env.

(** [on_fetch]: the response, and the task it detached, if any. *)
Definition on_fetch (request : Request) (env : Environment) : M (Response * option task) :=
  if endswith (url request) "/sync" && String.eqb (method request) "POST" then
    let signature := headers request !! "X-Webhook-Signature" in
    if negb (verify_webhook_signature signature env)
    then mret ({| body := PStr "Unauthorized"; status := 401 |}, None)
    else
      timestamp ← now;
      mret ({| body := PDict (dict_of [("status", PStr "accepted");
                                       ("message", PStr "Sync triggered in background");
                                       ("timestamp", PStr timestamp)]);
               status := 200 |},
            Some (SyncTask env))
  else if endswith (url request) "/ridewithgps-webhook" && String.eqb (method request) "POST" then
    let signature := headers request !! "X-RideWithGPS-Signature" in
    if negb (verify_ridewithgps_signature signature env)
    then mret ({| body := PStr "Unauthorized"; status := 401 |}, None)
    else mret ({| body := PStr "OK"; status := 200 |}, Some (RideWithGpsTask request env))
  else if endswith (url request) "/health" then
    mret ({| body := PStr "OK"; status := 200 |}, None)
  else if endswith (url request) "/status" then
    last_sync ← kv_get "lastSyncTime";
    timestamp ← now;
    mret ({| body := PDict (dict_of [
                       ("lastSync",
                         PStr (if truthy_str last_sync then default "" last_sync else "Never"));
                       ("timestamp", PStr timestamp)]);
             status := 200 |},
          None)
  else mret ({| body := PStr "Not Found"; status := 404 |}, None).

(** Running a detached task. *)
Definition run_task (t : task) : M unit :=
  match t with
  | SyncTask env => sync_garmin_data env;; mret ()
  | RideWithGpsTask request env => process_ridewithgps_webhook request env;; mret ()
  end.

End Worker.

(** * The vocabulary of the properties

    Definitions the statements below are written with: the states that
    differ by log entries only, classes of logged calls, the outcome of a
    page as a function of what the endpoint answers, and the two stages of
    [authenticate_garmin]. *)

(** Closes an equation between terms that evaluate to the same value, by
    evaluation in the virtual machine. *)
Ltac vm_refl :=
  lazymatch goal with
  | |- @eq ?A _ ?y => vm_cast_no_check (@eq_refl A y)
  end.

Section Vocabulary.

Context (out : outside).

(** The state [w] after the calls [new]: only the log has grown. *)
Definition emits (new : list event) (w : world) : world :=
  foldl (λ w e, emit e w) w new.

(** The calls the loop of [process_and_store_activities] makes. *)
Definition process_event (e : event) : bool :=
  match e with
  | DbFirst _ | GarthExerciseSets _ | Clock => true
  | _ => false
  end.

(** A dict that has an [id] and lacks a column of the [INSERT]. *)
Definition unstorable (d : dict) : Prop :=
  is_Some (d !! "id")
  ∧ ∃ key, mapM (dict_item d) activity_columns = Raise (KeyError key).

(** The activity started strictly after [T]. *)
Definition started_after (T : datetime) (a : dict) : Prop :=
  ∃ t, start_time out a = Ok t ∧ datetime_gt t T = Ok true.

(** The date filter [fetch_activities] applies to a page. *)
Definition filtered_page (last_sync_time : option string) (is_initial_sync : bool)
    (response : list dict) : result (list dict) :=
  if truthy_str last_sync_time && negb is_initial_sync then
    last_sync_date ← fromisoformat out (replace_Z (default "" last_sync_time));
    filter_newer out last_sync_date response
  else Ok response.

(** How a page ends, as a function of the answer of the endpoint. *)
Definition page_step (last_sync_time : option string) (is_initial_sync : bool)
    (all_activities : list dict) (start : Z)
    (answer : result (option (list dict))) : page_outcome :=
  match answer with
  | Ok (Some (a :: response)) =>
      match filtered_page last_sync_time is_initial_sync (a :: response) with
      | Ok filtered =>
          if (length filtered <? length (a :: response))%nat
          then PageBreak (all_activities ++ filtered)
          else if Z.of_nat (length (a :: response)) <? PAGE_SIZE
               then PageBreak (all_activities ++ filtered)
               else PageContinue (all_activities ++ filtered) (start + PAGE_SIZE)
      | Raise _ => PageBreak all_activities
      end
  | _ => PageBreak all_activities
  end.

(** Whether the page asked for at moment [t] lets the loop go on. *)
Definition continues lst init (t : nat) (start : Z) : bool :=
  match page_step lst init [] start (garth_search out t PAGE_SIZE start) with
  | PageContinue _ _ => true
  | PageBreak _ => false
  end.

(** [n] consecutive page requests from offset [start]. *)
Fixpoint searches (n : nat) (start : Z) : list event :=
  match n with
  | 0%nat => []
  | S n' => GarthSearch PAGE_SIZE start :: searches n' (start + PAGE_SIZE)
  end.

(** Of [n] pages asked for from moment [t], all but the last let the loop
    go on. *)
Fixpoint all_but_last_continue lst init (n t : nat) (start : Z) : Prop :=
  match n with
  | 0%nat => True
  | S n' => (n' ≠ 0%nat → continues lst init t start = true)
            ∧ all_but_last_continue lst init n' (S t) (start + PAGE_SIZE)
  end.

(** The activity started strictly after the watermark. *)
Definition newer_than (last_sync_time : option string) (a : dict) : Prop :=
  ∃ T, fromisoformat out (replace_Z (default "" last_sync_time)) = Ok T
       ∧ started_after T a.

(** The two stages of [authenticate_garmin]: resuming the saved session
    (the inner [try]), and the fresh login that follows when no session
    was resumed. *)
Definition resume_session : M bool :=
  try_except
    (saved_session ← kv_get "garth_session";
     if truthy_str saved_session then
       call (GarthResume (default "" saved_session))
            (λ t, garth_resume out t (default "" saved_session));;
       try_except_on is_garth_exception
         (call GarthProbe (garth_probe out);; mret true)
         (λ _, mret false)
     else mret false)
    (λ _, mret false).

Definition fresh_login (env : Environment) : M bool :=
  let username := GARMIN_USERNAME env in
  let password := GARMIN_PASSWORD env in
  call (GarthLogin (default "" username) (default "" password))
       (λ t, garth_login out t (default "" username) (default "" password));;
  session_data ← call GarthDump (garth_dump out);
  kv_put "garth_session" session_data;;
  mret true.

Definition has_credentials (env : Environment) : bool :=
  truthy_str (GARMIN_USERNAME env) && truthy_str (GARMIN_PASSWORD env).

(** The calls of the resume stage. *)
Definition resume_event (e : event) : bool :=
  match e with
  | KvGet _ | GarthResume _ | GarthProbe => true
  | _ => false
  end.

(** Calls that write nothing. *)
Definition session_event (e : event) : bool :=
  match e with
  | KvGet _ | GarthResume _ | GarthProbe | GarthLogin _ _ | GarthDump => true
  | _ => false
  end.

(** Writes of the watermark and of the session among logged calls. *)
Definition is_watermark_write (e : event) : bool :=
  match e with
  | KvPut key _ => String.eqb key "lastSyncTime"
  | _ => false
  end.

Definition is_session_write (e : event) : bool :=
  match e with
  | KvPut key _ => String.eqb key "garth_session"
  | _ => false
  end.

Definition count (P : event → bool) (l : list event) : nat :=
  length (List.filter P l).

(** The state a successful run ends in, given the state [wl] the loop of
    [process_and_store_activities] ended in. *)
Definition synced (wl : world) : world :=
  {| kv := <["lastSyncTime" := clock out (tick wl)]> (kv wl);
     activities := activities wl;
     exercise_sets := exercise_sets wl;
     log := log wl ++ [Clock; KvPut "lastSyncTime" (clock out (tick wl)); Clock] |}.

(** The calls of a run after the session is established. *)
Definition run_event (e : event) : bool :=
  match e with
  | KvGet _ | GarthSearch _ _ | DbFirst _ | GarthExerciseSets _ | Clock => true
  | KvPut key _ => String.eqb key "lastSyncTime"
  | _ => false
  end.

(** The calls the HTTP handler makes itself. *)
Definition handler_event (e : event) : bool :=
  match e with
  | KvGet key => String.eqb key "lastSyncTime"
  | Clock => true
  | _ => false
  end.

(** The last character of a string. *)
Fixpoint last_char (s : string) : option ascii :=
  match s with
  | EmptyString => None
  | String c s' =>
      match s' with
      | EmptyString => Some c
      | String _ _ => last_char s'
      end
  end.

(** What the endpoint serves to [n] consecutive page requests, the first
    made at moment [t] for offset [start]. *)
Fixpoint pages_received (n t : nat) (start : Z) : list dict :=
  match n with
  | 0%nat => []
  | S n' =>
      match garth_search out t PAGE_SIZE start with
      | Ok (Some response) => response
      | _ => []
      end ++ pages_received n' (S t) (start + PAGE_SIZE)
  end.

(** The rows [store_activity] binds for the sets of one exercise, the
    first numbered [i + 1]; then for one exercise, for a list of exercises
    and for the exercises of a processed activity. *)
Fixpoint rows_from (activity : dict) (exercise : pyval) (i : Z) (sets : list pyval)
    : result (list (list pyval)) :=
  match sets with
  | [] => Ok []
  | set_data :: rest =>
      row ← set_row activity exercise i set_data;
      rows ← rows_from activity exercise (i + 1) rest;
      Ok (row :: rows)
  end.

Definition rows_of_exercise (activity : dict) (exercise : pyval)
    : result (list (list pyval)) :=
  sets ← py_item exercise "sets" ≫= py_iter;
  rows_from activity exercise 0 sets.

Fixpoint rows_of_exercises (activity : dict) (exercises : list pyval)
    : result (list (list pyval)) :=
  match exercises with
  | [] => Ok []
  | exercise :: rest =>
      rows ← rows_of_exercise activity exercise;
      more ← rows_of_exercises activity rest;
      Ok (rows ++ more)
  end.

Definition exercise_set_rows (activity : dict) : result (list (list pyval)) :=
  exercises ← dict_item activity "exerciseSets" ≫= py_iter;
  rows_of_exercises activity exercises.

(** The state [w] after [rows] were inserted into table [exercise_sets]. *)
Definition sets_inserted (rows : list (list pyval)) (w : world) : world :=
  {| kv := kv w; activities := activities w;
     exercise_sets := exercise_sets w ++ rows;
     log := log w ++ (DbInsertSet <$> rows) |}.

(** The state [w] after activity [z] was stored as [row] with the
    exercise-set rows [rows]: the row replaces the one of the same id, the
    rows replace the ones of the activity. *)
Definition stored (z : Z) (row : list pyval) (rows : list (list pyval)) (w : world)
    : world :=
  {| kv := kv w;
     activities := <[z := row]> (activities w);
     exercise_sets :=
       List.filter (λ r, negb (row_has_id (PInt z) r)) (exercise_sets w) ++ rows;
     log := log w ++ DbInsertActivity row :: DbDeleteSets (PInt z)
                  :: (DbInsertSet <$> rows) |}.

(** The repetitions a raw set counts: [repetitionCount], 0 when absent. *)
Definition raw_reps (set_data : pyval) : Z :=
  match set_data with
  | PDict d =>
      match dict_get d "repetitionCount" (PInt 0) with
      | PInt n => n
      | _ => 0
      end
  | _ => 0
  end.

(** What [process_exercise_sets] makes of a raw set without weight. *)
Definition processed_unweighted (set_data : pyval) : dict :=
  match set_data with
  | PDict d =>
      dict_of [("reps", dict_get d "repetitionCount" (PInt 0)); ("weight", PNone);
               ("duration", dict_get d "duration" PNone);
               ("restTime", dict_get d "restTime" PNone)]
  | _ => ∅
  end.

End Vocabulary.

(** Requests to the exercise-set endpoint among logged calls. *)
Definition is_enrichment (e : event) : bool :=
  match e with
  | GarthExerciseSets _ => true
  | _ => false
  end.

(** Shapes of exercise sets the statements speak of. *)

(** A raw set with an integer repetition count (0 when absent) and no
    truthy weight. *)
Definition unweighted (set_data : pyval) : Prop :=
  ∃ d n, set_data = PDict d
         ∧ dict_get d "repetitionCount" (PInt 0) = PInt n
         ∧ truthy (dict_get d "weight" PNone) = false.

(** A set as [process_exercise_sets] leaves it: the four keys, and a
    volume that can be computed. *)
Definition bindable_set (s : dict) : Prop :=
  ∃ reps weight duration restTime total_volume,
    s = dict_of [("reps", reps); ("weight", weight);
                 ("duration", duration); ("restTime", restTime)]
    ∧ py_mul reps (py_or weight (PInt 0)) = Ok total_volume.

(** * Concrete runs *)

Definition two_digits (n : nat) : string :=
  String (ascii_of_nat (48 + n / 10 mod 10))
    (String (ascii_of_nat (48 + n mod 10)) EmptyString).

(** A clock that shows the number of the call as its seconds. *)
Definition example_clock (t : nat) : string :=
  ("2024-03-01T06:00:" +:+ two_digits t)%string.

Definition midnight (day : Z) : datetime :=
  {| dt_instant := day * 86400000000; dt_offset := None |}.

(** [datetime.fromisoformat] on the timestamps of the examples. *)
Definition example_fromisoformat (s : string) : result datetime :=
  if String.eqb s "2024-02-01T00:00:00" then Ok (midnight 1)
  else if String.eqb s "2024-02-02T00:00:00" then Ok (midnight 2)
  else if String.eqb s "2024-02-03T00:00:00" then Ok (midnight 3)
  else Raise ValueError.

(** A raw activity as the search endpoint returns it. *)
Definition raw_activity (id : Z) (type_key start : string) : dict :=
  dict_of [("activityId", PInt id);
           ("activityName", PStr "Morning session");
           ("activityType", PDict (dict_of [("typeKey", PStr type_key)]));
           ("startTimeLocal", PStr start);
           ("duration", PFloat 1800);
           ("calories", PInt 250)].

(** The answer of the exercise-set endpoint: one exercise, a set of 5
    repetitions at 10000 grams and a set of 3 without weight. *)
Definition bench_press : pyval :=
  PDict (dict_of [("exerciseSets", PList [
    PDict (dict_of [("exerciseName", PStr "BENCH_PRESS");
                    ("category", PStr "BENCH_PRESS");
                    ("sets", PList [
                       PDict (dict_of [("repetitionCount", PInt 5);
                                       ("weight", PInt 10000)]);
                       PDict (dict_of [("repetitionCount", PInt 3)])])])])]).

(** An outside world: the search endpoint serves [pages] by offset and
    honours [limit], the database fails at the moments [faults], there is
    no session to resume and the login succeeds. *)
Definition example_outside (pages : Z → option (list dict)) (faults : nat → bool) : outside :=
  {| clock := example_clock;
     fromisoformat := example_fromisoformat;
     garth_resume := λ _ _, Raise ValueError;
     garth_probe := λ _, Raise GarthException;
     garth_login := λ _ _ _, Ok ();
     garth_dump := λ _, Ok "session-blob";
     garth_search := λ _ limit start, Ok (take (Z.to_nat limit) <$> pages start);
     garth_exercise_sets := λ _ _, Ok bench_press;
     db_error := faults |}.

Definition example_env : Environment :=
  {| GARMIN_USERNAME := Some "athlete";
     GARMIN_PASSWORD := Some "secret";
     GARMIN_WEBHOOK_SECRET := None;
     RIDEWITHGPS_API_SECRET := None |}.

Definition empty_world : world :=
  {| kv := ∅; activities := ∅; exercise_sets := []; log := [] |}.

(** One page of three activities: a strength training and two runs. *)
Definition three_activities (start : Z) : option (list dict) :=
  if start =? 0 then
    Some [raw_activity 1 "strength_training" "2024-02-03T00:00:00";
          raw_activity 2 "running" "2024-02-02T00:00:00";
          raw_activity 3 "running" "2024-02-01T00:00:00"]
  else None.

Definition no_fault (t : nat) : bool := false.

(** A POST to [/sync] without a signature header, no secret configured. *)
Definition unsigned_sync_request : Request :=
  {| url := "https://worker.example/sync"; method := "POST";
     headers := ∅; json := Raise ValueError |}.

(** A POST to [/sync] signed with the configured secret. *)
Definition signed_sync_request : Request :=
  {| url := "https://worker.example/sync"; method := "POST";
     headers := {[ "X-Webhook-Signature" := "s3cret" ]}; json := Raise ValueError |}.

Definition env_with_secret : Environment :=
  {| GARMIN_USERNAME := Some "athlete";
     GARMIN_PASSWORD := Some "secret";
     GARMIN_WEBHOOK_SECRET := Some "s3cret";
     RIDEWITHGPS_API_SECRET := None |}.

(** A set of 5 repetitions at 1000 grams, a set of 3 repetitions without
    weight, and what [process_set] makes of them. *)
Definition one_kilogram_set : dict :=
  dict_of [("repetitionCount", PInt 5); ("weight", PInt 1000)].

Definition bodyweight_set : dict :=
  dict_of [("repetitionCount", PInt 3)].

Definition processed_one_kilogram_set : dict :=
  dict_of [("reps", PInt 5); ("weight", PFloat 1);
           ("duration", PNone); ("restTime", PNone)].

Definition processed_bodyweight_set : dict :=
  dict_of [("reps", PInt 3); ("weight", PNone);
           ("duration", PNone); ("restTime", PNone)].

(** A store that holds activity 2 already. *)
Definition stored_row : list pyval := [PInt 2; PStr "Evening run"; PStr "running"].

Definition world_with_activity_2 : world :=
  {| kv := ∅; activities := {[ 2 := stored_row ]}; exercise_sets := []; log := [] |}.

(** A store that holds activity 42, and a database that fails at the first
    statement. *)
Definition old_row_42 : list pyval := [PInt 42; PStr "Old name"; PStr "running"].

Definition world_with_activity_42 : world :=
  {| kv := ∅; activities := {[ 42 := old_row_42 ]}; exercise_sets := []; log := [] |}.

Definition first_statement_fails (t : nat) : bool := Nat.eqb t 0.

(** A page that mixes an activity after the watermark with one at it. *)
Definition mixed_page (start : Z) : option (list dict) :=
  if start =? 0 then
    Some [raw_activity 7 "running" "2024-02-03T00:00:00";
          raw_activity 6 "running" "2024-02-02T00:00:00"]
  else Some [raw_activity 5 "running" "2024-02-01T00:00:00"].

(** An endpoint whose every page holds 20 activities after the watermark. *)
Definition full_page (start : Z) : option (list dict) :=
  Some (replicate 20 (raw_activity 9 "running" "2024-02-03T00:00:00")).

(** The state the scenario is in once the fresh login has stored the
    session. *)
Definition logged_in_world : world :=
  {| kv := {[ "garth_session" := "session-blob" ]};
     activities := ∅;
     exercise_sets := [];
     log := [KvGet "garth_session"; GarthLogin "athlete" "secret"; GarthDump;
             KvPut "garth_session" "session-blob"] |}.

(** A store that holds a saved session the garth client cannot load. *)
Definition world_with_stale_session : world :=
  {| kv := {[ "garth_session" := "stale-blob" ]};
     activities := ∅; exercise_sets := []; log := [] |}.

(** ** Scenarios of the further properties *)

(** Requests to the other routes of the handler. *)
Definition health_request : Request :=
  {| url := "https://worker.example/health"; method := "GET";
     headers := ∅; json := Raise ValueError |}.

Definition status_request : Request :=
  {| url := "https://worker.example/status"; method := "GET";
     headers := ∅; json := Raise ValueError |}.

Definition get_sync_request : Request :=
  {| url := "https://worker.example/sync"; method := "GET";
     headers := ∅; json := Raise ValueError |}.

(** A Ride with GPS notification of a new activity, with a signature
    header that is not the secret. *)
Definition ridewithgps_request : Request :=
  {| url := "https://worker.example/ridewithgps-webhook"; method := "POST";
     headers := {[ "X-RideWithGPS-Signature" := "not-the-secret" ]};
     json := Ok (PDict (dict_of [("type", PStr "activity_created")])) |}.

Definition env_with_ridewithgps_secret : Environment :=
  {| GARMIN_USERNAME := Some "athlete";
     GARMIN_PASSWORD := Some "secret";
     GARMIN_WEBHOOK_SECRET := None;
     RIDEWITHGPS_API_SECRET := Some "rwgps-secret" |}.

Definition env_without_password : Environment :=
  {| GARMIN_USERNAME := Some "athlete";
     GARMIN_PASSWORD := None;
     GARMIN_WEBHOOK_SECRET := None;
     RIDEWITHGPS_API_SECRET := None |}.

(** An outside world whose garth client loads and accepts the saved
    session, and one whose login is rejected. *)
Definition outside_with_valid_session : outside :=
  {| clock := example_clock;
     fromisoformat := example_fromisoformat;
     garth_resume := λ _ _, Ok ();
     garth_probe := λ _, Ok ();
     garth_login := λ _ _ _, Raise GarthException;
     garth_dump := λ _, Raise GarthException;
     garth_search := λ _ _ _, Ok None;
     garth_exercise_sets := λ _ _, Ok PNone;
     db_error := no_fault |}.

Definition outside_rejecting_login : outside :=
  {| clock := example_clock;
     fromisoformat := example_fromisoformat;
     garth_resume := λ _ _, Raise ValueError;
     garth_probe := λ _, Raise GarthException;
     garth_login := λ _ _ _, Raise GarthException;
     garth_dump := λ _, Ok "session-blob";
     garth_search := λ _ _ _, Ok None;
     garth_exercise_sets := λ _ _, Ok PNone;
     db_error := no_fault |}.

Definition world_with_session : world :=
  {| kv := {[ "garth_session" := "session-blob" ]};
     activities := ∅; exercise_sets := []; log := [] |}.

(** An endpoint that has no activity at all. *)
Definition no_activity (start : Z) : option (list dict) := None.

(** A record without [startTimeLocal], and a page that holds it after an
    activity newer than the watermark. *)
Definition undated_activity : dict :=
  dict_of [("activityId", PInt 8);
           ("activityType", PDict (dict_of [("typeKey", PStr "running")]))].

Definition page_with_undated (start : Z) : option (list dict) :=
  if start =? 0 then
    Some [raw_activity 7 "running" "2024-02-03T00:00:00"; undated_activity]
  else None.

(** An exercise whose [sets] field is not a list, and a body-weight
    exercise of two sets. *)
Definition exercise_with_text_sets : dict :=
  dict_of [("exerciseName", PStr "PLANK"); ("sets", PStr "3 x 60s")].

Definition pull_up_sets : list pyval :=
  [PDict (dict_of [("repetitionCount", PInt 8)]);
   PDict (dict_of [("repetitionCount", PInt 6); ("weight", PInt 0)])].

Definition pull_ups : dict :=
  dict_of [("exerciseName", PStr "PULL_UP"); ("category", PStr "PULL_UP");
           ("sets", PList pull_up_sets)].

(** A processed activity that has every column of the [INSERT]: a run, and
    a strength training with the processed sets of the bench press. *)
Definition complete_run : dict :=
  dict_of [("id", PInt 2); ("name", PStr "Evening run"); ("type", PStr "running");
           ("startTime", PStr "2024-02-02T00:00:00"); ("duration", PFloat 1800);
           ("movingTime", PNone); ("calories", PInt 250); ("averageHR", PNone);
           ("maxHR", PNone); ("distance", PNone); ("averageSpeed", PNone);
           ("maxSpeed", PNone); ("elevationGain", PNone); ("elevationLoss", PNone);
           ("averagePower", PNone); ("maxPower", PNone); ("normalizedPower", PNone);
           ("trainingStressScore", PNone); ("averageCadence", PInt 170);
           ("maxCadence", PNone); ("totalReps", PNone); ("totalSets", PNone);
           ("createdAt", PStr "2024-03-01T06:00:00");
           ("updatedAt", PStr "2024-03-01T06:00:01")].

Definition complete_run_row : list pyval :=
  [PInt 2; PStr "Evening run"; PStr "running"; PStr "2024-02-02T00:00:00"; PFloat 1800;
   PNone; PInt 250; PNone; PNone; PNone; PNone; PNone; PNone; PNone; PNone; PNone;
   PNone; PNone; PInt 170; PNone; PNone; PNone;
   PStr "2024-03-01T06:00:00"; PStr "2024-03-01T06:00:01"].

Definition bench_press_sets : pyval :=
  PList [
    PDict (dict_of [("exerciseName", PStr "BENCH_PRESS");
                    ("category", PStr "BENCH_PRESS");
                    ("sets", PList [
                       PDict (dict_of [("repetitionCount", PInt 5);
                                       ("weight", PInt 10000)]);
                       PDict (dict_of [("repetitionCount", PInt 3)])])])].

Definition processed_bench_press : pyval :=
  PList [
    PDict (dict_of [("exerciseName", PStr "BENCH_PRESS");
                    ("category", PStr "BENCH_PRESS");
                    ("sets", PList [
                       PDict (dict_of [("reps", PInt 5); ("weight", PFloat 10);
                                       ("duration", PNone); ("restTime", PNone)]);
                       PDict (dict_of [("reps", PInt 3); ("weight", PNone);
                                       ("duration", PNone); ("restTime", PNone)])]);
                    ("totalReps", PInt 8);
                    ("totalVolume", PFloat 50)])].

Definition complete_strength : dict :=
  dict_of [("id", PInt 1); ("name", PStr "Morning session");
           ("type", PStr "strength_training");
           ("startTime", PStr "2024-02-03T00:00:00"); ("duration", PFloat 1800);
           ("movingTime", PNone); ("calories", PInt 250); ("averageHR", PNone);
           ("maxHR", PNone); ("distance", PNone); ("averageSpeed", PNone);
           ("maxSpeed", PNone); ("elevationGain", PNone); ("elevationLoss", PNone);
           ("averagePower", PNone); ("maxPower", PNone); ("normalizedPower", PNone);
           ("trainingStressScore", PNone); ("averageCadence", PNone);
           ("maxCadence", PNone); ("totalReps", PInt 8); ("totalSets", PInt 2);
           ("createdAt", PStr "2024-03-01T06:00:00");
           ("updatedAt", PStr "2024-03-01T06:00:01");
           ("exerciseSets", processed_bench_press)].

Definition complete_strength_row : list pyval :=
  [PInt 1; PStr "Morning session"; PStr "strength_training";
   PStr "2024-02-03T00:00:00"; PFloat 1800;
   PNone; PInt 250; PNone; PNone; PNone; PNone; PNone; PNone; PNone; PNone; PNone;
   PNone; PNone; PNone; PNone; PInt 8; PInt 2;
   PStr "2024-03-01T06:00:00"; PStr "2024-03-01T06:00:01"].

Definition bench_press_rows : list (list pyval) :=
  [[PInt 1; PStr "BENCH_PRESS"; PStr "BENCH_PRESS"; PInt 1; PInt 5; PFloat 10;
    PNone; PNone; PFloat 50];
   [PInt 1; PStr "BENCH_PRESS"; PStr "BENCH_PRESS"; PInt 2; PInt 3; PNone;
    PNone; PNone; PInt 0]].

(** A store that holds older set rows of activity 1 and a row of
    activity 5. *)
Definition world_with_old_sets : world :=
  {| kv := ∅;
     activities := {[ 1 := [PInt 1; PStr "Old session"] ]};
     exercise_sets := [[PInt 1; PStr "SQUAT"; PStr "SQUAT"; PInt 1; PInt 10; PNone;
                        PNone; PNone; PInt 0];
                       [PInt 5; PStr "ROW"; PStr "ROW"; PInt 1; PInt 12; PNone;
                        PNone; PNone; PInt 0]];
     log := [] |}.

(** A database that fails at its second statement. *)
Definition second_statement_fails (t : nat) : bool := Nat.eqb t 1.

(** A record without an id, and one whose [activityType] is null. *)
Definition activity_without_id : dict :=
  dict_of [("activityName", PStr "Morning session")].

Definition activity_with_null_type : dict :=
  dict_of [("activityId", PInt 4); ("activityType", PNone)].

(** What [process_activity_data] makes of the run of the scenario, read at
    moments 0 and 1 of the example clock. *)
Definition processed_run : dict :=
  dict_of [("id", PInt 2); ("name", PStr "Morning session"); ("type", PStr "running");
           ("startTime", PStr "2024-02-02T00:00:00"); ("duration", PFloat 1800);
           ("movingTime", PNone); ("calories", PInt 250); ("averageHR", PNone);
           ("maxHR", PNone); ("distance", PNone); ("averageSpeed", PNone);
           ("maxSpeed", PNone); ("elevationGain", PNone); ("elevationLoss", PNone);
           ("createdAt", PStr "2024-03-01T06:00:00");
           ("updatedAt", PStr "2024-03-01T06:00:01");
           ("averagePower", PNone); ("maxPower", PNone); ("normalizedPower", PNone);
           ("trainingStressScore", PNone); ("averageCadence", PNone);
           ("maxCadence", PNone)].

(** * Properties *)

(** ** Reasoning about the monad *)

Lemma bind_run {A B} (m : M A) (f : A → M B) (w : world) :
  (m ≫= f) w = match m w with
               | (Ok a, w') => f a w'
               | (Raise e, w') => (Raise e, w')
               end.
Proof. reflexivity. Qed.

Lemma try_except_run {A} (m : M A) (h : exn → M A) (w : world) :
  try_except m h w = match m w with
                     | (Ok a, w') => (Ok a, w')
                     | (Raise e, w') => h e w'
                     end.
Proof. reflexivity. Qed.

Lemma tick_emit (e : event) (w : world) : tick (emit e w) = S (tick w).
Proof. unfold tick, emit; simpl. rewrite length_app; simpl. lia. Qed.

(** ** States that differ by log entries only *)

Lemma emits_eq (new : list event) (w : world) :
  emits new w = {| kv := kv w; activities := activities w;
                   exercise_sets := exercise_sets w; log := log w ++ new |}.
Proof.
  revert w. induction new as [|e new IH]; intros w.
  - simpl. rewrite app_nil_r. by destruct w.
  - change (emits (e :: new) w) with (emits new (emit e w)).
    rewrite IH. simpl. by rewrite <- app_assoc.
Qed.

Lemma emits_app (l k : list event) (w : world) :
  emits (l ++ k) w = emits k (emits l w).
Proof. unfold emits. by rewrite foldl_app. Qed.

Lemma log_emits (new : list event) (w : world) : log (emits new w) = log w ++ new.
Proof. by rewrite emits_eq. Qed.

Lemma kv_emits (new : list event) (w : world) : kv (emits new w) = kv w.
Proof. by rewrite emits_eq. Qed.

Lemma activities_emits (new : list event) (w : world) :
  activities (emits new w) = activities w.
Proof. by rewrite emits_eq. Qed.

Lemma exercise_sets_emits (new : list event) (w : world) :
  exercise_sets (emits new w) = exercise_sets w.
Proof. by rewrite emits_eq. Qed.

Lemma tick_emits (new : list event) (w : world) :
  tick (emits new w) = (tick w + length new)%nat.
Proof. unfold tick. by rewrite log_emits, length_app. Qed.

(** ** Storing a processed activity

    [store_activity] subscripts the processed activity with every column of
    the [INSERT].  [process_activity_data] sets the power and cadence keys
    only for cycling, running and walking, and [totalReps] and [totalSets]
    only for strength training, so one of the subscripts always raises
    [KeyError], before the statement is run. *)

Section Store.
Context (out : outside).

Lemma type_key_exclusive (a : dict) (v1 v2 : pyval) :
  type_key a PNone = Ok v1 → type_key a (PStr "") = Ok v2 →
  py_eq_str v1 "strength_training" = true →
  py_in_strs v2 ["cycling"; "running"; "walking"] = false.
Proof.
  unfold type_key, py_get, dict_get.
  destruct (default _ (a !! "activityType")); try done.
  destruct (d !! "typeKey") as [v|]; simpl; intros [= <-] [= <-]; [|done].
  destruct v; simpl; try done.
  intros Hs%String.eqb_eq. by subst.
Qed.

Lemma store_activity_missing_column (d : dict) (e : exn) (w : world) :
  is_Some (d !! "id") → mapM (dict_item d) activity_columns = Raise e →
  store_activity out d w = (Raise e, w).
Proof.
  intros [v Hid] Hrow. unfold store_activity.
  rewrite try_except_run, bind_run. unfold lift at 1. rewrite Hrow.
  rewrite bind_run. unfold lift, dict_item. by rewrite Hid.
Qed.

Lemma store_activity_unstorable (d : dict) (w : world) :
  unstorable d → ∃ key, store_activity out d w = (Raise (KeyError key), w).
Proof.
  intros [Hid [key Hrow]]. exists key. by apply store_activity_missing_column.
Qed.

Lemma process_activity_data_result (a : dict) (w : world) :
  match process_activity_data out a w with
  | (Ok d, w') => unstorable d ∧ w' = emits [Clock; Clock] w
  | (Raise e, w') => w' = w ∨ w' = emits [Clock; Clock] w
  end.
Proof.
  unfold process_activity_data.
  rewrite bind_run. unfold lift at 1.
  destruct (dict_item a "activityId") as [id|e]; [|by left].
  rewrite bind_run. unfold lift at 1.
  destruct (type_key a (PStr "unknown")) as [ty|e]; [|by left].
  rewrite bind_run. unfold now at 1, call at 1.
  rewrite bind_run. unfold now at 1, call at 1.
  set (base := dict_of _).
  rewrite bind_run. unfold lift at 1.
  destruct (type_key a PNone) as [v1|e] eqn:H1; [|by right].
  rewrite bind_run.
  destruct (py_eq_str v1 "strength_training"
            && truthy (dict_get a "fullExerciseSets" PNone)) eqn:Hs.
  - apply andb_prop in Hs as [Hs _].
    rewrite bind_run. unfold lift at 1.
    destruct (dict_item a "fullExerciseSets") as [full|e]; [|by right].
    rewrite bind_run. unfold lift at 1.
    destruct (process_exercise_sets full) as [sets|e]; [|by right].
    unfold mret at 1, M_ret at 1. rewrite bind_run. unfold lift at 1.
    destruct (type_key a (PStr "")) as [v2|e] eqn:H2; [|by right].
    rewrite (type_key_exclusive a v1 v2 H1 H2 Hs).
    split; [|done].
    split; [exists id|exists "averagePower"]; vm_refl.
  - unfold mret at 1, M_ret at 1. rewrite bind_run. unfold lift at 1.
    destruct (type_key a (PStr "")) as [v2|e] eqn:H2; [|by right].
    destruct (py_in_strs v2 _); (split; [|done]).
    + split; [exists id|exists "totalReps"]; vm_refl.
    + split; [exists id|exists "averagePower"]; vm_refl.
Qed.

(** A processed activity is never stored. *)
Lemma store_processed_activity_raises (a d : dict) (w w' w'' : world) (r : result unit) :
  process_activity_data out a w = (Ok d, w') →
  store_activity out d w' = (r, w'') →
  w'' = w' ∧ ∃ key, r = Raise (KeyError key).
Proof.
  intros Hp Hs. pose proof (process_activity_data_result a w) as H.
  rewrite Hp in H. destruct H as [Hd _].
  destruct (store_activity_unstorable d w' Hd) as [key Hk].
  rewrite Hk in Hs. injection Hs as <- <-. eauto.
Qed.

(** *** The lookup and the enrichment call *)

Lemma get_activity_by_id_run (activity_id : pyval) (w : world) :
  get_activity_by_id out activity_id w
  = (Ok (if db_error out (tick w) then PNone
         else match activity_id with
              | PInt z =>
                  match activities w !! z with
                  | Some _ => PDict {[ "id" := PInt z ]}
                  | None => PNone
                  end
              | _ => PNone
              end),
     emit (DbFirst activity_id) w).
Proof.
  unfold get_activity_by_id. rewrite try_except_run. unfold db_first.
  by destruct (db_error out (tick w)).
Qed.

Lemma fetch_activity_exercise_sets_run (activity_id : pyval) (w : world) :
  ∃ full, fetch_activity_exercise_sets out activity_id w
          = (Ok full, emit (GarthExerciseSets activity_id) w).
Proof.
  unfold fetch_activity_exercise_sets. rewrite try_except_run, bind_run.
  unfold call at 1.
  destruct (garth_exercise_sets out (tick w) activity_id) as [v|e]; [|by eexists].
  destruct (truthy v); [|by eexists].
  unfold lift. destruct (py_get v _ _); by eexists.
Qed.

(** *** One activity of the loop *)

Lemma process_one_run (a : dict) (n : Z) (w : world) :
  ∃ new, process_one out a n w = (Ok n, emits new w)
         ∧ forallb process_event new = true.
Proof.
  unfold process_one. rewrite try_except_run, bind_run. unfold lift at 1.
  destruct (dict_item a "activityId") as [id|e]; [|by exists []].
  rewrite bind_run, get_activity_by_id_run.
  set (existing := if db_error out (tick w) then _ else _).
  destruct (truthy existing && negb (should_update_activity existing a));
    [by exists [DbFirst id]|].
  rewrite bind_run. unfold lift at 1.
  destruct (type_key a PNone) as [ty|e]; [|by exists [DbFirst id]].
  rewrite bind_run.
  destruct (py_eq_str ty "strength_training").
  - rewrite bind_run.
    destruct (fetch_activity_exercise_sets_run id (emit (DbFirst id) w)) as [full ->].
    unfold mret at 1, M_ret at 1. rewrite bind_run.
    pose proof (process_activity_data_result (<["fullExerciseSets" := full]> a)
                  (emit (GarthExerciseSets id) (emit (DbFirst id) w))) as Hp.
    destruct (process_activity_data _ _ _) as [[d|e] w1].
    + destruct Hp as [Hd ->].
      destruct (store_activity_unstorable d
                  (emits [Clock; Clock] (emit (GarthExerciseSets id) (emit (DbFirst id) w)))
                  Hd) as [key Hk].
      rewrite bind_run, Hk.
      by exists [DbFirst id; GarthExerciseSets id; Clock; Clock].
    + destruct Hp as [-> | ->].
      * by exists [DbFirst id; GarthExerciseSets id].
      * by exists [DbFirst id; GarthExerciseSets id; Clock; Clock].
  - unfold mret at 1, M_ret at 1. rewrite bind_run.
    pose proof (process_activity_data_result a (emit (DbFirst id) w)) as Hp.
    destruct (process_activity_data _ _ _) as [[d|e] w1].
    + destruct Hp as [Hd ->].
      destruct (store_activity_unstorable d
                  (emits [Clock; Clock] (emit (DbFirst id) w)) Hd) as [key Hk].
      rewrite bind_run, Hk.
      by exists [DbFirst id; Clock; Clock].
    + destruct Hp as [-> | ->].
      * by exists [DbFirst id].
      * by exists [DbFirst id; Clock; Clock].
Qed.

Lemma process_loop_run (l : list dict) (n : Z) (w : world) :
  ∃ new, process_loop out l n w = (Ok n, emits new w)
         ∧ forallb process_event new = true.
Proof.
  revert w. induction l as [|a l IH]; intros w; simpl.
  - by exists [].
  - rewrite bind_run. destruct (process_one_run a n w) as (new1 & -> & F1).
    destruct (IH (emits new1 w)) as (new2 & -> & F2).
    exists (new1 ++ new2). by rewrite emits_app, forallb_app, F1, F2.
Qed.
End Store.

(** ** Fetching pages *)

Section Fetch.
Context (out : outside).

Lemma filter_newer_spec (T : datetime) (l kept : list dict) :
  filter_newer out T l = Ok kept →
  Forall (started_after out T) kept
  ∧ (length kept ≤ length l)%nat
  ∧ ((length l ≤ length kept)%nat → kept = l).
Proof.
  revert kept. induction l as [|a l IH]; simpl; intros kept H.
  - injection H as <-. split_and!; by auto.
  - destruct (start_time out a) as [t|] eqn:Ht; [|done]. simpl in H.
    destruct (datetime_gt t T) as [newer|] eqn:Hgt; [|done]. simpl in H.
    destruct (filter_newer out T l) as [kept'|]; [|done]. simpl in H.
    injection H as <-. destruct (IH kept' eq_refl) as (HF & Hle & Heq).
    destruct newer; simpl.
    + split_and!; [|lia|].
      * constructor; [by exists t|done].
      * intros ?. f_equal. apply Heq. lia.
    + split_and!; [done|lia|lia].
Qed.

Lemma filter_newer_all (T : datetime) (l : list dict) :
  Forall (started_after out T) l → filter_newer out T l = Ok l.
Proof.
  induction 1 as [|a l (t & Ht & Hgt) _ IH]; simpl; [done|].
  by rewrite Ht; simpl; rewrite Hgt; simpl; rewrite IH.
Qed.

Lemma fetch_page_run lst init all start (w : world) :
  fetch_page out lst init all start w
  = (Ok (page_step out lst init all start (garth_search out (tick w) PAGE_SIZE start)),
     emit (GarthSearch PAGE_SIZE start) w).
Proof.
  unfold fetch_page, page_step, filtered_page.
  rewrite try_except_run, bind_run. unfold call at 1.
  destruct (garth_search out (tick w) PAGE_SIZE start) as [[[|a response]|]|e]; try done.
  rewrite bind_run.
  destruct (truthy_str lst && negb init).
  - unfold lift at 1.
    destruct (fromisoformat out _ ≫= _) as [filtered|e]; [|done].
    by repeat case_match.
  - unfold mret at 1, M_ret at 1. by repeat case_match.
Qed.

(** What a page adds to [all_activities], and whether the loop goes on. *)
Lemma page_step_inv lst init all start answer :
  match page_step out lst init all start answer with
  | PageContinue all' start' =>
      start' = start + PAGE_SIZE
      ∧ ∃ response, answer = Ok (Some response)
          ∧ all' = all ++ response
          ∧ filtered_page out lst init response = Ok response
          ∧ PAGE_SIZE ≤ Z.of_nat (length response)
  | PageBreak all' =>
      all' = all
      ∨ ∃ response kept, answer = Ok (Some response)
          ∧ all' = all ++ kept
          ∧ filtered_page out lst init response = Ok kept
  end.
Proof.
  unfold page_step.
  destruct answer as [[[|a response]|]|e]; try by left.
  destruct (filtered_page out lst init (a :: response)) as [filtered|e] eqn:Hf; [|by left].
  destruct (length filtered <? length (a :: response))%nat eqn:Hlen.
  { right. by exists (a :: response), filtered. }
  apply Nat.ltb_ge in Hlen.
  assert (filtered = a :: response) as ->.
  { unfold filtered_page in Hf. destruct (truthy_str lst && negb init).
    - destruct (fromisoformat out _) as [T|]; [|done].
      change (filter_newer out T (a :: response) = Ok filtered) in Hf.
      destruct (filter_newer_spec _ _ _ Hf) as (_ & _ & Heq). by apply Heq.
    - by injection Hf. }
  destruct (Z.of_nat (length (a :: response)) <? PAGE_SIZE) eqn:Hfull.
  { right. by exists (a :: response), (a :: response). }
  apply Z.ltb_ge in Hfull. split; [done|]. by exists (a :: response).
Qed.

Lemma continues_step lst init all start (t : nat) :
  continues out lst init t start
  = match page_step out lst init all start (garth_search out t PAGE_SIZE start) with
    | PageContinue _ _ => true
    | PageBreak _ => false
    end.
Proof.
  unfold continues, page_step.
  destruct (garth_search out t PAGE_SIZE start) as [[[|a response]|]|e]; try done.
  by repeat case_match.
Qed.

(** *** The rounds never run out *)

Lemma fetch_loop_fuel_enough lst init (max : Z) (fuel : nat) all start (w : world) :
  max - Z.of_nat (length all) ≤ Z.of_nat fuel →
  ∃ l w', fetch_loop out fuel lst init max all start w = (Ok (Some l), w').
Proof.
  revert all start w. induction fuel as [|fuel IH]; intros all start w Hfuel; simpl.
  - destruct (Z.of_nat (length all) <? max) eqn:Hlt; [|by eexists _, _].
    apply Z.ltb_lt in Hlt. lia.
  - destruct (Z.of_nat (length all) <? max) eqn:Hlt; [|by eexists _, _].
    rewrite bind_run, fetch_page_run.
    pose proof (page_step_inv lst init all start
                  (garth_search out (tick w) PAGE_SIZE start)) as Hstep.
    destruct (page_step _ _ _ _ _ _) as [all'|all' start']; [by eexists _, _|].
    destruct Hstep as (_ & response & _ & -> & _ & Hfull).
    apply IH. rewrite length_app. unfold PAGE_SIZE in Hfull. lia.
Qed.

Lemma fetch_activities_fuel_enough lst init (w : world) :
  ∃ l w', fetch_activities_fuel out lst init w = (Ok (Some l), w').
Proof.
  unfold fetch_activities_fuel. apply fetch_loop_fuel_enough.
  destruct init; simpl; lia.
Qed.

Lemma fetch_activities_run lst init (w : world) :
  ∃ l w', fetch_activities_fuel out lst init w = (Ok (Some l), w')
          ∧ fetch_activities out lst init w = (Ok l, w').
Proof.
  destruct (fetch_activities_fuel_enough lst init w) as (l & w' & H).
  exists l, w'. split; [done|]. unfold fetch_activities. by rewrite bind_run, H.
Qed.
End Fetch.

Section FetchLoop.
Context (out : outside).

Lemma length_searches (n : nat) (start : Z) : length (searches n start) = n.
Proof. revert start. induction n; intros; simpl; by f_equal. Qed.

Lemma searches_lookup (n k : nat) (start : Z) :
  (k < n)%nat →
  searches n start !! k = Some (GarthSearch PAGE_SIZE (start + PAGE_SIZE * Z.of_nat k)).
Proof.
  revert k start. induction n as [|n IH]; intros k start Hk; [lia|].
  destruct k as [|k]; simpl.
  - do 2 f_equal. lia.
  - rewrite IH by lia. do 2 f_equal. lia.
Qed.

Lemma all_but_last_continue_lookup lst init (n k t : nat) (start : Z) :
  all_but_last_continue out lst init n t start → (S k < n)%nat →
  continues out lst init (t + k) (start + PAGE_SIZE * Z.of_nat k) = true.
Proof.
  revert k t start. induction n as [|n IH]; intros k t start H Hk; [lia|].
  destruct H as [Hhead Htail]. destruct k as [|k].
  - rewrite Nat.add_0_r, Z.mul_0_r, Z.add_0_r. apply Hhead. lia.
  - replace (t + S k)%nat with (S t + k)%nat by lia.
    replace (start + PAGE_SIZE * Z.of_nat (S k))
      with (start + PAGE_SIZE + PAGE_SIZE * Z.of_nat k) by lia.
    apply IH; [done|lia].
Qed.

(** The loop only asks for pages, one after the other, and stops at the
    first page that does not let it go on. *)
Lemma fetch_loop_log lst init max (fuel : nat) all start (w w' : world) r :
  fetch_loop out fuel lst init max all start w = (r, w') →
  ∃ n, w' = emits (searches n start) w
       ∧ all_but_last_continue out lst init n (tick w) start.
Proof.
  revert all start w. induction fuel as [|fuel IH]; intros all start w; simpl.
  - destruct (_ <? _); intros [= <- <-]; by exists 0%nat.
  - destruct (_ <? _); [|intros [= <- <-]; by exists 0%nat].
    rewrite bind_run, fetch_page_run.
    pose proof (continues_step out lst init all start (tick w)) as Hc.
    destruct (page_step _ _ _ _ _ _) as [all'|all' start'] eqn:Hstep.
    + intros [= <- <-]. exists 1%nat. by split.
    + pose proof (page_step_inv out lst init all start
                    (garth_search out (tick w) PAGE_SIZE start)) as Hinv.
      rewrite Hstep in Hinv. destruct Hinv as [-> _].
      intros (n & -> & Hn)%IH. exists (S n). split; [done|].
      rewrite tick_emit in Hn. by split.
Qed.

Lemma filtered_page_length lst init (response kept : list dict) :
  filtered_page out lst init response = Ok kept →
  (length kept ≤ length response)%nat.
Proof.
  unfold filtered_page. destruct (_ && _); [|by intros [= <-]].
  destruct (fromisoformat out _) as [T|]; [|done].
  intros H. change (filter_newer out T response = Ok kept) in H.
  by apply filter_newer_spec in H as (_ & ? & _).
Qed.

(** *** The ceiling *)

Lemma fetch_loop_bound lst init (max : Z) (fuel : nat) all start (w w' : world) l :
  (∀ t st response,
      garth_search out t PAGE_SIZE st = Ok (Some response) →
      Z.of_nat (length response) ≤ PAGE_SIZE) →
  (PAGE_SIZE | max) → (PAGE_SIZE | Z.of_nat (length all)) →
  Z.of_nat (length all) ≤ max →
  fetch_loop out fuel lst init max all start w = (Ok (Some l), w') →
  Z.of_nat (length l) ≤ max.
Proof.
  intros Hlimit [m ->]. revert all start w.
  induction fuel as [|fuel IH]; intros all start w [j Hj] Hle; simpl.
  - destruct (_ <? _); [done|]. by intros [= <- <-].
  - destruct (_ <? _) eqn:Hlt; [|by intros [= <- <-]].
    apply Z.ltb_lt in Hlt.
    rewrite bind_run, fetch_page_run.
    pose proof (page_step_inv out lst init all start
                  (garth_search out (tick w) PAGE_SIZE start)) as Hinv.
    destruct (page_step _ _ _ _ _ _) as [all'|all' start'].
    + intros [= <- <-].
      destruct Hinv as [-> | (response & kept & Hans & -> & Hf)]; [done|].
      apply Hlimit in Hans. apply filtered_page_length in Hf.
      rewrite length_app. unfold PAGE_SIZE in *. lia.
    + destruct Hinv as (_ & response & Hans & -> & _ & Hfull).
      apply Hlimit in Hans.
      apply IH.
      * exists (j + 1). rewrite length_app. unfold PAGE_SIZE in *. lia.
      * rewrite length_app. unfold PAGE_SIZE in *. lia.
Qed.

(** *** The date filter *)

Lemma filtered_page_newer lst (response kept : list dict) :
  truthy_str lst = true →
  filtered_page out lst false response = Ok kept →
  Forall (newer_than out lst) kept.
Proof.
  unfold filtered_page. intros ->. simpl.
  destruct (fromisoformat out _) as [T|] eqn:HT; [|done].
  intros H. change (filter_newer out T response = Ok kept) in H.
  apply filter_newer_spec in H as (HF & _ & _).
  eapply Forall_impl; [exact HF|]. intros a Ha. by exists T.
Qed.

Lemma fetch_loop_newer lst (max : Z) (fuel : nat) all start (w w' : world) l :
  truthy_str lst = true →
  Forall (newer_than out lst) all →
  fetch_loop out fuel lst false max all start w = (Ok (Some l), w') →
  Forall (newer_than out lst) l.
Proof.
  intros Hlst. revert all start w.
  induction fuel as [|fuel IH]; intros all start w Hall; simpl.
  - destruct (_ <? _); [done|]. by intros [= <- <-].
  - destruct (_ <? _); [|by intros [= <- <-]].
    rewrite bind_run, fetch_page_run.
    pose proof (page_step_inv out lst false all start
                  (garth_search out (tick w) PAGE_SIZE start)) as Hinv.
    destruct (page_step _ _ _ _ _ _) as [all'|all' start'].
    + intros [= <- <-].
      destruct Hinv as [-> | (response & kept & _ & -> & Hf)]; [done|].
      apply Forall_app. split; [done|]. by eapply filtered_page_newer.
    + destruct Hinv as (_ & response & _ & -> & Hf & _).
      apply IH. apply Forall_app. split; [done|]. by eapply filtered_page_newer.
Qed.

(** A page the filter takes an activity from ends the loop. *)
Lemma continues_dropped lst init (t : nat) (st : Z) (response kept : list dict) :
  garth_search out t PAGE_SIZE st = Ok (Some response) →
  filtered_page out lst init response = Ok kept →
  (length kept < length response)%nat →
  continues out lst init t st = false.
Proof.
  intros Hans Hf Hlen. unfold continues, page_step. rewrite Hans.
  destruct response as [|a response]; [done|]. rewrite Hf.
  apply Nat.ltb_lt in Hlen. by rewrite Hlen.
Qed.

(** *** Full pages *)

Lemma fetch_loop_full lst init (max : Z) :
  (∀ t st, ∃ response,
      garth_search out t PAGE_SIZE st = Ok (Some response)
      ∧ Z.of_nat (length response) = PAGE_SIZE
      ∧ filtered_page out lst init response = Ok response) →
  ∀ (k fuel : nat) all start (w : world),
    Z.of_nat (length all) + PAGE_SIZE * Z.of_nat k = max → (k ≤ fuel)%nat →
    ∃ l, fetch_loop out fuel lst init max all start w
         = (Ok (Some l), emits (searches k start) w)
         ∧ Z.of_nat (length l) = max.
Proof.
  intros Hfull k. induction k as [|k IH]; intros fuel all start w Hmax Hfuel.
  - exists all. split; [|lia].
    destruct fuel; simpl; by rewrite (proj2 (Z.ltb_ge _ _)) by lia.
  - destruct fuel as [|fuel]; [lia|]. simpl.
    rewrite (proj2 (Z.ltb_lt _ _)) by (unfold PAGE_SIZE in *; lia).
    rewrite bind_run, fetch_page_run.
    destruct (Hfull (tick w) start) as (response & Hans & Hlen & Hf).
    unfold page_step. rewrite Hans.
    destruct response as [|a response]; [done|]. rewrite Hf.
    rewrite Nat.ltb_irrefl, Hlen. simpl.
    destruct (IH fuel (all ++ a :: response) (start + PAGE_SIZE)
                (emit (GarthSearch PAGE_SIZE start) w)) as (l & Hl & Hlenl).
    + rewrite length_app. lia.
    + lia.
    + by exists l.
Qed.
End FetchLoop.

(** ** Establishing the session *)

Section Session.
Context (out : outside).

Lemma authenticate_garmin_stages (env : Environment) :
  authenticate_garmin out env
  = try_except
      (if negb (truthy_str (GARMIN_USERNAME env)) || negb (truthy_str (GARMIN_PASSWORD env))
       then raise (Exception "Garmin credentials not provided")
       else
         resumed ← resume_session out;
         if resumed : bool then mret true else fresh_login out env)
      (λ _, mret false).
Proof. reflexivity. Qed.

(** The resume stage as a function of what it meets: no saved session,
    a session that cannot be loaded, a probe that fails, a valid
    session. *)
Lemma resume_session_run (w : world) :
  resume_session out w
  = match kv w !! "garth_session" with
    | Some s =>
        if negb (String.eqb s "") then
          match garth_resume out (S (tick w)) s with
          | Ok _ =>
              match garth_probe out (S (S (tick w))) with
              | Ok _ =>
                  (Ok true, emits [KvGet "garth_session"; GarthResume s; GarthProbe] w)
              | Raise _ =>
                  (Ok false, emits [KvGet "garth_session"; GarthResume s; GarthProbe] w)
              end
          | Raise _ => (Ok false, emits [KvGet "garth_session"; GarthResume s] w)
          end
        else (Ok false, emits [KvGet "garth_session"] w)
    | None => (Ok false, emits [KvGet "garth_session"] w)
    end.
Proof.
  unfold resume_session. rewrite try_except_run, bind_run. unfold kv_get at 1.
  destruct (kv w !! "garth_session") as [s|]; simpl; [|done].
  destruct (negb (String.eqb s "")); [|done].
  rewrite bind_run. unfold call at 1. rewrite tick_emit.
  destruct (garth_resume out (S (tick w)) s) as [[]|e]; [|done].
  unfold try_except_on. rewrite try_except_run, bind_run. unfold call at 1.
  rewrite !tick_emit.
  destruct (garth_probe out (S (S (tick w)))) as [[]|e]; [done|].
  by destruct (is_garth_exception e).
Qed.

Lemma resume_session_total (w : world) :
  ∃ resumed pre, resume_session out w = (Ok resumed, emits pre w)
                 ∧ forallb resume_event pre = true.
Proof.
  rewrite resume_session_run. repeat case_match; by eexists _, _.
Qed.

(** The fresh login as a function of what it meets. *)
Lemma fresh_login_run (env : Environment) (w : world) :
  let u := default "" (GARMIN_USERNAME env) in
  let p := default "" (GARMIN_PASSWORD env) in
  fresh_login out env w
  = match garth_login out (tick w) u p with
    | Ok _ =>
        match garth_dump out (S (tick w)) with
        | Ok session_data =>
            (Ok true,
             {| kv := <["garth_session" := session_data]> (kv w);
                activities := activities w;
                exercise_sets := exercise_sets w;
                log := log w ++ [GarthLogin u p; GarthDump;
                                 KvPut "garth_session" session_data] |})
        | Raise e => (Raise e, emits [GarthLogin u p; GarthDump] w)
        end
    | Raise e => (Raise e, emits [GarthLogin u p] w)
    end.
Proof.
  intros u p. unfold fresh_login. fold u p.
  rewrite bind_run. unfold call at 1.
  destruct (garth_login out (tick w) u p) as [[]|e]; [|done].
  rewrite bind_run. unfold call at 1. rewrite tick_emit.
  destruct (garth_dump out (S (tick w))) as [session_data|e]; [|done].
  rewrite bind_run. unfold kv_put, emit; simpl.
  by rewrite <- !app_assoc.
Qed.

Lemma resume_event_session (pre : list event) :
  forallb resume_event pre = true → forallb session_event pre = true.
Proof.
  rewrite !forallb_forall. intros H e He. specialize (H e He). by destruct e.
Qed.

(** [authenticate_garmin] never raises.  Either it wrote nothing (a
    resumed session, or a failure), or it returns [True] after a fresh
    login whose last step is the one write of the session. *)
Lemma authenticate_garmin_run (env : Environment) (w : world) :
  ∃ authenticated wa,
    authenticate_garmin out env w = (Ok authenticated, wa)
    ∧ ((∃ pre, wa = emits pre w ∧ forallb session_event pre = true)
       ∨ (authenticated = true
          ∧ ∃ pre u p session_data,
              forallb resume_event pre = true
              ∧ wa = {| kv := <["garth_session" := session_data]> (kv w);
                        activities := activities w;
                        exercise_sets := exercise_sets w;
                        log := log w ++ pre ++ [GarthLogin u p; GarthDump;
                                                KvPut "garth_session" session_data] |})).
Proof.
  rewrite authenticate_garmin_stages, try_except_run.
  destruct (negb _ || negb _).
  { exists false, w. split; [done|]. left. by exists []. }
  rewrite bind_run.
  destruct (resume_session_total w) as (resumed & pre & -> & Hpre).
  destruct resumed.
  { exists true, (emits pre w). split; [done|]. left. exists pre.
    split; [done|]. by apply resume_event_session. }
  rewrite fresh_login_run. rewrite tick_emits.
  set (u := default "" (GARMIN_USERNAME env)).
  set (p := default "" (GARMIN_PASSWORD env)).
  destruct (garth_login out _ u p) as [[]|e].
  - destruct (garth_dump out _) as [session_data|e].
    + eexists true, _. split; [done|]. right. split; [done|].
      exists pre, u, p, session_data. split; [done|].
      by rewrite kv_emits, activities_emits, exercise_sets_emits, log_emits,
           <- app_assoc.
    + eexists false, _. split; [done|]. left.
      exists (pre ++ [GarthLogin u p; GarthDump]). rewrite emits_app.
      split; [done|]. rewrite forallb_app. by rewrite resume_event_session.
  - eexists false, _. split; [done|]. left.
    exists (pre ++ [GarthLogin u p]). rewrite emits_app.
    split; [done|]. rewrite forallb_app. by rewrite resume_event_session.
Qed.
End Session.

(** ** A sync run *)

Lemma count_app (P : event → bool) (l k : list event) :
  count P (l ++ k) = (count P l + count P k)%nat.
Proof. unfold count. by rewrite List.filter_app, length_app. Qed.

Lemma count_none (P Q : event → bool) (l : list event) :
  (∀ e, Q e = true → P e = false) → forallb Q l = true → count P l = 0%nat.
Proof.
  intros HQP. unfold count. induction l as [|e l IH]; simpl; [done|].
  intros [He Hl]%andb_prop. by rewrite (HQP e He), IH.
Qed.

Lemma forallb_searches (n : nat) (start : Z) (P : event → bool) :
  (∀ limit st, P (GarthSearch limit st) = true) → forallb P (searches n start) = true.
Proof.
  intros HP. revert start. induction n as [|n IH]; intros start; simpl; [done|].
  by rewrite HP, IH.
Qed.

Section Sync.
Context (out : outside).

Lemma finish_sync_run (processed_count : Z) (is_initial_sync : bool) (wl : world) :
  (synced_at ← now out;
   kv_put "lastSyncTime" synced_at;;
   timestamp ← now out;
   mret {| success := true; activitiesProcessed := Some processed_count;
           isInitialSync := Some is_initial_sync; error := None;
           timestamp := timestamp |}) wl
  = (Ok {| success := true; activitiesProcessed := Some processed_count;
           isInitialSync := Some is_initial_sync; error := None;
           timestamp := clock out (S (S (tick wl))) |},
     synced out wl).
Proof.
  rewrite bind_run. unfold now at 1, call at 1.
  rewrite bind_run. unfold kv_put at 1.
  rewrite bind_run. unfold now at 1, call at 1.
  unfold mret, M_ret, synced, emit, tick; simpl.
  rewrite !length_app; simpl. rewrite <- !app_assoc; simpl.
  do 4 f_equal. lia.
Qed.

(** The whole run, stage by stage.  It never raises; the loop stores no
    activity (see [process_loop_run]), so the count is [0]. *)
Lemma sync_garmin_data_run (env : Environment) (w : world) :
  ∃ authenticated wa,
    authenticate_garmin out env w = (Ok authenticated, wa)
    ∧ if authenticated : bool then
        let last_sync_time := kv wa !! "lastSyncTime" in
        let is_initial_sync := negb (truthy_str last_sync_time) in
        let w1 := emit (KvGet "lastSyncTime") wa in
        ∃ fetched n new,
          fetch_activities out last_sync_time is_initial_sync w1
          = (Ok fetched, emits (searches n 0) w1)
          ∧ all_but_last_continue out last_sync_time is_initial_sync n (tick w1) 0
          ∧ process_and_store_activities out fetched (emits (searches n 0) w1)
            = (Ok 0, emits new (emits (searches n 0) w1))
          ∧ forallb process_event new = true
          ∧ sync_garmin_data out env w
            = (Ok {| success := true; activitiesProcessed := Some 0;
                     isInitialSync := Some is_initial_sync; error := None;
                     timestamp :=
                       clock out (S (S (tick (emits new (emits (searches n 0) w1))))) |},
               synced out (emits new (emits (searches n 0) w1)))
      else
        sync_garmin_data out env w
        = (Ok {| success := false; activitiesProcessed := None;
                 isInitialSync := None;
                 error := Some (Exception "Failed to authenticate with Garmin");
                 timestamp := clock out (tick wa) |},
           emit Clock wa).
Proof.
  destruct (authenticate_garmin_run out env w) as (authenticated & wa & Ha & _).
  exists authenticated, wa. split; [done|].
  unfold sync_garmin_data. rewrite try_except_run, bind_run, Ha.
  destruct authenticated; simpl; [|done].
  set (lst := kv wa !! "lastSyncTime").
  set (w1 := emit (KvGet "lastSyncTime") wa).
  destruct (fetch_activities_run out lst (negb (truthy_str lst)) w1)
    as (fetched & wf & Hfuel & Hfetch).
  destruct (fetch_loop_log out _ _ _ _ _ _ _ _ _ Hfuel) as (n & -> & Hpages).
  destruct (process_loop_run out fetched 0 (emits (searches n 0) w1))
    as (new & Hloop & Hnew).
  exists fetched, n, new. split_and!; [done..|].
  rewrite bind_run. unfold kv_get at 1. fold lst w1.
  rewrite bind_run, Hfetch, bind_run.
  unfold process_and_store_activities. rewrite Hloop.
  by rewrite finish_sync_run.
Qed.
End Sync.

(** * The claims *)

(** ** Webhook authorisation *)

(** C9. For every POST request to [/sync]: when the configured secret
    [GARMIN_WEBHOOK_SECRET] is unset or empty, [verify_webhook_signature]
    returns true whatever the signature header holds; otherwise it returns
    true exactly when the [X-Webhook-Signature] header equals the secret.
    The handler answers 401 when the verification fails and otherwise
    accepts the request and detaches the sync. *)
Theorem webhook_signature_verification
    (out : outside) (request : Request) (env : Environment) (w : world) :
  endswith (url request) "/sync" = true →
  method request = "POST" →
  let signature := headers request !! "X-Webhook-Signature" in
  let secret := GARMIN_WEBHOOK_SECRET env in
  ((secret = None ∨ secret = Some "") → verify_webhook_signature signature env = true)
  ∧ (∀ s, secret = Some s → s ≠ "" →
       (verify_webhook_signature signature env = true ↔ signature = Some s))
  ∧ ∃ response detached,
      (on_fetch out request env w).1 = Ok (response, detached)
      ∧ (verify_webhook_signature signature env = true →
           status response = 200 ∧ detached = Some (SyncTask env))
      ∧ (verify_webhook_signature signature env = false →
           status response = 401 ∧ detached = None).
Proof.
  intros Hurl Hmethod signature secret. split_and!.
  - unfold verify_webhook_signature. fold secret.
    intros [-> | ->]; simpl; by rewrite orb_true_r.
  - intros s Hs Hne. unfold verify_webhook_signature. fold secret signature.
    rewrite Hs. simpl.
    assert (String.eqb s "" = false) as -> by by apply String.eqb_neq.
    simpl. rewrite orb_false_r. apply bool_decide_eq_true.
  - unfold on_fetch. rewrite Hurl, Hmethod. simpl. fold signature.
    destruct (verify_webhook_signature signature env); simpl.
    + eexists _, _. split; [reflexivity|]. by split.
    + eexists _, _. split; [reflexivity|]. by split.
Qed.

Lemma webhook_signature_verification_witness :
  (endswith (url unsigned_sync_request) "/sync" = true
   ∧ method unsigned_sync_request = "POST"
   ∧ GARMIN_WEBHOOK_SECRET example_env = None
   ∧ verify_webhook_signature (headers unsigned_sync_request !! "X-Webhook-Signature")
       example_env = true)
  ∧ (endswith (url signed_sync_request) "/sync" = true
     ∧ method signed_sync_request = "POST"
     ∧ GARMIN_WEBHOOK_SECRET env_with_secret = Some "s3cret"
     ∧ "s3cret" ≠ ""
     ∧ headers signed_sync_request !! "X-Webhook-Signature" = Some "s3cret"
     ∧ verify_webhook_signature (headers signed_sync_request !! "X-Webhook-Signature")
         env_with_secret = true)
  ∧ ∃ response detached,
      (on_fetch (example_outside three_activities no_fault) signed_sync_request
         env_with_secret empty_world).1 = Ok (response, detached)
      ∧ status response = 200
      ∧ detached = Some (SyncTask env_with_secret).
Proof.
  destruct (webhook_signature_verification
              (example_outside three_activities no_fault)
              unsigned_sync_request example_env empty_world eq_refl eq_refl)
    as (Hunset & _ & _).
  destruct (webhook_signature_verification
              (example_outside three_activities no_fault)
              signed_sync_request env_with_secret empty_world eq_refl eq_refl)
    as (_ & Hset & response & detached & Hrun & Hpass & _).
  assert (headers signed_sync_request !! "X-Webhook-Signature" = Some "s3cret")
    as Hsigned by vm_refl.
  assert (verify_webhook_signature
            (headers signed_sync_request !! "X-Webhook-Signature") env_with_secret
          = true) as Hverified.
  { apply (Hset "s3cret"); [reflexivity|discriminate|exact Hsigned]. }
  split.
  { split; [reflexivity|]. split; [reflexivity|]. split; [reflexivity|].
    apply Hunset. left. reflexivity. }
  split.
  { split; [reflexivity|]. split; [reflexivity|]. split; [reflexivity|].
    split; [discriminate|]. split; [exact Hsigned|exact Hverified]. }
  exists response, detached. split; [exact Hrun|]. exact (Hpass Hverified).
Defined.

(** ** Exercise sets: grams to kilograms *)

Lemma process_set_weight (set_data : dict) (raw : pyval) :
  truthy (dict_get set_data "weight" PNone) = true →
  set_data !! "weight" = Some raw →
  process_set (PDict set_data)
  = (kg ← py_truediv raw (PInt 1000);
     weight ← py_round2 kg;
     Ok (dict_of [("reps", dict_get set_data "repetitionCount" (PInt 0));
                  ("weight", weight);
                  ("duration", dict_get set_data "duration" PNone);
                  ("restTime", dict_get set_data "restTime" PNone)])).
Proof.
  intros Htruthy Hraw. unfold process_set. simpl. rewrite Htruthy.
  unfold dict_item. rewrite Hraw. simpl.
  destruct (py_truediv raw (PInt 1000)) as [kg|]; [|done]. simpl.
  by destruct (py_round2 kg).
Qed.

Lemma process_set_no_weight (set_data : dict) :
  truthy (dict_get set_data "weight" PNone) = false →
  process_set (PDict set_data)
  = Ok (dict_of [("reps", dict_get set_data "repetitionCount" (PInt 0));
                 ("weight", PNone);
                 ("duration", dict_get set_data "duration" PNone);
                 ("restTime", dict_get set_data "restTime" PNone)]).
Proof. intros Hfalsy. unfold process_set. simpl. by rewrite Hfalsy. Qed.

(** C7. In [process_exercise_sets] a raw set weight of 1000 (grams) becomes
    exactly 1.0 (kilograms); a truthy raw weight is divided by 1000 and
    rounded to 2 decimals; a raw weight that is 0 or absent becomes [None];
    and a set whose weight is [None] adds the integer 0 to the total
    volume of its group. *)
Theorem exercise_set_weight_conversion (set_data : dict) :
  ((set_data !! "weight" = Some (PInt 1000) ∨ set_data !! "weight" = Some (PFloat 1000)) →
     ∃ s, process_set (PDict set_data) = Ok s ∧ s !! "weight" = Some (PFloat 1))
  ∧ (∀ raw s, set_data !! "weight" = Some raw → truthy raw = true →
       process_set (PDict set_data) = Ok s →
       ∃ kg weight, py_truediv raw (PInt 1000) = Ok kg
                    ∧ py_round2 kg = Ok weight
                    ∧ s !! "weight" = Some weight)
  ∧ ((set_data !! "weight" = None ∨ set_data !! "weight" = Some (PInt 0)
      ∨ set_data !! "weight" = Some (PFloat 0)) →
     ∃ s, process_set (PDict set_data) = Ok s ∧ s !! "weight" = Some PNone)
  ∧ (∀ (s : dict) (reps : Z),
       s !! "weight" = Some PNone → s !! "reps" = Some (PInt reps) →
       set_volume s = Ok (PInt 0)
       ∧ ∀ rest, sum_over set_volume (s :: rest) = sum_over set_volume rest).
Proof.
  split_and!.
  - intros [H | H];
      (rewrite (process_set_weight set_data _ ltac:(unfold dict_get; by rewrite H) H);
       exists (dict_of [("reps", dict_get set_data "repetitionCount" (PInt 0));
                        ("weight", PFloat 1);
                        ("duration", dict_get set_data "duration" PNone);
                        ("restTime", dict_get set_data "restTime" PNone)]);
       split; vm_refl).
  - intros raw s Hraw Htruthy.
    rewrite (process_set_weight set_data raw ltac:(unfold dict_get; by rewrite Hraw) Hraw).
    destruct (py_truediv raw (PInt 1000)) as [kg|] eqn:Hkg; [|done]. simpl.
    destruct (py_round2 kg) as [weight|] eqn:Hweight; [|done]. simpl.
    intros [= <-]. exists kg, weight. split_and!; [done..|]. vm_refl.
  - intros H.
    rewrite process_set_no_weight
      by (unfold dict_get; destruct H as [-> | [-> | ->]]; reflexivity).
    eexists. split; [reflexivity|]. vm_refl.
  - intros s reps Hweight Hreps.
    assert (set_volume s = Ok (PInt 0)) as Hvol.
    { unfold set_volume, dict_get. rewrite Hweight, Hreps.
      unfold py_or, py_mul. simpl. do 2 f_equal. lia. }
    split; [done|]. intros rest. unfold sum_over. simpl. by rewrite Hvol.
Qed.

Lemma exercise_set_weight_conversion_witness :
  (one_kilogram_set !! "weight" = Some (PInt 1000)
   ∧ ∃ s, process_set (PDict one_kilogram_set) = Ok s
          ∧ s !! "weight" = Some (PFloat 1))
  ∧ (truthy (PInt 1000) = true
     ∧ process_set (PDict one_kilogram_set) = Ok processed_one_kilogram_set
     ∧ ∃ kg weight, py_truediv (PInt 1000) (PInt 1000) = Ok kg
                    ∧ py_round2 kg = Ok weight
                    ∧ processed_one_kilogram_set !! "weight" = Some weight)
  ∧ (bodyweight_set !! "weight" = None
     ∧ ∃ s, process_set (PDict bodyweight_set) = Ok s ∧ s !! "weight" = Some PNone)
  ∧ (processed_bodyweight_set !! "weight" = Some PNone
     ∧ processed_bodyweight_set !! "reps" = Some (PInt 3)
     ∧ set_volume processed_bodyweight_set = Ok (PInt 0)).
Proof.
  destruct (exercise_set_weight_conversion one_kilogram_set) as (Hkg & Hround & _ & _).
  destruct (exercise_set_weight_conversion bodyweight_set) as (_ & _ & Hnone & Hvolume).
  assert (one_kilogram_set !! "weight" = Some (PInt 1000)) as Hraw by vm_refl.
  assert (process_set (PDict one_kilogram_set) = Ok processed_one_kilogram_set)
    as Hprocessed by vm_refl.
  assert (bodyweight_set !! "weight" = None) as Habsent by vm_refl.
  assert (processed_bodyweight_set !! "weight" = Some PNone) as Hnull by vm_refl.
  assert (processed_bodyweight_set !! "reps" = Some (PInt 3)) as Hreps by vm_refl.
  split; [split; [exact Hraw|apply Hkg; left; exact Hraw]|].
  split.
  { split; [reflexivity|]. split; [exact Hprocessed|].
    exact (Hround (PInt 1000) processed_one_kilogram_set Hraw eq_refl Hprocessed). }
  split; [split; [exact Habsent|apply Hnone; left; exact Habsent]|].
  split; [exact Hnull|]. split; [exact Hreps|].
  exact (proj1 (Hvolume processed_bodyweight_set 3 Hnull Hreps)).
Defined.

(** The group of the example: 5 repetitions at 10 kg and 3 without weight
    give 8 repetitions and a volume of 50. *)
Example bench_press_totals :
  (groups ← process_exercise_sets (PList [
     PDict (dict_of [("exerciseName", PStr "BENCH_PRESS");
                     ("sets", PList [
                        PDict (dict_of [("repetitionCount", PInt 5);
                                        ("weight", PInt 10000)]);
                        PDict (dict_of [("repetitionCount", PInt 3)])])])]);
   match groups with
   | PList [PDict group] => Ok (group !! "totalReps", group !! "totalVolume")
   | _ => Raise TypeError
   end)
  = Ok (Some (PInt 8), Some (PFloat 50)).
Proof. vm_refl. Qed.

(** ** The end-to-end run *)

(** C1. The initial sync of the scenario: no stored watermark, one page of
    three raw activities (a strength training with exercise-set detail and
    two runs), no failure anywhere.  The run succeeds, asks for the page,
    looks up and processes each of the three activities and sets the
    watermark to the time of its completion; but [store_activity] raises
    [KeyError] on each processed activity before its [INSERT] runs, so the
    count of processed activities is 0 and both tables stay empty. *)
Theorem initial_sync_three_activities :
  let out := example_outside three_activities no_fault in
  let run := sync_garmin_data out example_env empty_world in
  run.1 = Ok {| success := true; activitiesProcessed := Some 0;
                isInitialSync := Some true; error := None;
                timestamp := "2024-03-01T06:00:18" |}
  ∧ log run.2
    = [KvGet "garth_session"; GarthLogin "athlete" "secret"; GarthDump;
       KvPut "garth_session" "session-blob"; KvGet "lastSyncTime";
       GarthSearch 20 0;
       DbFirst (PInt 1); GarthExerciseSets (PInt 1); Clock; Clock;
       DbFirst (PInt 2); Clock; Clock;
       DbFirst (PInt 3); Clock; Clock;
       Clock; KvPut "lastSyncTime" "2024-03-01T06:00:16"; Clock]
  ∧ activities run.2 = ∅
  ∧ exercise_sets run.2 = []
  ∧ kv run.2 !! "lastSyncTime" = Some "2024-03-01T06:00:16"
  ∧ ((full ← fetch_activity_exercise_sets out (PInt 1);
      processed ← process_activity_data out
                    (<["fullExerciseSets" := full]>
                       (raw_activity 1 "strength_training" "2024-02-03T00:00:00"));
      store_activity out processed) empty_world).1
    = Raise (KeyError "averagePower")
  ∧ ((processed ← process_activity_data out
                     (raw_activity 2 "running" "2024-02-02T00:00:00");
      store_activity out processed) empty_world).1
    = Raise (KeyError "totalReps").
Proof. cbv zeta. split_and!; vm_refl. Qed.

(** ** Activities that are already stored *)

(** C5. An activity whose id is in table [activities] is skipped when the
    lookup succeeds: the loop makes the lookup and nothing else, the
    key-value store and both tables are left as they were and the activity
    is not counted; and going through the same activity twice leaves the
    store in the state going through it once leaves it in. *)
Theorem stored_activity_is_skipped
    (out : outside) (a : dict) (z : Z) (row : list pyval) (w : world) :
  a !! "activityId" = Some (PInt z) →
  activities w !! z = Some row →
  db_error out (tick w) = false →
  (∀ n, process_one out a n w = (Ok n, emit (DbFirst (PInt z)) w))
  ∧ process_and_store_activities out [a] w = (Ok 0, emit (DbFirst (PInt z)) w)
  ∧ (let once := (process_and_store_activities out [a] w).2 in
     kv once = kv w ∧ activities once = activities w
     ∧ exercise_sets once = exercise_sets w)
  ∧ (db_error out (S (tick w)) = false →
     let once := (process_and_store_activities out [a] w).2 in
     let twice := (process_and_store_activities out [a; a] w).2 in
     (process_and_store_activities out [a; a] w).1 = Ok 0
     ∧ kv twice = kv once ∧ activities twice = activities once
     ∧ exercise_sets twice = exercise_sets once).
Proof.
  intros Hid Hrow Hdb.
  assert (∀ n w0, activities w0 !! z = Some row → db_error out (tick w0) = false →
                  process_one out a n w0 = (Ok n, emit (DbFirst (PInt z)) w0)) as Hskip.
  { intros n w0 Hrow0 Hdb0. unfold process_one. rewrite try_except_run, bind_run.
    unfold lift at 1, dict_item. rewrite Hid.
    rewrite bind_run, get_activity_by_id_run, Hdb0, Hrow0. reflexivity. }
  assert (process_and_store_activities out [a] w = (Ok 0, emit (DbFirst (PInt z)) w))
    as Honce.
  { unfold process_and_store_activities. simpl. by rewrite bind_run, Hskip. }
  split; [intros n; by apply Hskip|]. split; [exact Honce|].
  rewrite Honce. split; [done|].
  intros Hdb'. cbv zeta.
  assert (process_and_store_activities out [a; a] w
          = (Ok 0, emit (DbFirst (PInt z)) (emit (DbFirst (PInt z)) w))) as ->.
  { unfold process_and_store_activities. simpl.
    rewrite bind_run, Hskip by done.
    rewrite bind_run, Hskip; [done|done|by rewrite tick_emit]. }
  done.
Qed.

Lemma stored_activity_is_skipped_witness :
  raw_activity 2 "running" "2024-02-02T00:00:00" !! "activityId" = Some (PInt 2)
  ∧ activities world_with_activity_2 !! 2 = Some stored_row
  ∧ db_error (example_outside three_activities no_fault) (tick world_with_activity_2) = false
  ∧ process_and_store_activities (example_outside three_activities no_fault)
      [raw_activity 2 "running" "2024-02-02T00:00:00"] world_with_activity_2
    = (Ok 0, emit (DbFirst (PInt 2)) world_with_activity_2).
Proof.
  split; [vm_refl|]. split; [vm_refl|].
  split; [reflexivity|].
  apply (stored_activity_is_skipped (example_outside three_activities no_fault)
           (raw_activity 2 "running" "2024-02-02T00:00:00") 2 stored_row
           world_with_activity_2);
    vm_refl.
Defined.

(** ** A lookup that fails *)

(** C10. [get_activity_by_id] never raises, and returns [None] when the
    database fails; the activity is then not skipped but processed.  At the
    failing input (activity 42 is stored, the lookup fails) the activity is
    looked up and processed, but it is not written again: [store_activity]
    raises [KeyError] before the [INSERT OR REPLACE] runs, the stored row
    is left as it was and the activity is not counted. *)
Theorem failed_lookup_is_not_stored_again :
  (∀ (out : outside) (activity_id : pyval) (w : world),
     ∃ existing,
       get_activity_by_id out activity_id w = (Ok existing, emit (DbFirst activity_id) w)
       ∧ (db_error out (tick w) = true → existing = PNone))
  ∧ (let out := example_outside three_activities first_statement_fails in
     let run := process_and_store_activities out
                  [raw_activity 42 "running" "2024-02-02T00:00:00"]
                  world_with_activity_42 in
     run.1 = Ok 0
     ∧ log run.2 = [DbFirst (PInt 42); Clock; Clock]
     ∧ activities run.2 !! 42 = Some old_row_42
     ∧ activities run.2 = activities world_with_activity_42).
Proof.
  split.
  - intros out activity_id w. eexists. split; [apply get_activity_by_id_run|].
    by intros ->.
  - cbv zeta. split_and!; vm_refl.
Qed.

(** ** Incremental fetch *)

(** C2. In an incremental fetch (a watermark is given and the run is not
    an initial sync) every returned activity started strictly after the
    watermark; and a page from which the date filter drops an activity is
    the last page asked for: the request for it, made at moment [i], is the
    last external call of the fetch. *)
Theorem incremental_fetch_cutoff
    (out : outside) (last_sync_time : option string) (w w' : world)
    (fetched : list dict) :
  truthy_str last_sync_time = true →
  fetch_activities out last_sync_time false w = (Ok fetched, w') →
  Forall (newer_than out last_sync_time) fetched
  ∧ ∀ (i : nat) (start : Z) (T : datetime) (response kept : list dict),
      (tick w ≤ i)%nat →
      log w' !! i = Some (GarthSearch PAGE_SIZE start) →
      garth_search out i PAGE_SIZE start = Ok (Some response) →
      fromisoformat out (replace_Z (default "" last_sync_time)) = Ok T →
      filter_newer out T response = Ok kept →
      (length kept < length response)%nat →
      S i = length (log w').
Proof.
  intros Hlst Hfetch.
  destruct (fetch_activities_run out last_sync_time false w) as (l & w1 & Hfuel & Hrun).
  rewrite Hrun in Hfetch. injection Hfetch as -> ->.
  split.
  { eapply fetch_loop_newer; [done| |exact Hfuel]. constructor. }
  destruct (fetch_loop_log out _ _ _ _ _ _ _ _ _ Hfuel) as (n & -> & Hpages).
  intros i start T response kept Hi Hlog Hans HT Hkept Hlen.
  rewrite log_emits in *. rewrite length_app, length_searches.
  unfold tick in *.
  rewrite lookup_app_r in Hlog by lia.
  set (k := (i - length (log w))%nat) in *.
  assert (k < n)%nat as Hk.
  { apply lookup_lt_Some in Hlog. by rewrite length_searches in Hlog. }
  rewrite searches_lookup in Hlog by done. injection Hlog as Hstart.
  destruct (decide (S k < n)%nat) as [Hmore|]; [|lia].
  pose proof (all_but_last_continue_lookup out _ _ _ _ _ _ Hpages Hmore) as Hc.
  replace (length (log w) + k)%nat with i in Hc by lia.
  rewrite Hstart in Hc.
  rewrite (continues_dropped out last_sync_time false i start response kept) in Hc;
    [done|done| |done].
  unfold filtered_page. rewrite Hlst. simpl. by rewrite HT.
Qed.

Lemma incremental_fetch_cutoff_witness :
  truthy_str (Some "2024-02-02T00:00:00") = true
  ∧ fetch_activities (example_outside mixed_page no_fault) (Some "2024-02-02T00:00:00")
      false empty_world
    = (Ok [raw_activity 7 "running" "2024-02-03T00:00:00"],
       emits [GarthSearch 20 0] empty_world)
  ∧ Forall (newer_than (example_outside mixed_page no_fault) (Some "2024-02-02T00:00:00"))
      [raw_activity 7 "running" "2024-02-03T00:00:00"]
  ∧ 1%nat = length (log (emits [GarthSearch 20 0] empty_world)).
Proof.
  assert (fetch_activities (example_outside mixed_page no_fault)
            (Some "2024-02-02T00:00:00") false empty_world
          = (Ok [raw_activity 7 "running" "2024-02-03T00:00:00"],
             emits [GarthSearch 20 0] empty_world)) as Hrun
    by (vm_refl).
  split; [reflexivity|]. split; [exact Hrun|].
  destruct (incremental_fetch_cutoff (example_outside mixed_page no_fault)
              (Some "2024-02-02T00:00:00") empty_world _ _ eq_refl Hrun)
    as [Hnewer Hlast].
  split; [exact Hnewer|].
  apply (Hlast 0%nat 0 (midnight 2)
           [raw_activity 7 "running" "2024-02-03T00:00:00";
            raw_activity 6 "running" "2024-02-02T00:00:00"]
           [raw_activity 7 "running" "2024-02-03T00:00:00"]);
    first [vm_refl | vm_compute; lia].
Defined.

(** ** Termination and the ceiling of a fetch *)

(** C6. [fetch_activities] terminates whatever the endpoint answers (the
    rounds of the loop never run out).  When the endpoint honours the page
    size it is asked for, at most 1500 activities are returned in an
    initial sync and at most 100 otherwise.  In particular, with ceiling 100
    and every page holding 20 activities that all pass the date filter,
    exactly the 5 pages at offsets 0, 20, 40, 60 and 80 are asked for and
    100 activities are returned. *)
Theorem fetch_terminates_within_ceiling
    (out : outside) (last_sync_time : option string) (is_initial_sync : bool)
    (w : world) :
  (∃ fetched w',
      fetch_activities_fuel out last_sync_time is_initial_sync w = (Ok (Some fetched), w')
      ∧ fetch_activities out last_sync_time is_initial_sync w = (Ok fetched, w'))
  ∧ ((∀ t start response,
         garth_search out t PAGE_SIZE start = Ok (Some response) →
         Z.of_nat (length response) ≤ PAGE_SIZE) →
     ∀ fetched w',
       fetch_activities out last_sync_time is_initial_sync w = (Ok fetched, w') →
       Z.of_nat (length fetched) ≤ (if is_initial_sync then 1500 else 100))
  ∧ (truthy_str last_sync_time = true → is_initial_sync = false →
     ∀ T, fromisoformat out (replace_Z (default "" last_sync_time)) = Ok T →
     (∀ t start, ∃ response,
         garth_search out t PAGE_SIZE start = Ok (Some response)
         ∧ length response = 20%nat
         ∧ Forall (started_after out T) response) →
     ∃ fetched,
       fetch_activities out last_sync_time is_initial_sync w
       = (Ok fetched,
          emits [GarthSearch 20 0; GarthSearch 20 20; GarthSearch 20 40;
                 GarthSearch 20 60; GarthSearch 20 80] w)
       ∧ length fetched = 100%nat).
Proof.
  split_and!.
  - apply fetch_activities_run.
  - intros Hlimit fetched w' Hfetch.
    destruct (fetch_activities_run out last_sync_time is_initial_sync w)
      as (l & w1 & Hfuel & Hrun).
    rewrite Hrun in Hfetch. injection Hfetch as -> ->.
    eapply (fetch_loop_bound out); [exact Hlimit| | | |exact Hfuel].
    + destruct is_initial_sync; [by exists 75|by exists 5].
    + by exists 0.
    + destruct is_initial_sync; simpl; lia.
  - intros Hlst -> T HT Hfull.
    destruct (fetch_loop_full out last_sync_time false 100) with
      (k := 5%nat) (fuel := Z.to_nat 100) (all := @nil dict) (start := 0) (w := w)
      as (l & Hl & Hlen).
    + intros t start. destruct (Hfull t start) as (response & Hans & Hlen & Hnewer).
      exists response. split; [done|]. split; [by rewrite Hlen|].
      unfold filtered_page. rewrite Hlst. simpl. rewrite HT.
      by apply filter_newer_all.
    + reflexivity.
    + lia.
    + exists l. split; [|lia].
      unfold fetch_activities, fetch_activities_fuel. rewrite bind_run.
      unfold max_activities_of. by rewrite Hl.
Qed.

Lemma fetch_terminates_within_ceiling_witness :
  (truthy_str (Some "2024-02-02T00:00:00") = true
  ∧ fromisoformat (example_outside full_page no_fault)
      (replace_Z "2024-02-02T00:00:00") = Ok (midnight 2)
  ∧ (∀ t start, ∃ response,
        garth_search (example_outside full_page no_fault) t PAGE_SIZE start
        = Ok (Some response)
        ∧ length response = 20%nat
        ∧ Forall (started_after (example_outside full_page no_fault) (midnight 2)) response)
  ∧ ∃ fetched,
      fetch_activities (example_outside full_page no_fault) (Some "2024-02-02T00:00:00")
        false empty_world
      = (Ok fetched,
         emits [GarthSearch 20 0; GarthSearch 20 20; GarthSearch 20 40;
                GarthSearch 20 60; GarthSearch 20 80] empty_world)
      ∧ length fetched = 100%nat)
  ∧ ((∀ t start response,
         garth_search (example_outside three_activities no_fault) t PAGE_SIZE start
         = Ok (Some response) →
         Z.of_nat (length response) ≤ PAGE_SIZE)
     ∧ ∀ fetched w',
         fetch_activities (example_outside three_activities no_fault) None true empty_world
         = (Ok fetched, w') →
         Z.of_nat (length fetched) ≤ 1500).
Proof.
  assert (∀ (t : nat) (start : Z), ∃ response,
            garth_search (example_outside full_page no_fault) t PAGE_SIZE start
            = Ok (Some response)
            ∧ length response = 20%nat
            ∧ Forall (started_after (example_outside full_page no_fault) (midnight 2))
                response) as Hfull.
  { intros t start.
    exists (replicate 20 (raw_activity 9 "running" "2024-02-03T00:00:00")).
    split; [reflexivity|]. split; [reflexivity|].
    apply Forall_replicate. exists (midnight 3). split; vm_refl. }
  assert (∀ (t : nat) (start : Z) (response : list dict),
            garth_search (example_outside three_activities no_fault) t PAGE_SIZE start
            = Ok (Some response) →
            Z.of_nat (length response) ≤ PAGE_SIZE) as Hlimit.
  { intros t start response. simpl.
    destruct (three_activities start) as [page|]; [|done].
    intros [= <-]. rewrite length_take. unfold PAGE_SIZE. lia. }
  split.
  { split; [reflexivity|]. split; [reflexivity|]. split; [exact Hfull|].
    exact (proj2 (proj2 (fetch_terminates_within_ceiling
                           (example_outside full_page no_fault)
                           (Some "2024-02-02T00:00:00") false empty_world))
             eq_refl eq_refl (midnight 2) eq_refl Hfull). }
  split; [exact Hlimit|].
  exact (proj1 (proj2 (fetch_terminates_within_ceiling
                         (example_outside three_activities no_fault)
                         None true empty_world))
           Hlimit).
Defined.

(** ** The watermark *)

Lemma forallb_impl (P Q : event → bool) (l : list event) :
  (∀ e, P e = true → Q e = true) → forallb P l = true → forallb Q l = true.
Proof. rewrite !forallb_forall. auto. Qed.

Lemma session_event_no_watermark (e : event) :
  session_event e = true → is_watermark_write e = false.
Proof. by destruct e. Qed.

Lemma resume_event_no_watermark (e : event) :
  resume_event e = true → is_watermark_write e = false.
Proof. by destruct e. Qed.

Lemma process_event_no_watermark (e : event) :
  process_event e = true → is_watermark_write e = false.
Proof. by destruct e. Qed.

Lemma search_no_watermark (n : nat) (start : Z) :
  count is_watermark_write (searches n start) = 0%nat.
Proof.
  apply (count_none _ (λ e, negb (is_watermark_write e))).
  - intros e. by destruct (is_watermark_write e).
  - by apply forallb_searches.
Qed.

(** The log of the state a run reaches before it writes the watermark. *)
Lemma loop_log (wa : world) (n : nat) (new : list event) :
  log (emits new (emits (searches n 0) (emit (KvGet "lastSyncTime") wa)))
  = log wa ++ [KvGet "lastSyncTime"] ++ searches n 0 ++ new.
Proof. rewrite !log_emits. simpl. by rewrite <- !app_assoc. Qed.

(** C3. A sync run never raises.  When the session is established, the
    run fetches, goes through the loop of [process_and_store_activities]
    to its end, and then writes the watermark: the write is the one
    watermark write of the run, it follows the last call of the loop, and
    its value is the time read at that moment, whatever happened to the
    activities.  When the session cannot be established the run returns
    [success = False] and leaves the key-value store, the watermark
    included, as it was. *)
Theorem watermark_written_once_after_loop
    (out : outside) (env : Environment) (w : world) :
  ∃ authenticated wa result w',
    authenticate_garmin out env w = (Ok authenticated, wa)
    ∧ sync_garmin_data out env w = (Ok result, w')
    ∧ if authenticated : bool then
        ∃ fetched wf processed_count wl,
          fetch_activities out (kv wa !! "lastSyncTime")
            (negb (truthy_str (kv wa !! "lastSyncTime")))
            (emit (KvGet "lastSyncTime") wa)
          = (Ok fetched, wf)
          ∧ process_and_store_activities out fetched wf = (Ok processed_count, wl)
          ∧ success result = true
          ∧ log w' = log wl ++ [Clock; KvPut "lastSyncTime" (clock out (tick wl)); Clock]
          ∧ kv w' = <["lastSyncTime" := clock out (tick wl)]> (kv wl)
          ∧ count is_watermark_write (log wl) = count is_watermark_write (log w)
          ∧ count is_watermark_write (log w') = S (count is_watermark_write (log w))
      else
        success result = false
        ∧ kv w' = kv w
        ∧ count is_watermark_write (log w') = count is_watermark_write (log w).
Proof.
  destruct (authenticate_garmin_run out env w) as (b & wa' & Hauth' & Hshape).
  assert (count is_watermark_write (log wa') = count is_watermark_write (log w)) as Hwa.
  { destruct Hshape as [(pre & -> & Hpre) | (_ & pre & u & p & sd & Hpre & ->)].
    - rewrite log_emits, count_app.
      rewrite (count_none _ _ pre session_event_no_watermark Hpre). lia.
    - cbn [log]. rewrite !count_app.
      rewrite (count_none _ _ pre resume_event_no_watermark Hpre).
      change (count is_watermark_write [_; _; _]) with 0%nat. lia. }
  destruct (sync_garmin_data_run out env w) as (authenticated & wa & Hauth & Hrun).
  rewrite Hauth in Hauth'. injection Hauth' as <- <-.
  destruct authenticated.
  - destruct Hrun as (fetched & n & new & Hfetch & _ & Hloop & Hnew & Hsync).
    eexists true, wa, _, _. split; [done|]. split; [exact Hsync|].
    eexists fetched, _, 0, _. split; [exact Hfetch|]. split; [exact Hloop|].
    assert (count is_watermark_write
              (log (emits new (emits (searches n 0) (emit (KvGet "lastSyncTime") wa))))
            = count is_watermark_write (log w)) as Hwl.
    { rewrite loop_log, !count_app, search_no_watermark.
      rewrite (count_none _ _ new process_event_no_watermark Hnew).
      change (count is_watermark_write [_]) with 0%nat. lia. }
    split_and!; [done..|].
    unfold synced. cbn [log]. rewrite count_app, Hwl.
    change (count is_watermark_write [_; _; _]) with 1%nat. lia.
  - eexists false, wa, _, _. split; [done|]. split; [exact Hrun|].
    destruct Hshape as [(pre & -> & Hpre) | (? & _)]; [|done].
    split; [done|]. split; [cbn [kv emit]; by rewrite kv_emits|].
    cbn [log emit]. rewrite count_app, Hwa.
    change (count is_watermark_write [_]) with 0%nat. lia.
Qed.

(** ** Failures that do not end the run *)

(** C4. When the session is established the run returns [success = True],
    whatever the search endpoint, the exercise-set endpoint and the
    database answer and whichever of their calls fail: the fetch and the
    loop never raise, and the count the run reports is at most the number
    of fetched activities.  One activity of the loop never raises either:
    its failure is caught, the count moves by at most one, and the loop
    goes on with the activities that follow. *)
Theorem sync_succeeds_despite_failures
    (out : outside) (env : Environment) (w wa : world) :
  authenticate_garmin out env w = (Ok true, wa) →
  (∃ fetched wf processed_count wl result w',
      fetch_activities out (kv wa !! "lastSyncTime")
        (negb (truthy_str (kv wa !! "lastSyncTime")))
        (emit (KvGet "lastSyncTime") wa)
      = (Ok fetched, wf)
      ∧ process_and_store_activities out fetched wf = (Ok processed_count, wl)
      ∧ sync_garmin_data out env w = (Ok result, w')
      ∧ success result = true
      ∧ activitiesProcessed result = Some processed_count
      ∧ 0 ≤ processed_count ≤ Z.of_nat (length fetched))
  ∧ (∀ (a : dict) (rest : list dict) (n : Z) (w0 : world),
       ∃ n' w1,
         process_one out a n w0 = (Ok n', w1)
         ∧ n ≤ n' ≤ n + 1
         ∧ process_loop out (a :: rest) n w0 = process_loop out rest n' w1).
Proof.
  intros Hauth. split.
  - destruct (sync_garmin_data_run out env w) as (authenticated & wa' & Hauth' & Hrun).
    rewrite Hauth in Hauth'. injection Hauth' as <- <-.
    destruct Hrun as (fetched & n & new & Hfetch & _ & Hloop & _ & Hsync).
    eexists fetched, _, 0, _, _, _.
    split; [exact Hfetch|]. split; [exact Hloop|]. split; [exact Hsync|].
    split_and!; [done..|lia|lia].
  - intros a rest n w0.
    destruct (process_one_run out a n w0) as (new & Hone & _).
    exists n, (emits new w0). split; [done|]. split; [lia|].
    simpl. by rewrite bind_run, Hone.
Qed.

Lemma sync_succeeds_despite_failures_witness :
  authenticate_garmin (example_outside three_activities no_fault) example_env empty_world
  = (Ok true, logged_in_world)
  ∧ ∃ result w',
      sync_garmin_data (example_outside three_activities no_fault) example_env empty_world
      = (Ok result, w')
      ∧ success result = true.
Proof.
  assert (authenticate_garmin (example_outside three_activities no_fault) example_env
            empty_world
          = (Ok true, logged_in_world)) as Hauth by (vm_refl).
  split; [exact Hauth|].
  destruct (proj1 (sync_succeeds_despite_failures
                     (example_outside three_activities no_fault) example_env empty_world
                     logged_in_world Hauth))
    as (fetched & wf & processed_count & wl & result & w' & _ & _ & Hsync & Hok & _).
  exists result, w'. split; [exact Hsync|exact Hok].
Defined.

(** ** The persisted session *)

Lemma run_event_no_session (e : event) :
  run_event e = true → is_session_write e = false.
Proof.
  destruct e; try done. simpl. intros H%String.eqb_eq. by subst.
Qed.

Lemma session_event_no_session (e : event) :
  session_event e = true → is_session_write e = false.
Proof. by destruct e. Qed.

Lemma resume_event_no_session (e : event) :
  resume_event e = true → is_session_write e = false.
Proof. by destruct e. Qed.

Lemma process_event_run (e : event) : process_event e = true → run_event e = true.
Proof. by destruct e. Qed.

(** What a run logs after the session is established, or after it failed
    to be. *)
Lemma sync_log (out : outside) (env : Environment) (w : world) :
  ∃ authenticated wa tail,
    authenticate_garmin out env w = (Ok authenticated, wa)
    ∧ log (sync_garmin_data out env w).2 = log wa ++ tail
    ∧ forallb run_event tail = true.
Proof.
  destruct (sync_garmin_data_run out env w) as (authenticated & wa & Hauth & Hrun).
  exists authenticated, wa. destruct authenticated.
  - destruct Hrun as (fetched & n & new & _ & _ & _ & Hnew & ->).
    exists ([KvGet "lastSyncTime"] ++ searches n 0 ++ new
            ++ [Clock; KvPut "lastSyncTime"
                         (clock out (tick (emits new (emits (searches n 0)
                                                        (emit (KvGet "lastSyncTime") wa)))));
                Clock]).
    split; [done|]. split.
    + unfold synced. cbn [snd log]. rewrite loop_log. by rewrite <- !app_assoc.
    + rewrite !forallb_app. rewrite (forallb_searches n 0 run_event) by done.
      by rewrite (forallb_impl _ _ new process_event_run Hnew).
  - rewrite Hrun. by exists [Clock].
Qed.

(** C8. A sync run writes the persisted session at most once, and only as
    the last step of a fresh login: the write, when there is one, follows
    the login and the dump of the new session, after a resume stage that
    wrote nothing.  Every failure of the resume stage (the saved session
    cannot be loaded, the probe raises [GarthException] or anything else)
    is caught there: the stage ends without a session and
    [authenticate_garmin] goes on with the fresh login. *)
Theorem session_written_at_most_once
    (out : outside) (env : Environment) (w : world) :
  (∃ new,
      log (sync_garmin_data out env w).2 = log w ++ new
      ∧ (count is_session_write new ≤ 1)%nat
      ∧ (count is_session_write new = 0%nat
         ∨ ∃ pre u p session_data tail,
             new = pre ++ [GarthLogin u p; GarthDump;
                           KvPut "garth_session" session_data] ++ tail
             ∧ forallb resume_event pre = true
             ∧ count is_session_write pre = 0%nat
             ∧ count is_session_write tail = 0%nat))
  ∧ (has_credentials env = true →
     ∀ s, kv w !! "garth_session" = Some s → s ≠ "" →
     (∃ e, garth_resume out (S (tick w)) s = Raise e)
     ∨ (∃ e, garth_probe out (S (S (tick w))) = Raise e) →
     ∃ pre,
       forallb resume_event pre = true
       ∧ resume_session out w = (Ok false, emits pre w)
       ∧ authenticate_garmin out env w
         = try_except (fresh_login out env) (λ _, mret false) (emits pre w)
       ∧ ∃ rest,
           log (authenticate_garmin out env w).2
           = log w ++ pre
             ++ GarthLogin (default "" (GARMIN_USERNAME env))
                  (default "" (GARMIN_PASSWORD env)) :: rest).
Proof.
  split.
  - destruct (sync_log out env w) as (authenticated & wa & tail & Hauth & -> & Htail).
    destruct (authenticate_garmin_run out env w) as (b & wa' & Hauth' & Hshape).
    rewrite Hauth in Hauth'. injection Hauth' as <- <-.
    pose proof (count_none _ _ tail run_event_no_session Htail) as Htail0.
    destruct Hshape as [(pre & -> & Hpre) | (_ & pre & u & p & sd & Hpre & ->)].
    + exists (pre ++ tail). rewrite log_emits, <- app_assoc. split; [done|].
      assert (count is_session_write (pre ++ tail) = 0%nat) as ->.
      { rewrite count_app, Htail0.
        by rewrite (count_none _ _ pre session_event_no_session Hpre). }
      split; [lia|by left].
    + pose proof (count_none _ _ pre resume_event_no_session Hpre) as Hpre0.
      exists (pre ++ [GarthLogin u p; GarthDump; KvPut "garth_session" sd] ++ tail).
      cbn [log]. rewrite <- !app_assoc. split; [done|]. split.
      * rewrite !count_app, Hpre0, Htail0.
        change (count is_session_write [_; _; _]) with 1%nat. lia.
      * right. by exists pre, u, p, sd, tail.
  - intros Hcred s Hsaved Hne Hfail.
    apply andb_prop in Hcred as [Hu Hp].
    assert (String.eqb s "" = false) as Hs by by apply String.eqb_neq.
    assert (∃ pre, forallb resume_event pre = true
                   ∧ resume_session out w = (Ok false, emits pre w))
      as (pre & Hpre & Hresume).
    { rewrite resume_session_run, Hsaved, Hs. simpl.
      destruct (garth_resume out (S (tick w)) s) as [[]|e1] eqn:Hr.
      - destruct Hfail as [[e He] | [e He]]; [congruence|]. rewrite He.
        by exists [KvGet "garth_session"; GarthResume s; GarthProbe].
      - by exists [KvGet "garth_session"; GarthResume s]. }
    exists pre. split; [done|]. split; [done|].
    assert (authenticate_garmin out env w
            = try_except (fresh_login out env) (λ _, mret false) (emits pre w)) as Hgo.
    { rewrite authenticate_garmin_stages, !try_except_run. rewrite Hu, Hp. simpl.
      by rewrite bind_run, Hresume. }
    split; [done|].
    rewrite Hgo, try_except_run, fresh_login_run. rewrite log_emits.
    destruct (garth_login out _ _ _) as [[]|e1].
    + destruct (garth_dump out _) as [sd|e2].
      * eexists. cbn [snd log]. by rewrite <- app_assoc.
      * eexists. cbn [snd mret M_ret]. by rewrite !log_emits, <- app_assoc.
    + eexists. cbn [snd mret M_ret]. by rewrite !log_emits, <- app_assoc.
Qed.

Lemma session_written_at_most_once_witness :
  has_credentials example_env = true
  ∧ kv world_with_stale_session !! "garth_session" = Some "stale-blob"
  ∧ "stale-blob" ≠ ""
  ∧ (∃ e, garth_resume (example_outside three_activities no_fault)
            (S (tick world_with_stale_session)) "stale-blob" = Raise e)
  ∧ ∃ pre,
      forallb resume_event pre = true
      ∧ resume_session (example_outside three_activities no_fault) world_with_stale_session
        = (Ok false, emits pre world_with_stale_session)
      ∧ authenticate_garmin (example_outside three_activities no_fault) example_env
          world_with_stale_session
        = try_except (fresh_login (example_outside three_activities no_fault) example_env)
            (λ _, mret false) (emits pre world_with_stale_session)
      ∧ ∃ rest,
          log (authenticate_garmin (example_outside three_activities no_fault) example_env
                 world_with_stale_session).2
          = log world_with_stale_session ++ pre
            ++ GarthLogin (default "" (GARMIN_USERNAME example_env))
                 (default "" (GARMIN_PASSWORD example_env)) :: rest.
Proof.
  assert (∃ e, garth_resume (example_outside three_activities no_fault)
                 (S (tick world_with_stale_session)) "stale-blob" = Raise e) as Hfail
    by (by exists ValueError).
  split; [reflexivity|]. split; [vm_refl|]. split; [discriminate|]. split; [exact Hfail|].
  apply (proj2 (session_written_at_most_once
                  (example_outside three_activities no_fault) example_env
                  world_with_stale_session)
           eq_refl "stale-blob").
  - vm_refl.
  - discriminate.
  - left. exact Hfail.
Defined.

(** * Further properties

    Properties of the parts of the worker the claims above do not reach:
    the routes of the HTTP handler, the Ride with GPS webhook, the outcomes
    of authentication, the edges of the fetch, the enrichment call, the
    processing of a record and of its exercise sets, and [store_activity]
    on an activity that has every column. *)

(** ** The HTTP handler *)

Lemma substring_all (s : string) : substring 0 (String.length s) s = s.
Proof. induction s as [|c s IH]; simpl; [done|by rewrite IH]. Qed.

Lemma substring_suffix (s suffix : string) (k : nat) :
  (k ≤ String.length s)%nat →
  substring k (String.length s - k) s = suffix →
  ∃ pre, s = (pre +:+ suffix)%string.
Proof.
  revert k. induction s as [|c s IH]; intros k Hk Hsub.
  - simpl in Hk. assert (k = 0%nat) as -> by lia. simpl in Hsub. subst. by exists "".
  - destruct k as [|k].
    + rewrite Nat.sub_0_r, substring_all in Hsub. subst. by exists "".
    + simpl in Hk, Hsub. destruct (IH k ltac:(lia) Hsub) as [pre ->].
      by exists (String c pre).
Qed.

Lemma endswith_app (s suffix : string) :
  endswith s suffix = true → ∃ pre, s = (pre +:+ suffix)%string.
Proof.
  unfold endswith. intros [Hle Heq]%andb_prop.
  apply Nat.leb_le in Hle. apply String.eqb_eq in Heq.
  apply (substring_suffix s suffix (String.length s - String.length suffix)); [lia|].
  by replace (String.length s - (String.length s - String.length suffix))%nat
    with (String.length suffix) by lia.
Qed.

Lemma last_char_app (pre suffix : string) :
  suffix ≠ EmptyString → last_char (pre +:+ suffix) = last_char suffix.
Proof.
  intros Hne. induction pre as [|c pre IH]; [done|].
  change (String c pre +:+ suffix)%string with (String c (pre +:+ suffix)).
  cbn [last_char]. rewrite IH.
  destruct (pre +:+ suffix)%string eqn:Happ; [|done].
  destruct pre; simpl in Happ; [done|discriminate].
Qed.

Lemma endswith_exclusive (s a b : string) :
  endswith s a = true → a ≠ EmptyString → b ≠ EmptyString →
  last_char a ≠ last_char b → endswith s b = false.
Proof.
  intros [pa ->]%endswith_app Ha Hb Hne.
  destruct (endswith _ b) eqn:Hend; [|done].
  apply endswith_app in Hend as [pb Hpb].
  apply (f_equal last_char) in Hpb. rewrite !last_char_app in Hpb by done. done.
Qed.

Ltac handler_facts :=
  split_and!;
  first [ done | simpl; lia | by intros [? ?] | by left | by right; left | by right; right ].

Lemma on_fetch_run
    (out : outside) (request : Request) (env : Environment) (w : world) :
  ∃ response detached new,
    on_fetch out request env w = (Ok (response, detached), emits new w)
    ∧ forallb handler_event new = true
    ∧ (length new ≤ 2)%nat
    ∧ (status response = 200 ∨ status response = 401 ∨ status response = 404)
    ∧ (is_Some detached → status response = 200).
Proof.
  unfold on_fetch.
  destruct (endswith (url request) "/sync" && _).
  { destruct (negb _).
    - eexists _, None, []. split; [reflexivity|]. handler_facts.
    - eexists _, _, [Clock]. split; [reflexivity|]. handler_facts. }
  destruct (endswith (url request) "/ridewithgps-webhook" && _).
  { destruct (negb _).
    - eexists _, None, []. split; [reflexivity|]. handler_facts.
    - eexists _, _, []. split; [reflexivity|]. handler_facts. }
  destruct (endswith (url request) "/health").
  { eexists _, None, []. split; [reflexivity|]. handler_facts. }
  destruct (endswith (url request) "/status").
  { eexists _, None, [KvGet "lastSyncTime"; Clock]. split; [reflexivity|]. handler_facts. }
  eexists _, None, []. split; [reflexivity|]. handler_facts.
Qed.

(** X1. The HTTP handler [on_fetch] never raises and writes nothing: for
    every request it returns a response with status 200, 401 or 404, leaves
    the key-value store and both tables as they were, makes at most two
    external calls (reading the watermark and the clock), and detaches a
    background task only together with a 200 answer. *)
Theorem on_fetch_writes_nothing
    (out : outside) (request : Request) (env : Environment) (w : world) :
  ∃ response detached w' new,
    on_fetch out request env w = (Ok (response, detached), w')
    ∧ kv w' = kv w
    ∧ activities w' = activities w
    ∧ exercise_sets w' = exercise_sets w
    ∧ log w' = log w ++ new
    ∧ forallb handler_event new = true
    ∧ (length new ≤ 2)%nat
    ∧ (status response = 200 ∨ status response = 401 ∨ status response = 404)
    ∧ (is_Some detached → status response = 200).
Proof.
  destruct (on_fetch_run out request env w)
    as (response & detached & new & Hrun & Hnew & Hlen & Hstatus & Hdetached).
  exists response, detached, (emits new w), new.
  by rewrite kv_emits, activities_emits, exercise_sets_emits, log_emits.
Qed.

(** X2. A request whose URL ends in [/status], whatever its method,
    is answered 200 with the stored watermark as [lastSync], or ['Never']
    when no watermark is stored or it is empty; the handler reads the
    watermark and the clock and detaches nothing. *)
Theorem status_endpoint_reports_watermark
    (out : outside) (request : Request) (env : Environment) (w : world) :
  endswith (url request) "/status" = true →
  on_fetch out request env w
  = (Ok ({| body := PDict (dict_of [
                      ("lastSync",
                        PStr (match kv w !! "lastSyncTime" with
                              | Some s => if String.eqb s "" then "Never" else s
                              | None => "Never"
                              end));
                      ("timestamp", PStr (clock out (S (tick w))))]);
            status := 200 |},
         None),
     emits [KvGet "lastSyncTime"; Clock] w).
Proof.
  intros Hurl. unfold on_fetch.
  rewrite (endswith_exclusive _ _ "/sync" Hurl) by (discriminate || (vm_compute; congruence)).
  rewrite (endswith_exclusive _ _ "/ridewithgps-webhook" Hurl)
    by (discriminate || (vm_compute; congruence)).
  rewrite (endswith_exclusive _ _ "/health" Hurl)
    by (discriminate || (vm_compute; congruence)).
  rewrite Hurl. simpl.
  rewrite bind_run. unfold kv_get at 1. rewrite bind_run. unfold now, call.
  rewrite tick_emit. unfold mret, M_ret.
  destruct (kv w !! "lastSyncTime") as [s|]; simpl; [|done].
  by destruct (String.eqb s "").
Qed.


Lemma status_endpoint_reports_watermark_witness :
  endswith (url status_request) "/status" = true
  ∧ (on_fetch (example_outside three_activities no_fault) status_request example_env
       empty_world).1
    = Ok ({| body := PDict (dict_of [("lastSync", PStr "Never");
                                     ("timestamp", PStr "2024-03-01T06:00:01")]);
             status := 200 |},
          None).
Proof.
  split; [reflexivity|].
  rewrite (status_endpoint_reports_watermark (example_outside three_activities no_fault)
             status_request example_env empty_world eq_refl).
  vm_refl.
Defined.

(** X3. A request whose URL ends in [/health] is answered ['OK'] with
    status 200 whatever its method and headers, without any external call
    and without a background task. *)
Theorem health_endpoint_answers_ok
    (out : outside) (request : Request) (env : Environment) (w : world) :
  endswith (url request) "/health" = true →
  on_fetch out request env w = (Ok ({| body := PStr "OK"; status := 200 |}, None), w).
Proof.
  intros Hurl. unfold on_fetch.
  rewrite (endswith_exclusive _ _ "/sync" Hurl) by (discriminate || (vm_compute; congruence)).
  rewrite (endswith_exclusive _ _ "/ridewithgps-webhook" Hurl)
    by (discriminate || (vm_compute; congruence)).
  by rewrite Hurl.
Qed.

Lemma health_endpoint_answers_ok_witness :
  endswith (url health_request) "/health" = true
  ∧ on_fetch (example_outside three_activities no_fault) health_request example_env
      empty_world
    = (Ok ({| body := PStr "OK"; status := 200 |}, None), empty_world).
Proof.
  split; [reflexivity|].
  apply (health_endpoint_answers_ok (example_outside three_activities no_fault)
           health_request example_env empty_world).
  reflexivity.
Defined.

(** X4. The two webhook routes only exist for POST: a request to [/sync]
    or [/ridewithgps-webhook] with another method is answered 404
    ['Not Found'], without a signature check, an external call or a
    background task. *)
Theorem webhook_routes_need_post
    (out : outside) (request : Request) (env : Environment) (w : world) :
  method request ≠ "POST" →
  endswith (url request) "/sync" = true
  ∨ endswith (url request) "/ridewithgps-webhook" = true →
  on_fetch out request env w
  = (Ok ({| body := PStr "Not Found"; status := 404 |}, None), w).
Proof.
  intros Hmethod%String.eqb_neq Hurl. unfold on_fetch.
  rewrite Hmethod, !andb_false_r.
  destruct Hurl as [Hurl | Hurl].
  - rewrite (endswith_exclusive _ _ "/health" Hurl)
      by (discriminate || (vm_compute; congruence)).
    by rewrite (endswith_exclusive _ _ "/status" Hurl)
      by (discriminate || (vm_compute; congruence)).
  - rewrite (endswith_exclusive _ _ "/health" Hurl)
      by (discriminate || (vm_compute; congruence)).
    by rewrite (endswith_exclusive _ _ "/status" Hurl)
      by (discriminate || (vm_compute; congruence)).
Qed.

Lemma webhook_routes_need_post_witness :
  method get_sync_request ≠ "POST"
  ∧ endswith (url get_sync_request) "/sync" = true
  ∧ on_fetch (example_outside three_activities no_fault) get_sync_request example_env
      empty_world
    = (Ok ({| body := PStr "Not Found"; status := 404 |}, None), empty_world).
Proof.
  split; [discriminate|]. split; [reflexivity|].
  apply (webhook_routes_need_post (example_outside three_activities no_fault)
           get_sync_request example_env empty_world).
  - discriminate.
  - left. reflexivity.
Defined.

(** X5. A POST to [/ridewithgps-webhook] is accepted exactly when the
    [X-RideWithGPS-Signature] header and [RIDEWITHGPS_API_SECRET] are both
    present and non-empty; the header is not compared with the secret.  An
    accepted request is answered ['OK'] and its processing detached, any
    other is answered 401; neither makes an external call. *)
Theorem ridewithgps_signature_is_not_compared
    (out : outside) (request : Request) (env : Environment) (w : world) :
  endswith (url request) "/ridewithgps-webhook" = true →
  method request = "POST" →
  let signature := headers request !! "X-RideWithGPS-Signature" in
  let accepted := verify_ridewithgps_signature signature env in
  (accepted = true
   ↔ (∃ s, signature = Some s ∧ s ≠ "")
     ∧ (∃ k, RIDEWITHGPS_API_SECRET env = Some k ∧ k ≠ ""))
  ∧ on_fetch out request env w
    = (Ok (if accepted
           then ({| body := PStr "OK"; status := 200 |},
                 Some (RideWithGpsTask request env))
           else ({| body := PStr "Unauthorized"; status := 401 |}, None)),
       w).
Proof.
  intros Hurl Hmethod signature accepted. split.
  - unfold accepted, verify_ridewithgps_signature. rewrite andb_true_iff.
    assert (∀ o, truthy_str o = true ↔ ∃ s, o = Some s ∧ s ≠ "") as Htruthy.
    { intros [s|]; simpl.
      - rewrite negb_true_iff, String.eqb_neq. split.
        + intros Hs. by exists s.
        + by intros (s' & [= <-] & Hs).
      - split; [done|]. by intros (s & [=] & _). }
    by rewrite !Htruthy.
  - unfold on_fetch.
    rewrite (endswith_exclusive _ _ "/sync" Hurl)
      by (discriminate || (vm_compute; congruence)).
    rewrite Hurl, Hmethod. simpl. fold signature accepted.
    by destruct accepted.
Qed.

Lemma ridewithgps_signature_is_not_compared_witness :
  endswith (url ridewithgps_request) "/ridewithgps-webhook" = true
  ∧ method ridewithgps_request = "POST"
  ∧ headers ridewithgps_request !! "X-RideWithGPS-Signature" = Some "not-the-secret"
  ∧ RIDEWITHGPS_API_SECRET env_with_ridewithgps_secret = Some "rwgps-secret"
  ∧ on_fetch (example_outside three_activities no_fault) ridewithgps_request
      env_with_ridewithgps_secret empty_world
    = (Ok ({| body := PStr "OK"; status := 200 |},
           Some (RideWithGpsTask ridewithgps_request env_with_ridewithgps_secret)),
       empty_world).
Proof.
  split; [reflexivity|]. split; [reflexivity|]. split; [vm_refl|]. split; [reflexivity|].
  destruct (ridewithgps_signature_is_not_compared
              (example_outside three_activities no_fault) ridewithgps_request
              env_with_ridewithgps_secret empty_world eq_refl eq_refl) as [_ Hrun].
  rewrite Hrun. vm_refl.
Defined.

(** ** The Ride with GPS webhook *)

Lemma sync_garmin_data_total (out : outside) (env : Environment) (w : world) :
  ∃ result w', sync_garmin_data out env w = (Ok result, w').
Proof.
  destruct (sync_garmin_data_run out env w) as (authenticated & wa & _ & Hrun).
  destruct authenticated.
  - destruct Hrun as (? & ? & ? & _ & _ & _ & _ & ->). by eexists _, _.
  - rewrite Hrun. by eexists _, _.
Qed.

(** X6. [process_ridewithgps_webhook]: a body that is not JSON raises the
    parser's exception again; a JSON body that is not an object raises
    [AttributeError]; an object whose [type] is ['activity_created'] or
    ['activity_updated'] runs a sync and returns [True] whatever the
    outcome of the sync; any other object returns [True] without an
    external call. *)
Theorem ridewithgps_webhook_outcomes
    (out : outside) (request : Request) (env : Environment) (w : world) :
  process_ridewithgps_webhook out request env w
  = match json request with
    | Raise e => (Raise e, w)
    | Ok (PDict webhook_data) =>
        if py_in_strs (dict_get webhook_data "type" PNone)
             ["activity_created"; "activity_updated"]
        then (Ok true, (sync_garmin_data out env w).2)
        else (Ok true, w)
    | Ok _ => (Raise AttributeError, w)
    end.
Proof.
  unfold process_ridewithgps_webhook. rewrite try_except_run, bind_run. unfold lift at 1.
  destruct (json request) as [v|e]; [|done].
  rewrite bind_run. unfold lift at 1.
  destruct v as [| | | | | |webhook_data]; try done.
  change (py_get (PDict webhook_data) "type" PNone)
    with (Ok (dict_get webhook_data "type" PNone)).
  cbv beta iota.
  destruct (py_in_strs (dict_get webhook_data "type" PNone) _); [|done].
  rewrite bind_run.
  by destruct (sync_garmin_data_total out env w) as (result & w' & ->).
Qed.

(** ** Outcomes of authentication and of the run *)

(** X7. Without a non-empty username and password, [authenticate_garmin]
    returns [False] without any external call, and the sync returns
    [success = False] with the error ['Failed to authenticate with Garmin']
    after reading the clock once: no network call, no access to the
    key-value store or the database. *)
Theorem sync_without_credentials
    (out : outside) (env : Environment) (w : world) :
  has_credentials env = false →
  authenticate_garmin out env w = (Ok false, w)
  ∧ sync_garmin_data out env w
    = (Ok {| success := false; activitiesProcessed := None; isInitialSync := None;
             error := Some (Exception "Failed to authenticate with Garmin");
             timestamp := clock out (tick w) |},
       emit Clock w).
Proof.
  intros Hcred.
  assert (authenticate_garmin out env w = (Ok false, w)) as Hauth.
  { rewrite authenticate_garmin_stages, try_except_run.
    unfold has_credentials in Hcred.
    by destruct (truthy_str (GARMIN_USERNAME env)), (truthy_str (GARMIN_PASSWORD env)). }
  split; [done|].
  unfold sync_garmin_data. by rewrite try_except_run, bind_run, Hauth.
Qed.

Lemma sync_without_credentials_witness :
  has_credentials env_without_password = false
  ∧ sync_garmin_data (example_outside three_activities no_fault) env_without_password
      empty_world
    = (Ok {| success := false; activitiesProcessed := None; isInitialSync := None;
             error := Some (Exception "Failed to authenticate with Garmin");
             timestamp := example_clock 0 |},
       emit Clock empty_world).
Proof.
  split; [reflexivity|].
  apply (sync_without_credentials (example_outside three_activities no_fault)
           env_without_password empty_world).
  reflexivity.
Defined.

Lemma authenticate_garmin_keeps_watermark (out : outside) (env : Environment)
    (w wa : world) (authenticated : bool) :
  authenticate_garmin out env w = (Ok authenticated, wa) →
  kv wa !! "lastSyncTime" = kv w !! "lastSyncTime".
Proof.
  intros Hauth.
  destruct (authenticate_garmin_run out env w) as (b & wa' & Hauth' & Hshape).
  rewrite Hauth in Hauth'. injection Hauth' as <- <-.
  destruct Hshape as [(pre & -> & _) | (_ & pre & u & p & sd & _ & ->)].
  - by rewrite kv_emits.
  - cbn [kv]. by rewrite lookup_insert_ne.
Qed.

(** X8. The dict a sync returns ([on_scheduled] returns the same): a
    successful run carries no error, a count, and [isInitialSync] true
    exactly when the watermark stored before the run is absent or empty; a
    failed run carries ['Failed to authenticate with Garmin'], the only
    error a run reports, and neither a count nor [isInitialSync]. *)
Theorem sync_report (out : outside) (env : Environment) (w : world) :
  ∃ result w',
    sync_garmin_data out env w = (Ok result, w')
    ∧ on_scheduled out env w = (Ok result, w')
    ∧ if success result then
        error result = None
        ∧ isInitialSync result = Some (negb (truthy_str (kv w !! "lastSyncTime")))
        ∧ is_Some (activitiesProcessed result)
      else
        error result = Some (Exception "Failed to authenticate with Garmin")
        ∧ isInitialSync result = None
        ∧ activitiesProcessed result = None.
Proof.
  destruct (sync_garmin_data_run out env w) as (authenticated & wa & Hauth & Hrun).
  destruct authenticated.
  - destruct Hrun as (fetched & n & new & _ & _ & _ & _ & Hsync).
    eexists _, _. split; [exact Hsync|]. split; [exact Hsync|]. simpl.
    split; [done|]. split; [|by eexists].
    by rewrite (authenticate_garmin_keeps_watermark out env w wa true Hauth).
  - eexists _, _. split; [exact Hrun|]. split; [exact Hrun|]. done.
Qed.

(** X9. A saved session that the garth client loads and accepts is
    reused: [authenticate_garmin] returns [True] after reading the session,
    loading it and probing it, without a login and without writing to the
    key-value store. *)
Theorem saved_session_is_reused
    (out : outside) (env : Environment) (s : string) (w : world) :
  has_credentials env = true →
  kv w !! "garth_session" = Some s → s ≠ "" →
  garth_resume out (S (tick w)) s = Ok () →
  garth_probe out (S (S (tick w))) = Ok () →
  authenticate_garmin out env w
  = (Ok true, emits [KvGet "garth_session"; GarthResume s; GarthProbe] w).
Proof.
  intros [Hu Hp]%andb_prop Hsaved Hne%String.eqb_neq Hresume Hprobe.
  rewrite authenticate_garmin_stages, try_except_run, Hu, Hp. simpl.
  rewrite bind_run, resume_session_run, Hsaved, Hne. simpl.
  by rewrite Hresume, Hprobe.
Qed.

Lemma saved_session_is_reused_witness :
  has_credentials example_env = true
  ∧ kv world_with_session !! "garth_session" = Some "session-blob"
  ∧ "session-blob" ≠ ""
  ∧ authenticate_garmin outside_with_valid_session example_env world_with_session
    = (Ok true,
       emits [KvGet "garth_session"; GarthResume "session-blob"; GarthProbe]
         world_with_session).
Proof.
  split; [reflexivity|]. split; [vm_refl|]. split; [discriminate|].
  apply (saved_session_is_reused outside_with_valid_session example_env "session-blob"
           world_with_session).
  - reflexivity.
  - vm_refl.
  - discriminate.
  - reflexivity.
  - reflexivity.
Defined.

(** X10. When there is no saved session and the login raises (any
    exception), [authenticate_garmin] returns [False] right after the login
    attempt; the sync then fetches nothing and returns [success = False]
    with the error ['Failed to authenticate with Garmin'], not the
    exception of the login. *)
Theorem rejected_login_fails_the_run
    (out : outside) (env : Environment) (e : exn) (w : world) :
  let u := default "" (GARMIN_USERNAME env) in
  let p := default "" (GARMIN_PASSWORD env) in
  has_credentials env = true →
  truthy_str (kv w !! "garth_session") = false →
  garth_login out (S (tick w)) u p = Raise e →
  authenticate_garmin out env w
  = (Ok false, emits [KvGet "garth_session"; GarthLogin u p] w)
  ∧ sync_garmin_data out env w
    = (Ok {| success := false; activitiesProcessed := None; isInitialSync := None;
             error := Some (Exception "Failed to authenticate with Garmin");
             timestamp := clock out (S (S (tick w))) |},
       emits [KvGet "garth_session"; GarthLogin u p; Clock] w).
Proof.
  intros u p [Hu Hp]%andb_prop Hsaved Hlogin.
  assert (authenticate_garmin out env w
          = (Ok false, emits [KvGet "garth_session"; GarthLogin u p] w)) as Hauth.
  { rewrite authenticate_garmin_stages, try_except_run, Hu, Hp. simpl.
    rewrite bind_run, resume_session_run.
    assert (match kv w !! "garth_session" with
            | Some s => negb (String.eqb s "")
            | None => false
            end = false) as Hnone by exact Hsaved.
    assert (∀ w1, tick w1 = S (tick w) →
              match fresh_login out env w1 with
              | (Ok a, w') => (Ok a, w')
              | (Raise _, w') => (Ok false, w')
              end = (Ok false, emits [GarthLogin u p] w1)) as Hfresh.
    { intros w1 Hw1. rewrite fresh_login_run, Hw1. fold u p. by rewrite Hlogin. }
    destruct (kv w !! "garth_session") as [s|].
    - rewrite Hnone. cbv beta iota.
      by rewrite Hfresh by (rewrite tick_emits; simpl; lia).
    - cbv beta iota. by rewrite Hfresh by (rewrite tick_emits; simpl; lia). }
  split; [done|].
  unfold sync_garmin_data. rewrite try_except_run, bind_run, Hauth. simpl.
  rewrite bind_run. unfold now, call. by rewrite !tick_emit.
Qed.

Lemma rejected_login_fails_the_run_witness :
  has_credentials example_env = true
  ∧ truthy_str (kv empty_world !! "garth_session") = false
  ∧ garth_login outside_rejecting_login (S (tick empty_world)) "athlete" "secret"
    = Raise GarthException
  ∧ (sync_garmin_data outside_rejecting_login example_env empty_world).1
    = Ok {| success := false; activitiesProcessed := None; isInitialSync := None;
            error := Some (Exception "Failed to authenticate with Garmin");
            timestamp := example_clock 2 |}.
Proof.
  split; [reflexivity|]. split; [vm_refl|]. split; [reflexivity|].
  destruct (rejected_login_fails_the_run outside_rejecting_login example_env
              GarthException empty_world eq_refl eq_refl eq_refl) as [_ Hsync].
  rewrite Hsync. reflexivity.
Defined.

(** ** Edges of the fetch *)

Section FetchEdges.
Context (out : outside).

Lemma fetch_loop_round (fuel : nat) lst init (max : Z) all start (w : world) :
  Z.of_nat (length all) < max →
  fetch_loop out (S fuel) lst init max all start w
  = match page_step out lst init all start (garth_search out (tick w) PAGE_SIZE start) with
    | PageBreak all' => (Ok (Some all'), emit (GarthSearch PAGE_SIZE start) w)
    | PageContinue all' start' =>
        fetch_loop out fuel lst init max all' start' (emit (GarthSearch PAGE_SIZE start) w)
    end.
Proof.
  intros Hlt%Z.ltb_lt. cbn [fetch_loop]. rewrite Hlt, bind_run, fetch_page_run.
  by destruct (page_step _ _ _ _ _ _).
Qed.

Lemma fetch_activities_one_page lst init (l : list dict) (w : world) :
  page_step out lst init [] 0 (garth_search out (tick w) PAGE_SIZE 0) = PageBreak l →
  fetch_activities out lst init w = (Ok l, emit (GarthSearch PAGE_SIZE 0) w).
Proof.
  intros Hstep. unfold fetch_activities, fetch_activities_fuel. rewrite bind_run.
  assert (∃ fuel, Z.to_nat (max_activities_of init) = S fuel) as [fuel ->].
  { exists (Z.to_nat (max_activities_of init - 1)). destruct init; simpl; lia. }
  rewrite fetch_loop_round by (destruct init; simpl; lia).
  by rewrite Hstep.
Qed.

Lemma filter_newer_raises (T : datetime) (l : list dict) (a : dict) :
  a ∈ l → (∃ e, start_time out a = Raise e) → ∃ e, filter_newer out T l = Raise e.
Proof.
  intros Hin [e He]. induction l as [|b l IH]; [by apply elem_of_nil in Hin|].
  simpl. apply elem_of_cons in Hin as [<- | Hin].
  - rewrite He. by exists e.
  - destruct (start_time out b) as [t|e1]; simpl; [|by exists e1].
    destruct (datetime_gt t T) as [newer|e2]; simpl; [|by exists e2].
    destruct (IH Hin) as [e3 ->]. by exists e3.
Qed.

Lemma page_step_unfiltered lst init all start answer :
  truthy_str lst && negb init = false →
  page_step out lst init all start answer
  = match answer with
    | Ok (Some (a :: response)) =>
        if Z.of_nat (length (a :: response)) <? PAGE_SIZE
        then PageBreak (all ++ a :: response)
        else PageContinue (all ++ a :: response) (start + PAGE_SIZE)
    | _ => PageBreak all
    end.
Proof.
  intros Hfilter. unfold page_step, filtered_page. rewrite Hfilter.
  destruct answer as [[[|a response]|]|e]; try done.
  by rewrite Nat.ltb_irrefl.
Qed.

Lemma fetch_loop_unfiltered lst init (max : Z) (fuel : nat) all start (w w' : world) l :
  truthy_str lst && negb init = false →
  fetch_loop out fuel lst init max all start w = (Ok (Some l), w') →
  ∃ n, w' = emits (searches n start) w
       ∧ l = all ++ pages_received out n (tick w) start.
Proof.
  intros Hfilter. revert all start w.
  induction fuel as [|fuel IH]; intros all start w.
  - simpl. destruct (_ <? _); [done|]. intros [= <- <-]. exists 0%nat.
    by rewrite app_nil_r.
  - destruct (Z.of_nat (length all) <? max) eqn:Hlt.
    + apply Z.ltb_lt in Hlt. rewrite fetch_loop_round by done.
      rewrite page_step_unfiltered by done.
      destruct (garth_search out (tick w) PAGE_SIZE start) as [[[|a response]|]|e] eqn:Hans.
      * intros [= <- <-]. exists 1%nat. simpl. by rewrite Hans, !app_nil_r.
      * destruct (_ <? PAGE_SIZE).
        -- intros [= <- <-]. exists 1%nat. simpl. by rewrite Hans, !app_nil_r.
        -- intros (n & -> & ->)%IH. exists (S n). split; [done|].
           simpl. rewrite Hans, tick_emit. by rewrite <- app_assoc.
      * intros [= <- <-]. exists 1%nat. simpl. by rewrite Hans, !app_nil_r.
      * intros [= <- <-]. exists 1%nat. simpl. by rewrite Hans, !app_nil_r.
    + cbn [fetch_loop]. rewrite Hlt. intros [= <- <-]. exists 0%nat.
      by rewrite app_nil_r.
Qed.
End FetchEdges.

(** X11. When the first page request raises, or answers nothing or an
    empty list, [fetch_activities] returns the empty list after that one
    request, in an initial and in an incremental sync alike. *)
Theorem fetch_stops_at_empty_first_page
    (out : outside) (last_sync_time : option string) (is_initial_sync : bool) (w : world) :
  (∀ a response, garth_search out (tick w) PAGE_SIZE 0 ≠ Ok (Some (a :: response))) →
  fetch_activities out last_sync_time is_initial_sync w
  = (Ok [], emit (GarthSearch PAGE_SIZE 0) w).
Proof.
  intros Hempty. apply fetch_activities_one_page. unfold page_step.
  destruct (garth_search out (tick w) PAGE_SIZE 0) as [[[|a response]|]|e]; try done.
  by destruct (Hempty a response).
Qed.

Lemma fetch_stops_at_empty_first_page_witness :
  (∀ a response,
     garth_search (example_outside no_activity no_fault) (tick empty_world) PAGE_SIZE 0
     ≠ Ok (Some (a :: response)))
  ∧ fetch_activities (example_outside no_activity no_fault) None true empty_world
    = (Ok [], emit (GarthSearch PAGE_SIZE 0) empty_world).
Proof.
  assert (∀ a response,
            garth_search (example_outside no_activity no_fault) (tick empty_world)
              PAGE_SIZE 0
            ≠ Ok (Some (a :: response))) as Hempty by (intros a response; discriminate).
  split; [exact Hempty|].
  exact (fetch_stops_at_empty_first_page (example_outside no_activity no_fault) None true
           empty_world Hempty).
Defined.

(** X12. When no date filter is in force (an initial sync, or no
    watermark), [fetch_activities] returns exactly the records of the pages
    it asked for, in order: nothing is dropped and [startTimeLocal] is not
    looked at. *)
Theorem unfiltered_fetch_returns_every_page
    (out : outside) (last_sync_time : option string) (is_initial_sync : bool) (w : world) :
  truthy_str last_sync_time && negb is_initial_sync = false →
  ∃ n,
    fetch_activities out last_sync_time is_initial_sync w
    = (Ok (pages_received out n (tick w) 0), emits (searches n 0) w).
Proof.
  intros Hfilter.
  destruct (fetch_activities_run out last_sync_time is_initial_sync w)
    as (l & w' & Hfuel & ->).
  apply fetch_loop_unfiltered in Hfuel as (n & -> & ->); [|done].
  by exists n.
Qed.

Lemma unfiltered_fetch_returns_every_page_witness :
  truthy_str None && negb true = false
  ∧ ∃ n,
      fetch_activities (example_outside page_with_undated no_fault) None true empty_world
      = (Ok (pages_received (example_outside page_with_undated no_fault) n
               (tick empty_world) 0),
         emits (searches n 0) empty_world)
      ∧ pages_received (example_outside page_with_undated no_fault) 1 0 0
        = [raw_activity 7 "running" "2024-02-03T00:00:00"; undated_activity].
Proof.
  split; [reflexivity|].
  destruct (unfiltered_fetch_returns_every_page
              (example_outside page_with_undated no_fault) None true empty_world eq_refl)
    as [n Hrun].
  exists n. split; [exact Hrun|]. vm_refl.
Defined.

(** X13. In an incremental sync, one record of the first page whose start
    time cannot be read (no [startTimeLocal], not a string, or not an ISO
    date) makes the fetch return the empty list and stop: the exception of
    the date filter is caught by the loop, and the whole page is lost, the
    newer activities on it included. *)
Theorem incremental_fetch_loses_page_with_bad_record
    (out : outside) (last_sync_time : option string) (response : list dict) (a : dict)
    (w : world) :
  truthy_str last_sync_time = true →
  garth_search out (tick w) PAGE_SIZE 0 = Ok (Some response) →
  a ∈ response →
  (∃ e, start_time out a = Raise e) →
  fetch_activities out last_sync_time false w
  = (Ok [], emit (GarthSearch PAGE_SIZE 0) w).
Proof.
  intros Hlst Hans Hin Hbad. apply fetch_activities_one_page.
  unfold page_step. rewrite Hans.
  destruct response as [|b response]; [done|].
  unfold filtered_page. rewrite Hlst. simpl andb. cbv iota.
  destruct (fromisoformat out _) as [T|e]; [|done].
  change (match filter_newer out T (b :: response) with
          | Ok filtered =>
              if (length filtered <? length (b :: response))%nat
              then PageBreak ([] ++ filtered)
              else if Z.of_nat (length (b :: response)) <? PAGE_SIZE
                   then PageBreak ([] ++ filtered)
                   else PageContinue ([] ++ filtered) (0 + PAGE_SIZE)
          | Raise _ => PageBreak []
          end = PageBreak []).
  by destruct (filter_newer_raises out T (b :: response) a Hin Hbad) as [e ->].
Qed.

Lemma incremental_fetch_loses_page_with_bad_record_witness :
  truthy_str (Some "2024-02-02T00:00:00") = true
  ∧ garth_search (example_outside page_with_undated no_fault) (tick empty_world) PAGE_SIZE 0
    = Ok (Some [raw_activity 7 "running" "2024-02-03T00:00:00"; undated_activity])
  ∧ undated_activity ∈ [raw_activity 7 "running" "2024-02-03T00:00:00"; undated_activity]
  ∧ start_time (example_outside page_with_undated no_fault) undated_activity
    = Raise (KeyError "startTimeLocal")
  ∧ fetch_activities (example_outside page_with_undated no_fault)
      (Some "2024-02-02T00:00:00") false empty_world
    = (Ok [], emit (GarthSearch PAGE_SIZE 0) empty_world).
Proof.
  assert (undated_activity
          ∈ [raw_activity 7 "running" "2024-02-03T00:00:00"; undated_activity]) as Hin.
  { apply elem_of_cons. right. apply elem_of_cons. by left. }
  assert (start_time (example_outside page_with_undated no_fault) undated_activity
          = Raise (KeyError "startTimeLocal")) as Hbad by vm_refl.
  split; [reflexivity|]. split; [vm_refl|]. split; [exact Hin|]. split; [exact Hbad|].
  apply (incremental_fetch_loses_page_with_bad_record
           (example_outside page_with_undated no_fault) (Some "2024-02-02T00:00:00")
           [raw_activity 7 "running" "2024-02-03T00:00:00"; undated_activity]
           undated_activity empty_world).
  - reflexivity.
  - vm_refl.
  - exact Hin.
  - exists (KeyError "startTimeLocal"). exact Hbad.
Defined.

(** X14. [fetch_activity_exercise_sets] never raises and makes exactly
    one request: it returns the [exerciseSets] field of a non-empty object,
    and the empty list in every other case (the request raises, the answer
    is falsy, is not an object, or has no such field). *)
Theorem exercise_sets_fetch_never_fails
    (out : outside) (activity_id : pyval) (w : world) :
  fetch_activity_exercise_sets out activity_id w
  = (Ok (match garth_exercise_sets out (tick w) activity_id with
         | Ok (PDict answer) =>
             if truthy (PDict answer) then dict_get answer "exerciseSets" (PList [])
             else PList []
         | _ => PList []
         end),
     emit (GarthExerciseSets activity_id) w).
Proof.
  unfold fetch_activity_exercise_sets. rewrite try_except_run, bind_run.
  unfold call at 1.
  destruct (garth_exercise_sets out (tick w) activity_id) as [v|e]; [|done].
  destruct v as [| | | | | |answer]; by destruct (truthy _).
Qed.

(** ** Exercise sets *)

Lemma mapM_cons_Ok {A B} (f : A → result B) (x : A) (l : list A) (r : list B) :
  mapM f (x :: l) = Ok r → ∃ y r', f x = Ok y ∧ mapM f l = Ok r' ∧ r = y :: r'.
Proof.
  simpl. destruct (f x) as [y|]; [|done]. simpl.
  destruct (mapM f l) as [r'|]; [|done]. simpl. intros [= <-]. by exists y, r'.
Qed.

Lemma processed_unweighted_reps (d : dict) :
  dict_get (processed_unweighted (PDict d)) "reps" (PInt 0)
  = dict_get d "repetitionCount" (PInt 0).
Proof. vm_refl. Qed.

Lemma processed_unweighted_weight (d : dict) :
  dict_get (processed_unweighted (PDict d)) "weight" (PInt 0) = PNone.
Proof. vm_refl. Qed.

Lemma process_unweighted_sets (raw_sets : list pyval) :
  Forall unweighted raw_sets →
  mapM process_set raw_sets = Ok (processed_unweighted <$> raw_sets).
Proof.
  induction 1 as [|s l (d & n & -> & _ & Hw) _ IH]; [done|].
  simpl. rewrite (process_set_no_weight d Hw). simpl. by rewrite IH.
Qed.

Lemma unweighted_reps_sum (raw_sets : list pyval) (acc : Z) :
  Forall unweighted raw_sets →
  foldl (λ acc s, a ← acc; v ← Ok (dict_get s "reps" (PInt 0)); py_add a v)
    (Ok (PInt acc)) (processed_unweighted <$> raw_sets)
  = Ok (PInt (acc + foldr Z.add 0 (raw_reps <$> raw_sets))).
Proof.
  intros H. revert acc. induction H as [|s l (d & n & -> & Hn & _) _ IH]; intros acc.
  - simpl. do 2 f_equal. lia.
  - cbn [fmap list_fmap foldl foldr]. rewrite processed_unweighted_reps, Hn.
    change (a ← Ok (PInt acc); v ← Ok (PInt n); py_add a v) with (Ok (PInt (acc + n))).
    rewrite IH. unfold raw_reps at 2. rewrite Hn. do 2 f_equal. lia.
Qed.

Lemma unweighted_volume_sum (raw_sets : list pyval) :
  Forall unweighted raw_sets →
  foldl (λ acc s, a ← acc; v ← set_volume s; py_add a v)
    (Ok (PInt 0)) (processed_unweighted <$> raw_sets)
  = Ok (PInt 0).
Proof.
  induction 1 as [|s l (d & n & -> & Hn & _) _ IH]; [done|].
  cbn [fmap list_fmap foldl].
  assert (set_volume (processed_unweighted (PDict d)) = Ok (PInt 0)) as ->.
  { unfold set_volume. rewrite processed_unweighted_reps, processed_unweighted_weight, Hn.
    unfold py_or, py_mul. simpl. do 2 f_equal. lia. }
  exact IH.
Qed.

Lemma dict_item_get (d : dict) (key : string) :
  truthy (dict_get d key PNone) = true → dict_item d key = Ok (dict_get d key PNone).
Proof. unfold dict_item, dict_get. by destruct (d !! key). Qed.

(** X15. An exercise whose [sets] field is absent, falsy or not a list
    is processed without error into a group with no sets and totals 0; the
    name and the category default to the empty string. *)
Theorem exercise_without_set_list (exercise : dict) :
  truthy (dict_get exercise "sets" PNone) = false
  ∨ is_list (dict_get exercise "sets" PNone) = false →
  process_exercise_set (PDict exercise)
  = Ok (PDict (dict_of [("exerciseName", dict_get exercise "exerciseName" (PStr ""));
                        ("category", dict_get exercise "category" (PStr ""));
                        ("sets", PList []);
                        ("totalReps", PInt 0);
                        ("totalVolume", PInt 0)])).
Proof.
  intros Hsets. unfold process_exercise_set, py_get, py_item.
  cbn [mbind result_bind].
  destruct (truthy (dict_get exercise "sets" PNone)) eqn:Htruthy; [|done].
  rewrite dict_item_get by done. cbn [mbind result_bind].
  destruct Hsets as [|Hlist]; [done|]. by rewrite Hlist.
Qed.

Lemma exercise_without_set_list_witness :
  is_list (dict_get exercise_with_text_sets "sets" PNone) = false
  ∧ process_exercise_sets (PList [PDict exercise_with_text_sets])
    = Ok (PList [PDict (dict_of [("exerciseName", PStr "PLANK");
                                 ("category", PStr "");
                                 ("sets", PList []);
                                 ("totalReps", PInt 0);
                                 ("totalVolume", PInt 0)])]).
Proof.
  split; [vm_refl|].
  unfold process_exercise_sets. cbn [py_iter mbind result_bind mapM].
  rewrite (exercise_without_set_list exercise_with_text_sets) by (right; vm_refl).
  vm_refl.
Defined.

(** X16. For an exercise whose sets all have an integer repetition count
    (0 when absent) and no truthy weight, [process_exercise_sets] keeps the
    sets in order with weight [None], [totalReps] is the sum of the
    repetition counts and [totalVolume] is the integer 0. *)
Theorem unweighted_exercise_totals (exercise : dict) (raw_sets : list pyval) :
  exercise !! "sets" = Some (PList raw_sets) →
  Forall unweighted raw_sets →
  process_exercise_set (PDict exercise)
  = Ok (PDict (dict_of [("exerciseName", dict_get exercise "exerciseName" (PStr ""));
                        ("category", dict_get exercise "category" (PStr ""));
                        ("sets", PList (PDict <$> (processed_unweighted <$> raw_sets)));
                        ("totalReps", PInt (foldr Z.add 0 (raw_reps <$> raw_sets)));
                        ("totalVolume", PInt 0)])).
Proof.
  intros Hsets Hraw.
  assert (dict_get exercise "sets" PNone = PList raw_sets) as Hget
    by (unfold dict_get; by rewrite Hsets).
  assert (dict_item exercise "sets" = Ok (PList raw_sets)) as Hitem
    by (unfold dict_item; by rewrite Hsets).
  unfold process_exercise_set, py_get, py_item.
  cbn [mbind result_bind]. rewrite Hget, Hitem.
  cbn [mbind result_bind is_list py_iter truthy].
  assert (mapM process_set raw_sets = Ok (processed_unweighted <$> raw_sets)) as Hmap
    by by apply process_unweighted_sets.
  assert (sum_over (λ s, Ok (dict_get s "reps" (PInt 0))) (processed_unweighted <$> raw_sets)
          = Ok (PInt (foldr Z.add 0 (raw_reps <$> raw_sets)))) as Hreps.
  { unfold sum_over. by rewrite (unweighted_reps_sum raw_sets 0 Hraw). }
  assert (sum_over set_volume (processed_unweighted <$> raw_sets) = Ok (PInt 0)) as Hvolume
    by by apply unweighted_volume_sum.
  destruct raw_sets as [|s l]; [done|].
  rewrite Hmap. cbn [mbind result_bind]. rewrite Hreps, Hvolume. done.
Qed.

Lemma unweighted_exercise_totals_witness :
  pull_ups !! "sets" = Some (PList pull_up_sets)
  ∧ Forall unweighted pull_up_sets
  ∧ process_exercise_set (PDict pull_ups)
    = Ok (PDict (dict_of [("exerciseName", PStr "PULL_UP");
                          ("category", PStr "PULL_UP");
                          ("sets", PList (PDict <$> (processed_unweighted <$> pull_up_sets)));
                          ("totalReps", PInt 14);
                          ("totalVolume", PInt 0)])).
Proof.
  assert (pull_ups !! "sets" = Some (PList pull_up_sets)) as Hsets by vm_refl.
  assert (Forall unweighted pull_up_sets) as Hraw.
  { repeat constructor.
    - exists (dict_of [("repetitionCount", PInt 8)]), 8. split_and!; [reflexivity|vm_refl..].
    - exists (dict_of [("repetitionCount", PInt 6); ("weight", PInt 0)]), 6.
      split_and!; [reflexivity|vm_refl..]. }
  split; [exact Hsets|]. split; [exact Hraw|].
  rewrite (unweighted_exercise_totals pull_ups pull_up_sets Hsets Hraw). vm_refl.
Defined.

(** ** Rows of the store *)

Lemma activity_row_head (d : dict) (row : list pyval) (v : pyval) :
  mapM (dict_item d) activity_columns = Ok row → d !! "id" = Some v →
  ∃ rest, row = v :: rest.
Proof.
  unfold activity_columns. intros (y & r' & Hy & _ & ->)%mapM_cons_Ok Hid.
  unfold dict_item in Hy. rewrite Hid in Hy. injection Hy as <-. by exists r'.
Qed.

Lemma set_row_head (d : dict) (exercise : pyval) (i : Z) (set_data : pyval)
    (row : list pyval) (v : pyval) :
  set_row d exercise i set_data = Ok row → d !! "id" = Some v →
  ∃ rest, row = v :: rest.
Proof.
  unfold set_row, dict_item. intros Hrow Hid. rewrite Hid in Hrow.
  cbn [mbind result_bind] in Hrow.
  repeat match type of Hrow with
         | context [mbind _ ?x] =>
             destruct x; cbn [mbind result_bind] in Hrow; [|discriminate Hrow]
         end.
  injection Hrow as <-. by eexists.
Qed.

Lemma rows_from_head (d : dict) (exercise : pyval) (sets : list pyval) (i : Z)
    (rows : list (list pyval)) (v : pyval) :
  rows_from d exercise i sets = Ok rows → d !! "id" = Some v →
  Forall (λ row, ∃ rest, row = v :: rest) rows ∧ length rows = length sets.
Proof.
  intros Hrows Hid. revert i rows Hrows.
  induction sets as [|s sets IH]; intros i rows; simpl.
  - by intros [= <-].
  - destruct (set_row d exercise i s) as [row|] eqn:Hrow; [|done]. simpl.
    destruct (rows_from d exercise (i + 1) sets) as [rows'|] eqn:Hrows'; [|done]. simpl.
    intros [= <-]. destruct (IH _ _ Hrows') as [HF Hlen].
    split; [|simpl; by rewrite Hlen].
    constructor; [|done]. by eapply set_row_head.
Qed.

Lemma rows_of_exercises_head (d : dict) (exercises : list pyval)
    (rows : list (list pyval)) (v : pyval) :
  rows_of_exercises d exercises = Ok rows → d !! "id" = Some v →
  Forall (λ row, ∃ rest, row = v :: rest) rows.
Proof.
  intros Hrows Hid. revert rows Hrows.
  induction exercises as [|ex exercises IH]; intros rows; simpl.
  - by intros [= <-].
  - destruct (rows_of_exercise d ex) as [r|] eqn:Hr; [|done]. simpl.
    destruct (rows_of_exercises d exercises) as [more|]; [|done]. simpl.
    intros [= <-]. apply Forall_app. split; [|by apply IH].
    unfold rows_of_exercise in Hr.
    destruct (py_item ex "sets" ≫= py_iter) as [sets|]; [|done].
    by apply (rows_from_head _ _ _ _ _ _ Hr Hid).
Qed.

Section StoreRows.
Context (out : outside).

Lemma sets_inserted_nil (w : world) : sets_inserted [] w = w.
Proof. unfold sets_inserted. simpl. rewrite !app_nil_r. by destruct w. Qed.

Lemma sets_inserted_app (rows more : list (list pyval)) (w : world) :
  sets_inserted more (sets_inserted rows w) = sets_inserted (rows ++ more) w.
Proof. unfold sets_inserted. simpl. by rewrite fmap_app, !app_assoc. Qed.

Lemma tick_sets_inserted (rows : list (list pyval)) (w : world) :
  tick (sets_inserted rows w) = (tick w + length rows)%nat.
Proof. unfold tick, sets_inserted. simpl. by rewrite length_app, length_fmap. Qed.

Lemma db_insert_set_run (row : list pyval) (w : world) :
  db_error out (tick w) = false →
  db_insert_set out row w = (Ok (), sets_inserted [row] w).
Proof. intros Hdb. unfold db_insert_set. by rewrite Hdb. Qed.

Lemma insert_sets_run (d : dict) (exercise : pyval) (sets : list pyval) (i : Z)
    (rows : list (list pyval)) (w : world) :
  rows_from d exercise i sets = Ok rows →
  (∀ t, (tick w ≤ t)%nat → db_error out t = false) →
  for_enumerate i sets
    (λ i set_data, row ← lift (set_row d exercise i set_data); db_insert_set out row) w
  = (Ok (), sets_inserted rows w).
Proof.
  revert i rows w.
  induction sets as [|s sets IH]; intros i rows w; cbn [rows_from for_enumerate].
  - intros [= <-] _. by rewrite sets_inserted_nil.
  - destruct (set_row d exercise i s) as [row|] eqn:Hrow; [|done].
    cbn [mbind result_bind].
    destruct (rows_from d exercise (i + 1) sets) as [rows'|] eqn:Hrows'; [|done].
    cbn [mbind result_bind].
    intros [= <-] Hdb.
    rewrite bind_run, bind_run. unfold lift at 1. cbv beta iota.
    rewrite db_insert_set_run by (apply Hdb; lia).
    rewrite (IH _ _ _ Hrows').
    + by rewrite sets_inserted_app.
    + intros t Ht. apply Hdb. rewrite tick_sets_inserted in Ht. lia.
Qed.

Lemma insert_exercises_run (d : dict) (exercises : list pyval)
    (rows : list (list pyval)) (w : world) :
  rows_of_exercises d exercises = Ok rows →
  (∀ t, (tick w ≤ t)%nat → db_error out t = false) →
  for_each exercises (λ exercise,
    sets ← lift (py_item exercise "sets" ≫= py_iter);
    for_enumerate 0 sets
      (λ i set_data, row ← lift (set_row d exercise i set_data); db_insert_set out row)) w
  = (Ok (), sets_inserted rows w).
Proof.
  revert rows w.
  induction exercises as [|ex exercises IH]; intros rows w;
    cbn [rows_of_exercises for_each].
  - intros [= <-] _. by rewrite sets_inserted_nil.
  - destruct (rows_of_exercise d ex) as [r|] eqn:Hr; [|done].
    cbn [mbind result_bind].
    destruct (rows_of_exercises d exercises) as [more|] eqn:Hmore; [|done].
    cbn [mbind result_bind].
    intros [= <-] Hdb.
    unfold rows_of_exercise in Hr.
    rewrite bind_run, bind_run. unfold lift at 1.
    destruct (py_item ex "sets" ≫= py_iter) as [sets|]; [|done].
    cbn [mbind result_bind] in Hr. rewrite (insert_sets_run _ _ _ _ _ _ Hr Hdb).
    rewrite (IH more _ eq_refl).
    + by rewrite sets_inserted_app.
    + intros t Ht. apply Hdb. rewrite tick_sets_inserted in Ht. lia.
Qed.

(** [store_activity] on an activity that has every column and no
    exercise sets. *)
Lemma store_activity_row_run (d : dict) (z : Z) (row : list pyval) (w : world) :
  mapM (dict_item d) activity_columns = Ok row →
  d !! "id" = Some (PInt z) →
  truthy (dict_get d "exerciseSets" PNone) = false →
  db_error out (tick w) = false →
  store_activity out d w
  = (Ok (),
     {| kv := kv w; activities := <[z := row]> (activities w);
        exercise_sets := exercise_sets w;
        log := log w ++ [DbInsertActivity row] |}).
Proof.
  intros Hrow Hid Hsets Hdb.
  destruct (activity_row_head d row _ Hrow Hid) as [rest ->].
  unfold store_activity. rewrite try_except_run, bind_run. unfold lift at 1.
  rewrite Hrow, bind_run. unfold db_insert_activity at 1. rewrite Hdb, Hsets. done.
Qed.

(** [store_activity] on an activity that has every column and exercise
    sets, while the database does not fail. *)
Lemma store_activity_sets_run (d : dict) (z : Z) (row : list pyval)
    (rows : list (list pyval)) (w : world) :
  mapM (dict_item d) activity_columns = Ok row →
  d !! "id" = Some (PInt z) →
  truthy (dict_get d "exerciseSets" PNone) = true →
  exercise_set_rows d = Ok rows →
  (∀ t, (tick w ≤ t)%nat → db_error out t = false) →
  store_activity out d w = (Ok (), stored z row rows w).
Proof.
  intros Hrow Hid Hsets Hrows Hdb.
  destruct (activity_row_head d row _ Hrow Hid) as [rest ->].
  unfold exercise_set_rows in Hrows.
  destruct (dict_item d "exerciseSets" ≫= py_iter) as [exercises|] eqn:Hex; [|done].
  simpl in Hrows.
  unfold store_activity. rewrite try_except_run, bind_run. unfold lift at 1.
  rewrite Hrow, bind_run. unfold db_insert_activity at 1.
  rewrite (Hdb (tick w)) by lia. rewrite Hsets.
  rewrite bind_run. unfold lift at 1, dict_item at 1. rewrite Hid.
  rewrite bind_run. unfold db_delete_sets at 1.
  rewrite Hdb by (unfold tick, emit; simpl; rewrite length_app; simpl; lia).
  rewrite bind_run. unfold lift at 1. rewrite Hex.
  rewrite (insert_exercises_run d exercises rows _ Hrows).
  - unfold stored, sets_inserted, emit. simpl. by rewrite <- !app_assoc.
  - intros t Ht. apply Hdb. unfold tick, emit in *. simpl in Ht.
    rewrite !length_app in Ht. simpl in Ht. lia.
Qed.
End StoreRows.

(** ** From processed sets to rows *)

Lemma process_set_shape (set_data : pyval) (s : dict) :
  process_set set_data = Ok s →
  ∃ reps weight duration restTime,
    s = dict_of [("reps", reps); ("weight", weight);
                 ("duration", duration); ("restTime", restTime)].
Proof.
  unfold process_set.
  destruct (py_get set_data "repetitionCount" (PInt 0)) as [reps|]; [|done].
  cbn [mbind result_bind].
  destruct (py_get set_data "weight" PNone) as [has_weight|]; [|done].
  cbn [mbind result_bind].
  match goal with
  | |- context [mbind _ ?x] => destruct x as [weight|]; [|done]
  end.
  cbn [mbind result_bind].
  destruct (py_get set_data "duration" PNone) as [duration|]; [|done].
  cbn [mbind result_bind].
  destruct (py_get set_data "restTime" PNone) as [restTime|]; [|done].
  cbn [mbind result_bind].
  intros [= <-]. by exists reps, weight, duration, restTime.
Qed.

Lemma mapM_Forall {A B} (f : A → result B) (P : B → Prop) (l : list A) (r : list B) :
  (∀ x y, f x = Ok y → P y) → mapM f l = Ok r → Forall P r ∧ length r = length l.
Proof.
  intros HP. revert r. induction l as [|x l IH]; intros r.
  - by intros [= <-].
  - intros (y & r' & Hy & Hr' & ->)%mapM_cons_Ok.
    destruct (IH r' Hr') as [HF Hlen]. split; [|simpl; by rewrite Hlen].
    constructor; [by eapply HP|done].
Qed.

Lemma sum_over_Ok (f : dict → result pyval) (sets : list dict) (total : pyval) :
  sum_over f sets = Ok total → Forall (λ s, ∃ v, f s = Ok v) sets.
Proof.
  unfold sum_over.
  assert (∀ acc, foldl (λ acc s, a ← acc; v ← f s; py_add a v) acc sets = Ok total →
                 (∃ a, acc = Ok a) ∧ Forall (λ s, ∃ v, f s = Ok v) sets) as H.
  { induction sets as [|s sets IH]; intros acc; simpl.
    - intros ->. split; [by eexists|constructor].
    - intros [[a Ha] HF]%IH. destruct acc as [a0|]; [|done].
      cbn [mbind result_bind] in Ha.
      destruct (f s) as [v|] eqn:Hv; [|done].
      split; [by eexists|]. constructor; [by eexists|done]. }
  intros Htotal. by destruct (H _ Htotal).
Qed.

Lemma set_volume_processed (reps weight duration restTime : pyval) :
  set_volume (dict_of [("reps", reps); ("weight", weight);
                       ("duration", duration); ("restTime", restTime)])
  = py_mul reps (py_or weight (PInt 0)).
Proof.
  unfold set_volume.
  assert (dict_get (dict_of [("reps", reps); ("weight", weight);
                             ("duration", duration); ("restTime", restTime)])
            "reps" (PInt 0) = reps) as -> by vm_refl.
  assert (dict_get (dict_of [("reps", reps); ("weight", weight);
                             ("duration", duration); ("restTime", restTime)])
            "weight" (PInt 0) = weight) as -> by vm_refl.
  done.
Qed.

Lemma process_exercise_set_shape (exercise_set group : pyval) :
  process_exercise_set exercise_set = Ok group →
  ∃ exerciseName category sets totalReps totalVolume,
    group = PDict (dict_of [("exerciseName", exerciseName); ("category", category);
                            ("sets", PList (PDict <$> sets));
                            ("totalReps", totalReps); ("totalVolume", totalVolume)])
    ∧ Forall bindable_set sets.
Proof.
  unfold process_exercise_set.
  destruct (py_get exercise_set "sets" PNone) as [has_sets|]; [|done].
  cbn [mbind result_bind].
  match goal with
  | |- context [mbind _ ?x] => destruct x as [sets|] eqn:Hsets; [|done]
  end.
  cbn [mbind result_bind].
  destruct (py_get exercise_set "exerciseName" (PStr "")) as [exerciseName|]; [|done].
  cbn [mbind result_bind].
  destruct (py_get exercise_set "category" (PStr "")) as [category|]; [|done].
  cbn [mbind result_bind].
  destruct (sum_over (λ s, Ok (dict_get s "reps" (PInt 0))) sets) as [totalReps|]; [|done].
  cbn [mbind result_bind].
  destruct (sum_over set_volume sets) as [totalVolume|] eqn:Hvolume; [|done].
  cbn [mbind result_bind].
  intros [= <-]. exists exerciseName, category, sets, totalReps, totalVolume.
  split; [done|].
  assert (Forall (λ s, ∃ reps weight duration restTime,
                    s = dict_of [("reps", reps); ("weight", weight);
                                 ("duration", duration); ("restTime", restTime)]) sets)
    as Hshape.
  { destruct (truthy has_sets); [|injection Hsets as <-; constructor].
    destruct (py_item exercise_set "sets") as [raw|]; [|done].
    cbn [mbind result_bind] in Hsets.
    destruct (is_list raw); [|injection Hsets as <-; constructor].
    destruct (py_iter raw) as [items|]; [|done].
    cbn [mbind result_bind] in Hsets.
    by apply (mapM_Forall process_set _ items sets process_set_shape). }
  apply sum_over_Ok in Hvolume.
  rewrite Forall_forall in *. intros s Hs.
  destruct (Hshape s Hs) as (reps & weight & duration & restTime & ->).
  destruct (Hvolume _ Hs) as [v Hv]. rewrite set_volume_processed in Hv.
  by exists reps, weight, duration, restTime, v.
Qed.

Lemma bindable_rows (d : dict) (id exerciseName category group : pyval)
    (sets : list dict) (i : Z) :
  d !! "id" = Some id →
  py_item group "exerciseName" = Ok exerciseName →
  py_item group "category" = Ok category →
  Forall bindable_set sets →
  ∃ rows, rows_from d group i (PDict <$> sets) = Ok rows.
Proof.
  intros Hid Hname Hcategory HF. revert i.
  induction HF as [|s sets (reps & weight & duration & restTime & tv & -> & Htv) _ IH];
    intros i.
  - by exists [].
  - cbn [fmap list_fmap rows_from].
    destruct (IH (i + 1)) as [rows ->].
    set (s := dict_of [("reps", reps); _; _; _]).
    assert (set_row d group i (PDict s)
            = Ok [id; exerciseName; category; PInt (i + 1); reps; weight; duration;
                  restTime; tv]) as ->.
    { unfold set_row, dict_item. rewrite Hid, Hname, Hcategory.
      cbn [mbind result_bind].
      assert (py_item (PDict s) "reps" = Ok reps) as -> by vm_refl.
      assert (py_item (PDict s) "weight" = Ok weight) as -> by vm_refl.
      assert (py_item (PDict s) "duration" = Ok duration) as -> by vm_refl.
      assert (py_item (PDict s) "restTime" = Ok restTime) as -> by vm_refl.
      cbn [mbind result_bind]. by rewrite Htv. }
    by eexists.
Qed.

(** X17. What [process_exercise_sets] returns can always be bound by the
    set [INSERT]s of [store_activity]: for an activity with an [id] whose
    [exerciseSets] are such a result, every subscript and the volume
    product of every set row succeed, and every row starts with the id. *)
Theorem processed_sets_can_be_bound
    (full exercises : pyval) (d : dict) (id : pyval) :
  process_exercise_sets full = Ok exercises →
  d !! "id" = Some id →
  d !! "exerciseSets" = Some exercises →
  ∃ rows, exercise_set_rows d = Ok rows
          ∧ Forall (λ row, ∃ rest, row = id :: rest) rows.
Proof.
  intros Hprocessed Hid Hsets.
  assert (∃ rows, exercise_set_rows d = Ok rows) as [rows Hrows].
  { unfold process_exercise_sets in Hprocessed.
    destruct (py_iter full) as [items|]; [|done].
    cbn [mbind result_bind] in Hprocessed.
    destruct (mapM process_exercise_set items) as [groups|] eqn:Hgroups; [|done].
    cbn [mbind result_bind] in Hprocessed. injection Hprocessed as <-.
    unfold exercise_set_rows, dict_item. rewrite Hsets.
    cbn [mbind result_bind py_iter].
    destruct (mapM_Forall process_exercise_set _ items groups
                process_exercise_set_shape Hgroups) as [HF _].
    clear Hgroups Hsets. induction HF as [|g groups Hg _ IH]; [by exists []|].
    destruct Hg as (exerciseName & category & sets & totalReps & totalVolume & -> & Hb).
    destruct IH as [more Hmore].
    set (group := PDict (dict_of [("exerciseName", exerciseName); _; _; _; _])) in *.
    destruct (bindable_rows d id exerciseName category group sets 0 Hid
                ltac:(vm_refl) ltac:(vm_refl) Hb) as [rows Hrows].
    cbn [rows_of_exercises]. unfold rows_of_exercise.
    assert (py_item group "sets" ≫= py_iter = Ok (PDict <$> sets)) as -> by vm_refl.
    cbn [mbind result_bind]. rewrite Hrows, Hmore. by eexists. }
  exists rows. split; [done|].
  unfold exercise_set_rows in Hrows.
  destruct (dict_item d "exerciseSets" ≫= py_iter) as [exs|]; [|done].
  by apply (rows_of_exercises_head d exs rows id).
Qed.

Lemma processed_sets_can_be_bound_witness :
  process_exercise_sets bench_press_sets = Ok processed_bench_press
  ∧ complete_strength !! "id" = Some (PInt 1)
  ∧ complete_strength !! "exerciseSets" = Some processed_bench_press
  ∧ exercise_set_rows complete_strength = Ok bench_press_rows
  ∧ ∃ rows, exercise_set_rows complete_strength = Ok rows
            ∧ Forall (λ row, ∃ rest, row = PInt 1 :: rest) rows.
Proof.
  assert (process_exercise_sets bench_press_sets = Ok processed_bench_press) as Hp
    by vm_refl.
  assert (complete_strength !! "id" = Some (PInt 1)) as Hid by vm_refl.
  assert (complete_strength !! "exerciseSets" = Some processed_bench_press) as Hsets
    by vm_refl.
  split; [exact Hp|]. split; [exact Hid|]. split; [exact Hsets|]. split; [vm_refl|].
  exact (processed_sets_can_be_bound bench_press_sets processed_bench_press
           complete_strength (PInt 1) Hp Hid Hsets).
Defined.

(** ** Storing a complete activity *)

(** X18. For an activity that has every column of the [INSERT], an integer
    id and no exercise sets, [store_activity] runs one statement when the
    database does not fail: afterwards table [activities] holds the row of
    the 24 values under the id (replacing a row of the same id), every
    other row is as before, and table [exercise_sets] and the key-value
    store are unchanged. *)
Theorem store_activity_writes_the_row
    (out : outside) (d : dict) (z : Z) (row : list pyval) (w : world) :
  mapM (dict_item d) activity_columns = Ok row →
  d !! "id" = Some (PInt z) →
  truthy (dict_get d "exerciseSets" PNone) = false →
  db_error out (tick w) = false →
  ∃ w',
    store_activity out d w = (Ok (), w')
    ∧ log w' = log w ++ [DbInsertActivity row]
    ∧ activities w' !! z = Some row
    ∧ (∀ z', z' ≠ z → activities w' !! z' = activities w !! z')
    ∧ exercise_sets w' = exercise_sets w
    ∧ kv w' = kv w.
Proof.
  intros Hrow Hid Hsets Hdb. eexists.
  split; [by apply store_activity_row_run|]. cbn [log activities exercise_sets kv].
  split_and!; [done| |intros z' Hz'|done|done].
  - apply lookup_insert_eq.
  - by apply lookup_insert_ne.
Qed.

Lemma store_activity_writes_the_row_witness :
  mapM (dict_item complete_run) activity_columns = Ok complete_run_row
  ∧ complete_run !! "id" = Some (PInt 2)
  ∧ truthy (dict_get complete_run "exerciseSets" PNone) = false
  ∧ db_error (example_outside three_activities no_fault) (tick world_with_activity_2)
    = false
  ∧ ∃ w',
      store_activity (example_outside three_activities no_fault) complete_run
        world_with_activity_2
      = (Ok (), w')
      ∧ activities w' !! 2 = Some complete_run_row.
Proof.
  assert (mapM (dict_item complete_run) activity_columns = Ok complete_run_row) as Hrow
    by vm_refl.
  assert (complete_run !! "id" = Some (PInt 2)) as Hid by vm_refl.
  assert (truthy (dict_get complete_run "exerciseSets" PNone) = false) as Hsets
    by vm_refl.
  split; [exact Hrow|]. split; [exact Hid|]. split; [exact Hsets|].
  split; [reflexivity|].
  destruct (store_activity_writes_the_row (example_outside three_activities no_fault)
              complete_run 2 complete_run_row world_with_activity_2
              Hrow Hid Hsets eq_refl)
    as (w' & Hrun & _ & Hstored & _).
  exists w'. split; [exact Hrun|exact Hstored].
Defined.

(** X20. For an activity that has every column and exercise sets whose
    rows can be bound, [store_activity] on a database that does not fail
    writes the activity row, deletes the set rows of the activity and
    inserts the new ones in order: afterwards table [exercise_sets] holds
    the rows of the other activities followed by the new rows, all of
    which carry the id of the activity. *)
Theorem store_activity_replaces_exercise_sets
    (out : outside) (d : dict) (z : Z) (row : list pyval) (rows : list (list pyval))
    (w : world) :
  mapM (dict_item d) activity_columns = Ok row →
  d !! "id" = Some (PInt z) →
  truthy (dict_get d "exerciseSets" PNone) = true →
  exercise_set_rows d = Ok rows →
  (∀ t, (tick w ≤ t)%nat → db_error out t = false) →
  store_activity out d w = (Ok (), stored z row rows w)
  ∧ Forall (λ r, row_has_id (PInt z) r = true) rows
  ∧ Forall (λ r, row_has_id (PInt z) r = false)
      (List.filter (λ r, negb (row_has_id (PInt z) r)) (exercise_sets w)).
Proof.
  intros Hrow Hid Hsets Hrows Hdb.
  split; [by apply store_activity_sets_run|]. split.
  - unfold exercise_set_rows in Hrows.
    destruct (dict_item d "exerciseSets" ≫= py_iter) as [exs|]; [|done].
    eapply Forall_impl; [by apply (rows_of_exercises_head d exs rows (PInt z))|].
    intros r [rest ->]. simpl. apply Z.eqb_refl.
  - induction (exercise_sets w) as [|r l IH]; simpl; [constructor|].
    destruct (row_has_id (PInt z) r) eqn:Hr; simpl; [done|]. by constructor.
Qed.

Lemma store_activity_replaces_exercise_sets_witness :
  mapM (dict_item complete_strength) activity_columns = Ok complete_strength_row
  ∧ complete_strength !! "id" = Some (PInt 1)
  ∧ truthy (dict_get complete_strength "exerciseSets" PNone) = true
  ∧ exercise_set_rows complete_strength = Ok bench_press_rows
  ∧ (∀ t, (tick world_with_old_sets ≤ t)%nat →
          db_error (example_outside three_activities no_fault) t = false)
  ∧ store_activity (example_outside three_activities no_fault) complete_strength
      world_with_old_sets
    = (Ok (), stored 1 complete_strength_row bench_press_rows world_with_old_sets)
  ∧ exercise_sets (stored 1 complete_strength_row bench_press_rows world_with_old_sets)
    = [PInt 5; PStr "ROW"; PStr "ROW"; PInt 1; PInt 12; PNone; PNone; PNone; PInt 0]
      :: bench_press_rows.
Proof.
  assert (mapM (dict_item complete_strength) activity_columns = Ok complete_strength_row)
    as Hrow by vm_refl.
  assert (complete_strength !! "id" = Some (PInt 1)) as Hid by vm_refl.
  assert (truthy (dict_get complete_strength "exerciseSets" PNone) = true) as Hsets
    by vm_refl.
  assert (exercise_set_rows complete_strength = Ok bench_press_rows) as Hrows by vm_refl.
  assert (∀ t, (tick world_with_old_sets ≤ t)%nat →
               db_error (example_outside three_activities no_fault) t = false) as Hdb
    by (intros t _; reflexivity).
  split; [exact Hrow|]. split; [exact Hid|]. split; [exact Hsets|].
  split; [exact Hrows|]. split; [exact Hdb|].
  split; [|vm_refl].
  exact (proj1 (store_activity_replaces_exercise_sets
                  (example_outside three_activities no_fault) complete_strength 1
                  complete_strength_row bench_press_rows world_with_old_sets
                  Hrow Hid Hsets Hrows Hdb)).
Defined.

Lemma filter_none {A} (f : A → bool) (l : list A) :
  Forall (λ x, f x = false) l → List.filter f l = [].
Proof. induction 1 as [|x l Hx _ IH]; simpl; [done|]. by rewrite Hx. Qed.

Lemma filter_twice {A} (f : A → bool) (l : list A) :
  List.filter f (List.filter f l) = List.filter f l.
Proof.
  induction l as [|x l IH]; simpl; [done|].
  destruct (f x) eqn:Hx; simpl; [|done]. by rewrite Hx, IH.
Qed.

(** X21. Storing the same complete activity twice leaves the tables and
    the key-value store as storing it once does (the database not
    failing): the row replaces itself and the set rows are deleted and
    inserted again. *)
Theorem store_activity_is_idempotent
    (out : outside) (d : dict) (z : Z) (row : list pyval) (rows : list (list pyval))
    (w : world) :
  mapM (dict_item d) activity_columns = Ok row →
  d !! "id" = Some (PInt z) →
  truthy (dict_get d "exerciseSets" PNone) = true →
  exercise_set_rows d = Ok rows →
  (∀ t, (tick w ≤ t)%nat → db_error out t = false) →
  let once := (store_activity out d w).2 in
  let twice := ((store_activity out d;; store_activity out d) w).2 in
  ((store_activity out d;; store_activity out d) w).1 = Ok ()
  ∧ activities twice = activities once
  ∧ exercise_sets twice = exercise_sets once
  ∧ kv twice = kv once.
Proof.
  intros Hrow Hid Hsets Hrows Hdb once twice. unfold once, twice. clear once twice.
  rewrite bind_run.
  rewrite (store_activity_sets_run out d z row rows w) by done.
  rewrite (store_activity_sets_run out d z row rows (stored z row rows w)); try done.
  - cbn [fst snd stored activities exercise_sets kv].
    split; [done|]. split; [by rewrite insert_insert_eq|]. split; [|done].
    rewrite List.filter_app, filter_twice. f_equal.
    rewrite (filter_none _ rows); [by rewrite app_nil_r|].
    unfold exercise_set_rows in Hrows.
    destruct (dict_item d "exerciseSets" ≫= py_iter) as [exs|]; [|done].
    eapply Forall_impl; [by apply (rows_of_exercises_head d exs rows (PInt z))|].
    intros r [rest ->]. simpl. by rewrite Z.eqb_refl.
  - intros t Ht. apply Hdb. unfold tick, stored in *. simpl in Ht.
    rewrite length_app in Ht. lia.
Qed.

Lemma store_activity_is_idempotent_witness :
  mapM (dict_item complete_strength) activity_columns = Ok complete_strength_row
  ∧ complete_strength !! "id" = Some (PInt 1)
  ∧ truthy (dict_get complete_strength "exerciseSets" PNone) = true
  ∧ exercise_set_rows complete_strength = Ok bench_press_rows
  ∧ (∀ t, (tick world_with_old_sets ≤ t)%nat →
          db_error (example_outside three_activities no_fault) t = false)
  ∧ exercise_sets
      ((store_activity (example_outside three_activities no_fault) complete_strength;;
        store_activity (example_outside three_activities no_fault) complete_strength)
         world_with_old_sets).2
    = exercise_sets
        (store_activity (example_outside three_activities no_fault) complete_strength
           world_with_old_sets).2.
Proof.
  assert (mapM (dict_item complete_strength) activity_columns = Ok complete_strength_row)
    as Hrow by vm_refl.
  assert (complete_strength !! "id" = Some (PInt 1)) as Hid by vm_refl.
  assert (truthy (dict_get complete_strength "exerciseSets" PNone) = true) as Hsets
    by vm_refl.
  assert (exercise_set_rows complete_strength = Ok bench_press_rows) as Hrows by vm_refl.
  assert (∀ t, (tick world_with_old_sets ≤ t)%nat →
               db_error (example_outside three_activities no_fault) t = false) as Hdb
    by (intros t _; reflexivity).
  split; [exact Hrow|]. split; [exact Hid|]. split; [exact Hsets|].
  split; [exact Hrows|]. split; [exact Hdb|].
  exact (proj1 (proj2 (proj2 (store_activity_is_idempotent
                                (example_outside three_activities no_fault)
                                complete_strength 1 complete_strength_row bench_press_rows
                                world_with_old_sets Hrow Hid Hsets Hrows Hdb)))).
Defined.

(** X22. [store_activity] raises a database failure again and keeps what
    it wrote before it: when the [INSERT] of the activity fails nothing is
    written; when the [INSERT] succeeds and the [DELETE] of the old set
    rows fails, the activity row stays in table [activities] although the
    call raises. *)
Theorem store_activity_is_not_atomic
    (out : outside) (d : dict) (z : Z) (row : list pyval) (w : world) :
  mapM (dict_item d) activity_columns = Ok row →
  d !! "id" = Some (PInt z) →
  (db_error out (tick w) = true →
   store_activity out d w = (Raise DatabaseError, emit (DbInsertActivity row) w))
  ∧ (truthy (dict_get d "exerciseSets" PNone) = true →
     db_error out (tick w) = false → db_error out (S (tick w)) = true →
     ∃ w',
       store_activity out d w = (Raise DatabaseError, w')
       ∧ log w' = log w ++ [DbInsertActivity row; DbDeleteSets (PInt z)]
       ∧ activities w' = <[z := row]> (activities w)
       ∧ exercise_sets w' = exercise_sets w).
Proof.
  intros Hrow Hid.
  destruct (activity_row_head d row _ Hrow Hid) as [rest ->].
  split.
  - intros Hdb. unfold store_activity. rewrite try_except_run, bind_run. unfold lift at 1.
    rewrite Hrow, bind_run. unfold db_insert_activity at 1. rewrite Hdb.
    rewrite bind_run. unfold lift, dict_item. by rewrite Hid.
  - intros Hsets Hdb0 Hdb1. eexists. split.
    + unfold store_activity. rewrite try_except_run, bind_run. unfold lift at 1.
      rewrite Hrow, bind_run. unfold db_insert_activity at 1. rewrite Hdb0, Hsets.
      rewrite bind_run. unfold lift at 1, dict_item at 1. rewrite Hid.
      rewrite bind_run. unfold db_delete_sets at 1.
      assert (tick (emit (DbInsertActivity (PInt z :: rest))
                      {| kv := kv w; activities := <[z := PInt z :: rest]> (activities w);
                         exercise_sets := exercise_sets w; log := log w |})
              = S (tick w)) as ->
        by (unfold tick, emit; simpl; rewrite length_app; simpl; lia).
      rewrite Hdb1. rewrite bind_run. unfold lift, dict_item. rewrite Hid. reflexivity.
    + cbn [log activities exercise_sets emit]. by rewrite <- app_assoc.
Qed.

Lemma store_activity_is_not_atomic_witness :
  mapM (dict_item complete_strength) activity_columns = Ok complete_strength_row
  ∧ complete_strength !! "id" = Some (PInt 1)
  ∧ truthy (dict_get complete_strength "exerciseSets" PNone) = true
  ∧ db_error (example_outside three_activities second_statement_fails)
      (tick world_with_old_sets) = false
  ∧ db_error (example_outside three_activities second_statement_fails)
      (S (tick world_with_old_sets)) = true
  ∧ db_error (example_outside three_activities first_statement_fails)
      (tick world_with_old_sets) = true
  ∧ store_activity (example_outside three_activities first_statement_fails)
      complete_strength world_with_old_sets
    = (Raise DatabaseError,
       emit (DbInsertActivity complete_strength_row) world_with_old_sets)
  ∧ ∃ w',
      store_activity (example_outside three_activities second_statement_fails)
        complete_strength world_with_old_sets
      = (Raise DatabaseError, w')
      ∧ activities w' = <[1 := complete_strength_row]> (activities world_with_old_sets)
      ∧ exercise_sets w' = exercise_sets world_with_old_sets.
Proof.
  assert (mapM (dict_item complete_strength) activity_columns = Ok complete_strength_row)
    as Hrow by vm_refl.
  assert (complete_strength !! "id" = Some (PInt 1)) as Hid by vm_refl.
  assert (truthy (dict_get complete_strength "exerciseSets" PNone) = true) as Hsets
    by vm_refl.
  split; [exact Hrow|]. split; [exact Hid|]. split; [exact Hsets|].
  split; [reflexivity|]. split; [reflexivity|]. split; [reflexivity|].
  split.
  - exact (proj1 (store_activity_is_not_atomic
                    (example_outside three_activities first_statement_fails)
                    complete_strength 1 complete_strength_row world_with_old_sets
                    Hrow Hid) eq_refl).
  - destruct (proj2 (store_activity_is_not_atomic
                       (example_outside three_activities second_statement_fails)
                       complete_strength 1 complete_strength_row world_with_old_sets
                       Hrow Hid) Hsets eq_refl eq_refl)
      as (w' & Hrun & _ & Hactivities & Hrows).
    exists w'. split; [exact Hrun|]. split; [exact Hactivities|exact Hrows].
Defined.

(** ** What a successful store leaves *)

Lemma run_inv {A} (x y : A) (w1 w2 : world) :
  (Ok x, w1) = (Ok y, w2) → x = y ∧ w1 = w2.
Proof. by intros [= -> ->]. Qed.

Section StoreFrame.
Context (out : outside).

Lemma insert_sets_frame (d : dict) (exercise : pyval) (sets : list pyval) (i : Z)
    (w w' : world) (r : result unit) :
  for_enumerate i sets
    (λ i set_data, row ← lift (set_row d exercise i set_data); db_insert_set out row) w
  = (r, w') →
  activities w' = activities w ∧ kv w' = kv w.
Proof.
  revert i w. induction sets as [|s sets IH]; intros i w; cbn [for_enumerate].
  - by intros [= <- <-].
  - rewrite bind_run, bind_run. unfold lift at 1.
    destruct (set_row d exercise i s) as [row|e]; [|by intros [= <- <-]].
    unfold db_insert_set at 1.
    destruct (db_error out (tick w)); [by intros [= <- <-]|].
    intros [-> ->]%IH. done.
Qed.

Lemma insert_exercises_frame (d : dict) (exercises : list pyval) (w w' : world)
    (r : result unit) :
  for_each exercises (λ exercise,
    sets ← lift (py_item exercise "sets" ≫= py_iter);
    for_enumerate 0 sets
      (λ i set_data, row ← lift (set_row d exercise i set_data); db_insert_set out row)) w
  = (r, w') →
  activities w' = activities w ∧ kv w' = kv w.
Proof.
  revert w. induction exercises as [|ex exercises IH]; intros w; cbn [for_each].
  - by intros [= <- <-].
  - rewrite bind_run, bind_run. unfold lift at 1.
    destruct (py_item ex "sets" ≫= py_iter) as [sets|e]; [|by intros [= <- <-]].
    destruct (for_enumerate 0 sets _ w) as [[[]|e] w1] eqn:Hsets.
    + apply insert_sets_frame in Hsets as [<- <-]. apply IH.
    + apply insert_sets_frame in Hsets as [<- <-]. by intros [= <- <-].
Qed.

Lemma store_activity_handler (d : dict) (e : exn) (w : world) :
  ∃ e', (lift (dict_item d "id");; raise e : M unit) w = (Raise e', w).
Proof.
  rewrite bind_run. unfold lift. destruct (dict_item d "id"); by eexists.
Qed.

(** When [store_activity] returns, the row is in table [activities]. *)
Lemma store_activity_returns (d : dict) (w w' : world) :
  store_activity out d w = (Ok (), w') →
  ∃ z row,
    d !! "id" = Some (PInt z)
    ∧ mapM (dict_item d) activity_columns = Ok row
    ∧ activities w' = <[z := row]> (activities w)
    ∧ kv w' = kv w.
Proof.
  unfold store_activity. rewrite try_except_run, bind_run. unfold lift at 1.
  destruct (mapM (dict_item d) activity_columns) as [row|e] eqn:Hrow.
  2:{ destruct (store_activity_handler d e w) as [e' ->]. done. }
  rewrite bind_run. unfold db_insert_activity at 1.
  destruct (db_error out (tick w)).
  { destruct (store_activity_handler d DatabaseError
                (emit (DbInsertActivity row) w)) as [e' ->]. done. }
  assert (∀ w0, (∃ e', (lift (dict_item d "id");; raise DatabaseError : M unit) w0
                       = (Raise e', w0))) as Hhandler
    by (intros w0; apply store_activity_handler).
  destruct row as [|v rest].
  { destruct (Hhandler (emit (DbInsertActivity []) w)) as [e' ->]. done. }
  pose proof Hrow as Hhead. unfold activity_columns in Hhead.
  apply mapM_cons_Ok in Hhead as (y & r' & Hy & _ & [= <- <-]).
  assert (d !! "id" = Some v) as Hid.
  { unfold dict_item in Hy. destruct (d !! "id"); [by injection Hy as ->|done]. }
  destruct v as [|b|z|x|s|l|m];
    try (match goal with
         | |- context [emit (DbInsertActivity ?r) w] =>
             destruct (Hhandler (emit (DbInsertActivity r) w)) as [e' ->]; done
         end).
  set (w1 := emit (DbInsertActivity (PInt z :: rest)) _).
  destruct (truthy (dict_get d "exerciseSets" PNone)).
  2:{ intros [= <-]. by exists z, (PInt z :: rest). }
  rewrite bind_run. unfold lift at 1, dict_item at 1. rewrite Hid.
  rewrite bind_run. unfold db_delete_sets at 1.
  destruct (db_error out (tick w1)).
  { destruct (store_activity_handler d DatabaseError
                (emit (DbDeleteSets (PInt z)) w1)) as [e' ->]. done. }
  set (w2 := emit (DbDeleteSets (PInt z)) _).
  rewrite bind_run. unfold lift at 1.
  destruct (dict_item d "exerciseSets" ≫= py_iter) as [exercises|e].
  2:{ destruct (store_activity_handler d e w2) as [e' ->]. done. }
  destruct (for_each exercises _ w2) as [[[]|e] w3] eqn:Hloop.
  - apply insert_exercises_frame in Hloop as [Ha Hk].
    intros [= <-]. exists z, (PInt z :: rest). by rewrite Ha, Hk.
  - destruct (store_activity_handler d e w3) as [e' ->]. done.
Qed.
End StoreFrame.

(** X19. Whenever [store_activity] returns normally, the activity had an
    integer id and every column, and its row is in table [activities];
    a later lookup that does not fail finds it, so the loop of
    [process_and_store_activities] skips a record with that id. *)
Theorem stored_activity_is_found
    (out : outside) (d : dict) (w w' : world) :
  store_activity out d w = (Ok (), w') →
  ∃ z row,
    d !! "id" = Some (PInt z)
    ∧ mapM (dict_item d) activity_columns = Ok row
    ∧ activities w' !! z = Some row
    ∧ kv w' = kv w
    ∧ (db_error out (tick w') = false →
       get_activity_by_id out (PInt z) w'
       = (Ok (PDict {[ "id" := PInt z ]}), emit (DbFirst (PInt z)) w')
       ∧ ∀ (a : dict) (n : Z),
           a !! "activityId" = Some (PInt z) →
           process_one out a n w' = (Ok n, emit (DbFirst (PInt z)) w')).
Proof.
  intros (z & row & Hid & Hrow & Ha & Hk)%store_activity_returns.
  exists z, row. split_and!; [done..| |done|].
  - rewrite Ha. apply lookup_insert_eq.
  - intros Hdb.
    assert (activities w' !! z = Some row) as Hstored
      by (rewrite Ha; apply lookup_insert_eq).
    assert (get_activity_by_id out (PInt z) w'
            = (Ok (PDict {[ "id" := PInt z ]}), emit (DbFirst (PInt z)) w')) as Hget
      by (by rewrite get_activity_by_id_run, Hdb, Hstored).
    split; [done|]. intros a n Hactivity.
    unfold process_one. rewrite try_except_run, bind_run.
    unfold lift at 1, dict_item. rewrite Hactivity.
    by rewrite bind_run, Hget.
Qed.

Lemma stored_activity_is_found_witness :
  ∃ w',
    store_activity (example_outside three_activities no_fault) complete_run empty_world
    = (Ok (), w')
    ∧ ∃ row, activities w' !! 2 = Some row
    ∧ process_one (example_outside three_activities no_fault)
        (raw_activity 2 "running" "2024-02-02T00:00:00") 0 w'
      = (Ok 0, emit (DbFirst (PInt 2)) w').
Proof.
  destruct (store_activity (example_outside three_activities no_fault) complete_run
              empty_world) as [r w'] eqn:Hrun.
  assert (r = Ok ()) as ->.
  { change r with (r, w').1. rewrite <- Hrun. vm_refl. }
  exists w'. split; [reflexivity|].
  destruct (stored_activity_is_found (example_outside three_activities no_fault)
              complete_run empty_world w' Hrun)
    as (z & row & Hid & _ & Hstored & _ & Hfound).
  assert (z = 2) as ->.
  { assert (complete_run !! "id" = Some (PInt 2)) as Hid2 by vm_refl.
    rewrite Hid2 in Hid. by injection Hid as <-. }
  exists row. split; [exact Hstored|].
  apply (proj2 (Hfound eq_refl)). vm_refl.
Defined.

(** ** Processing one record *)

(** X23. When [process_activity_data] returns, it has read the clock
    twice and nothing else; the result carries the id, the name (['']
    when absent), the start time and the type ([typeKey], or ['unknown']
    when absent) of the record, [createdAt] is the first clock reading and
    [updatedAt] the second. *)
Theorem process_activity_data_fields
    (out : outside) (a d : dict) (w w' : world) :
  process_activity_data out a w = (Ok d, w') →
  w' = emits [Clock; Clock] w
  ∧ d !! "id" = a !! "activityId"
  ∧ d !! "name" = Some (dict_get a "activityName" (PStr ""))
  ∧ d !! "startTime" = Some (dict_get a "startTimeLocal" PNone)
  ∧ (∃ type, type_key a (PStr "unknown") = Ok type ∧ d !! "type" = Some type)
  ∧ d !! "createdAt" = Some (PStr (clock out (tick w)))
  ∧ d !! "updatedAt" = Some (PStr (clock out (S (tick w)))).
Proof.
  unfold process_activity_data.
  rewrite bind_run. unfold lift at 1.
  destruct (dict_item a "activityId") as [id|e] eqn:Hid; [|done].
  assert (a !! "activityId" = Some id) as Hid'.
  { unfold dict_item in Hid. destruct (a !! "activityId"); [by injection Hid as ->|done]. }
  rewrite bind_run. unfold lift at 1.
  destruct (type_key a (PStr "unknown")) as [ty|e]; [|done].
  rewrite bind_run. unfold now at 1, call at 1.
  rewrite bind_run. unfold now at 1, call at 1. rewrite tick_emit.
  set (base := dict_of _).
  rewrite bind_run. unfold lift at 1.
  destruct (type_key a PNone) as [v1|e]; [|done].
  rewrite bind_run.
  destruct (py_eq_str v1 "strength_training"
            && truthy (dict_get a "fullExerciseSets" PNone)).
  - rewrite bind_run. unfold lift at 1.
    destruct (dict_item a "fullExerciseSets") as [full|e]; [|done].
    rewrite bind_run. unfold lift at 1.
    destruct (process_exercise_sets full) as [sets|e]; [|done].
    unfold mret at 1, M_ret at 1. rewrite bind_run. unfold lift at 1.
    destruct (type_key a (PStr "")) as [v2|e]; [|done].
    destruct (py_in_strs v2 _); intros [<- <-]%run_inv; rewrite Hid';
      (split_and!; [done|vm_refl..| |vm_refl|vm_refl]); exists ty; (split; [done|vm_refl]).
  - unfold mret at 1, M_ret at 1. rewrite bind_run. unfold lift at 1.
    destruct (type_key a (PStr "")) as [v2|e]; [|done].
    destruct (py_in_strs v2 _); intros [<- <-]%run_inv; rewrite Hid';
      (split_and!; [done|vm_refl..| |vm_refl|vm_refl]); exists ty; (split; [done|vm_refl]).
Qed.

Lemma process_activity_data_fields_witness :
  process_activity_data (example_outside three_activities no_fault)
    (raw_activity 2 "running" "2024-02-02T00:00:00") empty_world
  = (Ok processed_run, emits [Clock; Clock] empty_world)
  ∧ processed_run !! "id"
    = raw_activity 2 "running" "2024-02-02T00:00:00" !! "activityId"
  ∧ processed_run !! "createdAt" = Some (PStr (example_clock 0))
  ∧ processed_run !! "updatedAt" = Some (PStr (example_clock 1)).
Proof.
  assert (process_activity_data (example_outside three_activities no_fault)
            (raw_activity 2 "running" "2024-02-02T00:00:00") empty_world
          = (Ok processed_run, emits [Clock; Clock] empty_world)) as Hrun by vm_refl.
  split; [exact Hrun|].
  destruct (process_activity_data_fields (example_outside three_activities no_fault)
              (raw_activity 2 "running" "2024-02-02T00:00:00") processed_run
              empty_world _ Hrun)
    as (_ & Hid & _ & _ & _ & Hcreated & Hupdated).
  split; [exact Hid|]. split; [exact Hcreated|exact Hupdated].
Defined.

(** X24. [process_activity_data] raises [KeyError('activityId')] on a
    record without an id, and [AttributeError] on a record whose
    [activityType] is present and not an object (JSON null included); in
    both cases before the clock is read. *)
Theorem process_activity_data_errors (out : outside) (a : dict) (w : world) :
  (a !! "activityId" = None →
   process_activity_data out a w = (Raise (KeyError "activityId"), w))
  ∧ (∀ v, is_Some (a !! "activityId") →
          a !! "activityType" = Some v → (∀ t, v ≠ PDict t) →
          process_activity_data out a w = (Raise AttributeError, w)).
Proof.
  split.
  - intros Hid. unfold process_activity_data. rewrite bind_run.
    unfold lift, dict_item. by rewrite Hid.
  - intros v [id Hid] Htype Hv. unfold process_activity_data. rewrite bind_run.
    unfold lift at 1, dict_item. rewrite Hid.
    rewrite bind_run. unfold lift at 1, type_key, dict_get. rewrite Htype.
    destruct v as [|b|n|x|s|l|t]; try done. by destruct (Hv t).
Qed.

Lemma process_activity_data_errors_witness :
  (activity_without_id !! "activityId" = None
   ∧ process_activity_data (example_outside three_activities no_fault)
       activity_without_id empty_world
     = (Raise (KeyError "activityId"), empty_world))
  ∧ (is_Some (activity_with_null_type !! "activityId")
     ∧ activity_with_null_type !! "activityType" = Some PNone
     ∧ (∀ t, PNone ≠ PDict t)
     ∧ process_activity_data (example_outside three_activities no_fault)
         activity_with_null_type empty_world
       = (Raise AttributeError, empty_world)).
Proof.
  assert (activity_without_id !! "activityId" = None) as Hnone by vm_refl.
  assert (is_Some (activity_with_null_type !! "activityId")) as Hid
    by (exists (PInt 4); vm_refl).
  assert (activity_with_null_type !! "activityType" = Some PNone) as Htype by vm_refl.
  assert (∀ t, PNone ≠ PDict t) as Hnull by (intros t; discriminate).
  split.
  - split; [exact Hnone|].
    exact (proj1 (process_activity_data_errors
                    (example_outside three_activities no_fault) activity_without_id
                    empty_world) Hnone).
  - split; [exact Hid|]. split; [exact Htype|]. split; [exact Hnull|].
    exact (proj2 (process_activity_data_errors
                    (example_outside three_activities no_fault) activity_with_null_type
                    empty_world) PNone Hid Htype Hnull).
Defined.

Lemma type_key_cases (a : dict) :
  (∀ dflt, type_key a dflt = Raise AttributeError)
  ∨ (∃ key, ∀ dflt, type_key a dflt = Ok key)
  ∨ (∀ dflt, type_key a dflt = Ok dflt).
Proof.
  unfold type_key, py_get.
  destruct (dict_get a "activityType" (PDict ∅)) as [|b|n|x|s|l|t]; try by left.
  right. unfold dict_get. destruct (t !! "typeKey") as [key|].
  - left. by exists key.
  - by right.
Qed.

Ltac lacks Hsome :=
  match type of Hsome with
  | is_Some ?t =>
      let H := fresh in
      let x := fresh in
      let Hx := fresh in
      assert (t = None) as H by vm_refl;
      destruct Hsome as [x Hx]; rewrite H in Hx; discriminate Hx
  end.

Ltac fails Hcond :=
  first [ discriminate Hcond
        | let H1 := fresh in
          let H2 := fresh in
          destruct Hcond as [H1 H2]; first [discriminate H1 | discriminate H2] ].

Ltac holds := first [ reflexivity | by split ].

Ltac cardio_fields a :=
  match goal with
  | |- is_Some (_ !! "averagePower") ↔ _ =>
      split; [intros _; holds|intros _; exists (dict_get a "avgPower" PNone); vm_refl]
  | |- is_Some (_ !! "maxCadence") ↔ _ =>
      split; [intros _; holds
             |intros _;
              exists (py_or (dict_get a "maxRunCadence" PNone)
                            (dict_get a "maxBikeCadence" PNone)); vm_refl]
  end.

Ltac strength_fields a sets :=
  match goal with
  | |- is_Some (_ !! "exerciseSets") ↔ _ =>
      split; [intros _; holds|intros _; exists sets; vm_refl]
  | |- is_Some (_ !! "totalReps") ↔ _ =>
      split; [intros _; holds|intros _; exists (dict_get a "totalReps" PNone); vm_refl]
  end.

Ltac no_fields :=
  match goal with
  | |- is_Some _ ↔ _ =>
      let H := fresh in
      split; intros H; exfalso; [lacks H|fails H]
  end.

(** X25. In the result of [process_activity_data] the power and cadence
    fields are present exactly for the types cycling, running and walking,
    and [exerciseSets] and [totalReps] exactly for a strength training
    whose [fullExerciseSets] is truthy. *)
Theorem sport_specific_fields
    (out : outside) (a d : dict) (w w' : world) :
  process_activity_data out a w = (Ok d, w') →
  ∃ type,
    d !! "type" = Some type
    ∧ (is_Some (d !! "averagePower")
       ↔ py_in_strs type ["cycling"; "running"; "walking"] = true)
    ∧ (is_Some (d !! "maxCadence")
       ↔ py_in_strs type ["cycling"; "running"; "walking"] = true)
    ∧ (is_Some (d !! "exerciseSets")
       ↔ py_eq_str type "strength_training" = true
         ∧ truthy (dict_get a "fullExerciseSets" PNone) = true)
    ∧ (is_Some (d !! "totalReps")
       ↔ py_eq_str type "strength_training" = true
         ∧ truthy (dict_get a "fullExerciseSets" PNone) = true).
Proof.
  unfold process_activity_data.
  rewrite bind_run. unfold lift at 1.
  destruct (dict_item a "activityId") as [ident|e]; [|done].
  rewrite bind_run. unfold lift at 1.
  destruct (type_key_cases a) as [Hk | [[key Hk] | Hk]]; rewrite !Hk; [done| |].
  - cbv beta iota.
    rewrite bind_run. unfold now at 1, call at 1.
    rewrite bind_run. unfold now at 1, call at 1.
    set (base := dict_of _).
    rewrite bind_run. unfold lift at 1. cbv beta iota.
    rewrite bind_run.
    destruct (py_eq_str key "strength_training") eqn:Hs;
      destruct (truthy (dict_get a "fullExerciseSets" PNone)) eqn:Hf;
      cbn [andb]; cbv beta iota.
    + rewrite bind_run. unfold lift at 1.
      destruct (dict_item a "fullExerciseSets") as [full|e]; [|done].
      rewrite bind_run. unfold lift at 1.
      destruct (process_exercise_sets full) as [sets|e]; [|done].
      unfold mret at 1, M_ret at 1. rewrite bind_run. unfold lift at 1.
      destruct (py_in_strs key _) eqn:Hc; intros [<- <-]%run_inv; exists key;
        rewrite ?Hc, ?Hs, ?Hf; (split; [vm_refl|]).
      * split_and!; first [cardio_fields a | strength_fields a sets].
      * split_and!; first [strength_fields a sets | no_fields].
    + unfold mret at 1, M_ret at 1. rewrite bind_run. unfold lift at 1.
      destruct (py_in_strs key _) eqn:Hc; intros [<- <-]%run_inv; exists key;
        rewrite ?Hc, ?Hs, ?Hf; (split; [vm_refl|]).
      * split_and!; first [cardio_fields a | no_fields].
      * split_and!; no_fields.
    + unfold mret at 1, M_ret at 1. rewrite bind_run. unfold lift at 1.
      destruct (py_in_strs key _) eqn:Hc; intros [<- <-]%run_inv; exists key;
        rewrite ?Hc, ?Hs, ?Hf; (split; [vm_refl|]).
      * split_and!; first [cardio_fields a | no_fields].
      * split_and!; no_fields.
    + unfold mret at 1, M_ret at 1. rewrite bind_run. unfold lift at 1.
      destruct (py_in_strs key _) eqn:Hc; intros [<- <-]%run_inv; exists key;
        rewrite ?Hc, ?Hs, ?Hf; (split; [vm_refl|]).
      * split_and!; first [cardio_fields a | no_fields].
      * split_and!; no_fields.
  - cbv beta iota.
    rewrite bind_run. unfold now at 1, call at 1.
    rewrite bind_run. unfold now at 1, call at 1.
    set (base := dict_of _).
    rewrite bind_run. unfold lift at 1. cbv beta iota.
    rewrite bind_run. cbn [py_eq_str andb]. cbv beta iota.
    unfold mret at 1, M_ret at 1. rewrite bind_run. unfold lift at 1.
    cbv beta iota. cbn [py_in_strs existsb py_eq_str String.eqb Ascii.eqb orb].
    intros [<- <-]%run_inv. exists (PStr "unknown"). split; [vm_refl|].
    split_and!; no_fields.
Qed.

Lemma sport_specific_fields_witness :
  process_activity_data (example_outside three_activities no_fault)
    (raw_activity 2 "running" "2024-02-02T00:00:00") empty_world
  = (Ok processed_run, emits [Clock; Clock] empty_world)
  ∧ ∃ type,
      processed_run !! "type" = Some type
      ∧ (is_Some (processed_run !! "averagePower")
         ↔ py_in_strs type ["cycling"; "running"; "walking"] = true)
      ∧ (is_Some (processed_run !! "totalReps")
         ↔ py_eq_str type "strength_training" = true
           ∧ truthy (dict_get (raw_activity 2 "running" "2024-02-02T00:00:00")
                       "fullExerciseSets" PNone) = true).
Proof.
  assert (process_activity_data (example_outside three_activities no_fault)
            (raw_activity 2 "running" "2024-02-02T00:00:00") empty_world
          = (Ok processed_run, emits [Clock; Clock] empty_world)) as Hrun by vm_refl.
  split; [exact Hrun|].
  destruct (sport_specific_fields (example_outside three_activities no_fault)
              (raw_activity 2 "running" "2024-02-02T00:00:00") processed_run
              empty_world _ Hrun)
    as (type & Htype & Hpower & _ & _ & Hreps).
  exists type. split; [exact Htype|]. split; [exact Hpower|exact Hreps].
Defined.

(** ** Requests a run makes *)

Section Requests.
Context (out : outside).

(** The loop asks for a page only while the ceiling is not reached, and
    every page that lets it go on brings at least [PAGE_SIZE] records. *)
Lemma fetch_loop_requests lst init (max : Z) (fuel : nat) all start (w w' : world) r :
  fetch_loop out fuel lst init max all start w = (r, w') →
  ∃ n, w' = emits (searches n start) w
       ∧ (max - Z.of_nat (length all) ≤ 0 → n = 0%nat)
       ∧ (0 < max - Z.of_nat (length all) →
          PAGE_SIZE * Z.of_nat n ≤ max - Z.of_nat (length all) + (PAGE_SIZE - 1))
       ∧ (0 < max - Z.of_nat (length all) → fuel ≠ 0%nat → n ≠ 0%nat).
Proof.
  revert all start w. induction fuel as [|fuel IH]; intros all start w.
  - cbn [fetch_loop]. destruct (_ <? _) eqn:Hlt; intros [= <- <-]; exists 0%nat;
      (split; [done|]); unfold PAGE_SIZE; split_and!; (lia || done).
  - destruct (Z.of_nat (length all) <? max) eqn:Hlt.
    + apply Z.ltb_lt in Hlt. rewrite fetch_loop_round by done.
      pose proof (page_step_inv out lst init all start
                    (garth_search out (tick w) PAGE_SIZE start)) as Hinv.
      destruct (page_step _ _ _ _ _ _) as [all'|all' start'].
      * intros [= <- <-]. exists 1%nat. split; [done|]. unfold PAGE_SIZE.
        split_and!; lia.
      * destruct Hinv as (-> & response & _ & -> & _ & Hfull).
        intros (n & -> & Hzero & Hmore & _)%IH. exists (S n). split; [done|].
        rewrite length_app in Hzero, Hmore. unfold PAGE_SIZE in *.
        split_and!; [lia| |lia].
        intros _.
        destruct (decide (max - Z.of_nat (length all + length response) ≤ 0)) as [Hle|Hgt].
        -- rewrite (Hzero Hle). lia.
        -- specialize (Hmore ltac:(lia)). lia.
    + cbn [fetch_loop]. rewrite Hlt. intros [= <- <-]. exists 0%nat.
      apply Z.ltb_ge in Hlt. split; [done|]. split_and!; lia.
Qed.
End Requests.

(** X26. Whatever the endpoint answers, [fetch_activities] makes at least
    one and at most 75 page requests in an initial sync and at most 5
    otherwise, at consecutive offsets from 0, and no other external
    call. *)
Theorem fetch_request_budget
    (out : outside) (last_sync_time : option string) (is_initial_sync : bool) (w : world) :
  ∃ fetched n,
    fetch_activities out last_sync_time is_initial_sync w
    = (Ok fetched, emits (searches n 0) w)
    ∧ (1 ≤ n)%nat
    ∧ Z.of_nat n ≤ (if is_initial_sync then 75 else 5).
Proof.
  destruct (fetch_activities_run out last_sync_time is_initial_sync w)
    as (l & w' & Hfuel & Hrun).
  apply fetch_loop_requests in Hfuel as (n & -> & _ & Hmore & Hsome).
  exists l, n. split; [done|].
  unfold max_activities_of, PAGE_SIZE in Hmore, Hsome. simpl in Hmore, Hsome.
  destruct is_initial_sync.
  - specialize (Hsome ltac:(lia) ltac:(lia)). lia.
  - specialize (Hsome ltac:(lia) ltac:(lia)). lia.
Qed.

Section Enrichment.
Context (out : outside).

(** One activity of the loop, with the calls it makes up to the
    enrichment. *)
Lemma process_one_enrichment (a : dict) (n : Z) (w : world) :
  ∃ new,
    (process_one out a n w).2 = emits new w
    ∧ match dict_item a "activityId" with
      | Ok id =>
          let existing := (get_activity_by_id out id w).1 in
          match existing, type_key a PNone with
          | Ok existing, Ok type =>
              if negb (truthy existing) && py_eq_str type "strength_training"
              then ∃ tail, new = DbFirst id :: GarthExerciseSets id :: tail
                           ∧ count is_enrichment tail = 0%nat
              else count is_enrichment new = 0%nat
          | _, _ => count is_enrichment new = 0%nat
          end
      | Raise _ => new = []
      end.
Proof.
  unfold process_one. rewrite try_except_run, bind_run. unfold lift at 1.
  destruct (dict_item a "activityId") as [id|e]; [|by exists []].
  rewrite bind_run, get_activity_by_id_run. cbn [fst].
  set (existing := if db_error out (tick w) then _ else _).
  unfold should_update_activity. rewrite andb_true_r.
  destruct (truthy existing).
  { exists [DbFirst id]. split; [done|]. by destruct (type_key a PNone). }
  rewrite bind_run. unfold lift at 1.
  destruct (type_key a PNone) as [ty|e]; [|by exists [DbFirst id]].
  rewrite bind_run. cbn [negb andb].
  destruct (py_eq_str ty "strength_training").
  - rewrite bind_run.
    destruct (fetch_activity_exercise_sets_run out id (emit (DbFirst id) w)) as [full ->].
    unfold mret at 1, M_ret at 1. rewrite bind_run.
    pose proof (process_activity_data_result out (<["fullExerciseSets" := full]> a)
                  (emit (GarthExerciseSets id) (emit (DbFirst id) w))) as Hp.
    destruct (process_activity_data _ _ _) as [[d|e] w1].
    + destruct Hp as [Hd ->].
      destruct (store_activity_unstorable out d
                  (emits [Clock; Clock] (emit (GarthExerciseSets id) (emit (DbFirst id) w)))
                  Hd) as [key Hk].
      rewrite bind_run, Hk.
      exists [DbFirst id; GarthExerciseSets id; Clock; Clock]. split; [done|].
      by exists [Clock; Clock].
    + destruct Hp as [-> | ->].
      * exists [DbFirst id; GarthExerciseSets id]. split; [done|]. by exists [].
      * exists [DbFirst id; GarthExerciseSets id; Clock; Clock]. split; [done|].
        by exists [Clock; Clock].
  - unfold mret at 1, M_ret at 1. rewrite bind_run.
    pose proof (process_activity_data_result out a (emit (DbFirst id) w)) as Hp.
    destruct (process_activity_data _ _ _) as [[d|e] w1].
    + destruct Hp as [Hd ->].
      destruct (store_activity_unstorable out d
                  (emits [Clock; Clock] (emit (DbFirst id) w)) Hd) as [key Hk].
      rewrite bind_run, Hk.
      by exists [DbFirst id; Clock; Clock].
    + destruct Hp as [-> | ->].
      * by exists [DbFirst id].
      * by exists [DbFirst id; Clock; Clock].
Qed.
End Enrichment.

(** X27. One activity of the loop of [process_and_store_activities] asks
    the exercise-set endpoint at most once, and exactly when the record
    has an id, the lookup does not find it stored and its type is
    strength training; the request then directly follows the lookup. *)
Theorem enrichment_only_for_strength
    (out : outside) (a : dict) (n : Z) (w : world) :
  ∃ new,
    log (process_one out a n w).2 = log w ++ new
    ∧ (count is_enrichment new ≤ 1)%nat
    ∧ (count is_enrichment new = 1%nat →
       ∃ id existing type tail,
         a !! "activityId" = Some id
         ∧ (get_activity_by_id out id w).1 = Ok existing
         ∧ truthy existing = false
         ∧ type_key a PNone = Ok type
         ∧ py_eq_str type "strength_training" = true
         ∧ new = DbFirst id :: GarthExerciseSets id :: tail)
    ∧ (∀ id existing type,
         a !! "activityId" = Some id →
         (get_activity_by_id out id w).1 = Ok existing →
         truthy existing = false →
         type_key a PNone = Ok type →
         py_eq_str type "strength_training" = true →
         count is_enrichment new = 1%nat).
Proof.
  destruct (process_one_enrichment out a n w) as (new & Hnew & Hcases).
  exists new. split; [by rewrite Hnew, log_emits|].
  assert (∀ id tail, count is_enrichment tail = 0%nat →
            count is_enrichment (DbFirst id :: GarthExerciseSets id :: tail) = 1%nat)
    as Hone.
  { intros id tail Htail. unfold count in *. simpl. by rewrite Htail. }
  unfold dict_item in Hcases.
  destruct (a !! "activityId") as [id|] eqn:Hid.
  2:{ subst new. change (count is_enrichment []) with 0%nat.
      split_and!; [lia|done|]. by intros id existing type [=]. }
  cbv zeta in Hcases.
  destruct ((get_activity_by_id out id w).1) as [existing|e] eqn:Hget.
  2:{ rewrite Hcases. split_and!; [lia|done|].
      intros id' existing' type [= <-]. by rewrite Hget. }
  destruct (type_key a PNone) as [type|e] eqn:Htype.
  2:{ rewrite Hcases. split_and!; [lia|done|]. by intros id' existing' type' _ _ _ [=]. }
  destruct (truthy existing) eqn:Hexisting; cbn [negb andb] in Hcases.
  { rewrite Hcases. split_and!; [lia|done|].
    intros id' existing' type' [= <-]. rewrite Hget. intros [= <-]. by rewrite Hexisting. }
  destruct (py_eq_str type "strength_training") eqn:Hstrength.
  - destruct Hcases as (tail & -> & Htail). rewrite (Hone id tail Htail).
    split_and!; [lia| |done].
    intros _. by exists id, existing, type, tail.
  - rewrite Hcases. split_and!; [lia|done|].
    intros id' existing' type' _ _ _ [= <-]. by rewrite Hstrength.
Qed.

Lemma enrichment_only_for_strength_witness :
  ∃ new,
    log (process_one (example_outside three_activities no_fault)
           (raw_activity 1 "strength_training" "2024-02-03T00:00:00") 0 empty_world).2
    = log empty_world ++ new
    ∧ count is_enrichment new = 1%nat.
Proof.
  destruct (enrichment_only_for_strength (example_outside three_activities no_fault)
              (raw_activity 1 "strength_training" "2024-02-03T00:00:00") 0 empty_world)
    as (new & Hlog & _ & _ & Hstrength).
  exists new. split; [exact Hlog|].
  apply (Hstrength (PInt 1) PNone (PStr "strength_training")).
  - vm_refl.
  - vm_refl.
  - reflexivity.
  - vm_refl.
  - reflexivity.
Defined.
